(** * N64 ROM ingestion (support/n64/n64.cpp): a shallow embedding

    The development follows the C++ source function by function:
    [fnv_hash], [detectRomFormat], [normalizeData], [normalizeString],
    [detect_rom_settings_in_db], [detect_rom_settings_in_dbs],
    [detect_rom_settings_from_first_chunk], [md5_to_hex] and [n64_rom_tx].

    Calls that leave the translation unit (status register, file transfer,
    on-screen display, text reader, printf) are recorded as events of a
    trace, in program order.  The status register is threaded as state. *)

From Stdlib Require Import ZArith Lia String Ascii.
From Stdlib.Strings Require Import Byte.
From stdpp Require Import base option list strings gmap.

Open Scope string_scope.
Open Scope list_scope.
Open Scope Z_scope.

(* ===================================================================== *)
(** * Enumerations *)
(* ===================================================================== *)

Module MemoryType.
Inductive t := NONE | EEPROM_512 | EEPROM_2k | SRAM_32k | SRAM_96k | FLASH_128k.

Definition to_Z (m : t) : Z :=
  match m with
  | NONE => 0 | EEPROM_512 => 1 | EEPROM_2k => 2
  | SRAM_32k => 3 | SRAM_96k => 4 | FLASH_128k => 5
  end.
End MemoryType.

Module CIC.
Inductive t :=
| CIC_NUS_6101 | CIC_NUS_6102 | CIC_NUS_7101 | CIC_NUS_7102
| CIC_NUS_6103 | CIC_NUS_7103 | CIC_NUS_6105 | CIC_NUS_7105
| CIC_NUS_6106 | CIC_NUS_7106 | CIC_NUS_8303 | CIC_NUS_8401
| CIC_NUS_5167 | CIC_NUS_DDUS.

Definition to_Z (c : t) : Z :=
  match c with
  | CIC_NUS_6101 => 0 | CIC_NUS_6102 => 1 | CIC_NUS_7101 => 2
  | CIC_NUS_7102 => 3 | CIC_NUS_6103 => 4 | CIC_NUS_7103 => 5
  | CIC_NUS_6105 => 6 | CIC_NUS_7105 => 7 | CIC_NUS_6106 => 8
  | CIC_NUS_7106 => 9 | CIC_NUS_8303 => 10 | CIC_NUS_8401 => 11
  | CIC_NUS_5167 => 12 | CIC_NUS_DDUS => 13
  end.
End CIC.

Module SystemType.
Inductive t := NTSC | PAL.

Definition to_Z (s : t) : Z := match s with NTSC => 0 | PAL => 1 end.

Definition eqb (a b : t) : bool :=
  match a, b with NTSC, NTSC | PAL, PAL => true | _, _ => false end.
End SystemType.

Module RomFormat.
Inductive t := UNKNOWN | BIG_ENDIAN | BYTE_SWAPPED | LITTLE_ENDIAN.
End RomFormat.

Module AutoDetect.
Inductive t := ON | OFF.

(** The cast [(AutoDetect)user_io_status_get("[64]")] of a one-bit field. *)
Definition of_Z (v : Z) : t := if v =? 0 then ON else OFF.

Definition is_on (a : t) : bool := match a with ON => true | OFF => false end.
End AutoDetect.

(* ===================================================================== *)
(** * Bytes, characters and C strings *)
(* ===================================================================== *)

Definition byte_val (b : byte) : Z := Z.of_N (Byte.to_N b).
Definition char_val (c : ascii) : Z := Z.of_N (N_of_ascii c).

(** A C string is a [string] without an embedded NUL; where the source
    walks a [char*] up to the terminator, the model stops at a NUL too. *)
Definition is_nul (c : ascii) : bool := (char_val c =? 0).

(** ** [fnv_hash] *)

Definition FNV_PRIME : Z := 0x100000001b3.
Definition FNV_OFFSET_BASIS : Z := 0xcbf29ce484222325.
Definition wrap64 (x : Z) : Z := x mod 2 ^ 64.

(** [while (uint8_t a = *(s++)) h = (h ^ a) * FNV_PRIME;] on [uint64_t]. *)
Fixpoint fnv_hash_from (s : string) (h : Z) : Z :=
  match s with
  | EmptyString => h
  | String a s' =>
      if is_nul a then h
      else fnv_hash_from s' (wrap64 (Z.lxor h (char_val a) * FNV_PRIME))
  end.

Definition fnv_hash (s : string) : Z := fnv_hash_from s FNV_OFFSET_BASIS.

(** A [switch] over [fnv_hash] constants: the first label whose hash equals
    the scrutinee selects the body (labels of a C switch are distinct). *)
Fixpoint switch_fnv {A : Type} (cases : list (string * A)) (h : Z) : option A :=
  match cases with
  | [] => None
  | (label, body) :: rest =>
      if fnv_hash label =? h then Some body else switch_fnv rest h
  end.

(** ** [detectRomFormat] *)

(** [*(uint32_t* )data] on the little-endian host the source assumes. *)
Definition load32_le (b0 b1 b2 b3 : byte) : Z :=
  Z.lor (byte_val b0)
    (Z.lor (Z.shiftl (byte_val b1) 8)
       (Z.lor (Z.shiftl (byte_val b2) 16) (Z.shiftl (byte_val b3) 24))).

Definition detectRomFormat (data : list byte) : RomFormat.t :=
  match data with
  | b0 :: b1 :: b2 :: b3 :: _ =>
      let val := load32_le b0 b1 b2 b3 in
      if (val =? 0x40123780) || (val =? 0x40072780) then RomFormat.BIG_ENDIAN
      else if (val =? 0x12408037) || (val =? 0x07408027) then RomFormat.BYTE_SWAPPED
      else if (val =? 0x80371240) || (val =? 0x80270740) then RomFormat.LITTLE_ENDIAN
      else RomFormat.UNKNOWN
  | _ => RomFormat.UNKNOWN
  end.

(** ** [normalizeData] *)

(** The loop [for (i = 0; i < size; i += 2)]: the first argument counts the
    bytes still below [size]; every iteration touches [data[0]] and
    [data[1]] and advances [data] by two.  [None] is an access past the
    end of the storage that [data] points into. *)
Fixpoint normalize_byte_swapped (remaining : nat) (data : list byte)
  : option (list byte) :=
  match remaining with
  | O => Some data
  | S r =>
      match data with
      | c0 :: c1 :: data' =>
          match r with
          | O => Some (c1 :: c0 :: data')
          | S r' =>
              match normalize_byte_swapped r' data' with
              | Some out => Some (c1 :: c0 :: out)
              | None => None
              end
          end
      | _ => None
      end
  end.

(** The loop [for (i = 0; i < size; i += 4)], four bytes per iteration. *)
Fixpoint normalize_little_endian (remaining : nat) (data : list byte)
  : option (list byte) :=
  match remaining with
  | O => Some data
  | S r =>
      match data with
      | c0 :: c1 :: c2 :: c3 :: data' =>
          match r with
          | S (S (S r')) =>
              match normalize_little_endian r' data' with
              | Some out => Some (c3 :: c2 :: c1 :: c0 :: out)
              | None => None
              end
          | _ => Some (c3 :: c2 :: c1 :: c0 :: data')
          end
      | _ => None
      end
  end.

Definition normalizeData (data : list byte) (size : nat) (format : RomFormat.t)
  : option (list byte) :=
  match format with
  | RomFormat.BYTE_SWAPPED => normalize_byte_swapped size data
  | RomFormat.LITTLE_ENDIAN => normalize_little_endian size data
  | _ => Some data
  end.

(** The granularity of the transform of each format. *)
Definition granularity (format : RomFormat.t) : nat :=
  match format with
  | RomFormat.BYTE_SWAPPED => 2%nat
  | RomFormat.LITTLE_ENDIAN => 4%nat
  | _ => 1%nat
  end.

(** Normalising a chunk that is a buffer of its own, of exactly [size]
    bytes. *)
Definition normalize_chunk (format : RomFormat.t) (chunk : list byte)
  : option (list byte) :=
  normalizeData chunk (length chunk) format.

(** ** [normalizeString] and the libc helpers of the database reader *)

(** [tolower] in the C locale. *)
Definition tolower (c : ascii) : ascii :=
  let v := char_val c in
  if (65 <=? v) && (v <=? 90) then ascii_of_N (Z.to_N (v + 32)) else c.

(** [while ( *s) { *s = tolower( *s); ++s; }] *)
Fixpoint normalizeString (s : string) : string :=
  match s with
  | EmptyString => EmptyString
  | String c s' => if is_nul c then s else String (tolower c) (normalizeString s')
  end.

(** [isspace] in the C locale: space, [\t], [\n], [\v], [\f], [\r]. *)
Definition isspace (c : ascii) : bool :=
  let v := char_val c in (v =? 32) || ((9 <=? v) && (v <=? 13)).

Fixpoint skip_spaces (s : string) : string :=
  match s with
  | String c s' => if isspace c then skip_spaces s' else s
  | EmptyString => EmptyString
  end.

(** The characters a [%s] conversion consumes, and what is left. *)
Fixpoint scan_word (s : string) : string * string :=
  match s with
  | String c s' =>
      if isspace c then (EmptyString, s)
      else let '(w, rest) := scan_word s' in (String c w, rest)
  | EmptyString => (EmptyString, EmptyString)
  end.

(** [sizeof(tags)] of [char tags[128]]. *)
Definition TAGS_SIZE : nat := 128.

(** [sscanf(line, "%*s %s", tags)]: [Some tags] when the call returns 1,
    that is when the line holds a second blank-separated word.  The
    conversion has no field width: the word and its terminator are
    stored in [char tags[128]], whatever the length of the word.  The
    model is the call for a word of at most [TAGS_SIZE - 1] characters; a
    longer word overflows the array, the behaviour of the source is then
    undefined, and what is proved of a record that is read carries the
    bound ([tags_fit] below). *)
Definition sscanf_tags (line : string) : option string :=
  let '(w1, rest1) := scan_word (skip_spaces line) in
  match w1 with
  | EmptyString => None
  | _ =>
      let '(w2, _) := scan_word (skip_spaces rest1) in
      match w2 with
      | EmptyString => None
      | _ => Some w2
      end
  end.

(** The word [sscanf] read fits [char tags[128]] with its terminator. *)
Definition tags_fit (tags : string) : bool :=
  (String.length tags <? TAGS_SIZE)%nat.

(** [strncmp(a, b, n) == 0] on C strings. *)
Fixpoint strncmp_eq (n : nat) (a b : string) : bool :=
  match n with
  | O => true
  | S n' =>
      match a, b with
      | EmptyString, EmptyString => true
      | String x a', String y b' =>
          if Ascii.eqb x y then strncmp_eq n' a' b' else false
      | _, _ => false
      end
  end.

(** The tokens the loop
    [for (tag = strtok(tags, sep); tag; tag = strtok(nullptr, sep))]
    visits: the maximal non-empty runs of characters other than [sep].
    The accumulator holds the run being read, reversed. *)
Fixpoint strtok_from (sep : ascii) (s : string) (cur : list ascii) : list string :=
  let flush (k : list string) : list string :=
    match cur with
    | [] => k
    | _ => string_of_list_ascii (rev cur) :: k
    end in
  match s with
  | EmptyString => flush []
  | String c s' =>
      if Ascii.eqb c sep then flush (strtok_from sep s' [])
      else strtok_from sep s' (c :: cur)
  end.

Definition strtok_all (sep : ascii) (s : string) : list string :=
  strtok_from sep s [].

(* ===================================================================== *)
(** * The detected settings *)
(* ===================================================================== *)

(** The local variables [save_type], [system_type], [cic], [cpak], [rpak],
    [tpak], [rtc] of the two detection functions. *)
Record Settings := mkSettings {
  save_type : MemoryType.t;
  system_type : SystemType.t;
  cic : CIC.t;
  cpak : bool;
  rpak : bool;
  tpak : bool;
  rtc : bool;
}.

(** One assignment statement of a [case] body. *)
Inductive Assign :=
| SetSaveType (m : MemoryType.t)
| SetSystemType (s : SystemType.t)
| SetCic (c : CIC.t)
| SetCpak
| SetRpak
| SetTpak
| SetRtc.

Definition assign (p : Settings) (a : Assign) : Settings :=
  match a with
  | SetSaveType m =>
      mkSettings m (system_type p) (cic p) (cpak p) (rpak p) (tpak p) (rtc p)
  | SetSystemType s =>
      mkSettings (save_type p) s (cic p) (cpak p) (rpak p) (tpak p) (rtc p)
  | SetCic c =>
      mkSettings (save_type p) (system_type p) c (cpak p) (rpak p) (tpak p) (rtc p)
  | SetCpak =>
      mkSettings (save_type p) (system_type p) (cic p) true (rpak p) (tpak p) (rtc p)
  | SetRpak =>
      mkSettings (save_type p) (system_type p) (cic p) (cpak p) true (tpak p) (rtc p)
  | SetTpak =>
      mkSettings (save_type p) (system_type p) (cic p) (cpak p) (rpak p) true (rtc p)
  | SetRtc =>
      mkSettings (save_type p) (system_type p) (cic p) (cpak p) (rpak p) (tpak p) true
  end.

Definition assign_all (p : Settings) (l : list Assign) : Settings :=
  fold_left assign l p.

(** The [case] labels of the tag switch in [detect_rom_settings_in_db],
    in source order, each with the assignment of its body. *)
Definition tag_cases : list (string * Assign) :=
  [ ("eeprom512", SetSaveType MemoryType.EEPROM_512);
    ("eeprom2k", SetSaveType MemoryType.EEPROM_2k);
    ("sram32k", SetSaveType MemoryType.SRAM_32k);
    ("sram96k", SetSaveType MemoryType.SRAM_96k);
    ("flash128k", SetSaveType MemoryType.FLASH_128k);
    ("ntsc", SetSystemType SystemType.NTSC);
    ("pal", SetSystemType SystemType.PAL);
    ("cpak", SetCpak);
    ("rpak", SetRpak);
    ("tpak", SetTpak);
    ("rtc", SetRtc);
    ("cic6101", SetCic CIC.CIC_NUS_6101);
    ("cic6102", SetCic CIC.CIC_NUS_6102);
    ("cic6103", SetCic CIC.CIC_NUS_6103);
    ("cic6105", SetCic CIC.CIC_NUS_6105);
    ("cic6106", SetCic CIC.CIC_NUS_6106);
    ("cic7101", SetCic CIC.CIC_NUS_7101);
    ("cic7102", SetCic CIC.CIC_NUS_7102);
    ("cic7103", SetCic CIC.CIC_NUS_7103);
    ("cic7105", SetCic CIC.CIC_NUS_7105);
    ("cic7106", SetCic CIC.CIC_NUS_7106);
    ("cic8303", SetCic CIC.CIC_NUS_8303);
    ("cic8401", SetCic CIC.CIC_NUS_8401);
    ("cic5167", SetCic CIC.CIC_NUS_5167);
    ("cicDDUS", SetCic CIC.CIC_NUS_DDUS) ].

(** The initial values of the locals in [detect_rom_settings_in_db]. *)
Definition db_defaults : Settings :=
  mkSettings MemoryType.NONE SystemType.NTSC CIC.CIC_NUS_6102
    false false false false.

(* ===================================================================== *)
(** * External calls, as events *)
(* ===================================================================== *)

(** The [printf] diagnostics of the translation unit, one constructor per
    format string. *)
Inductive Diag :=
| DiagFailedToOpenDb (db_file_name : string)
| DiagNoTags
| DiagFoundEntry (line : string)
| DiagTag (tag : string)
| DiagUnknownTag (tag : string)
| DiagSettings (p : Settings)
| DiagAutoDetectOn
| DiagAutoDetectOff
| DiagFile (name : string) (bytes2send : nat) (index : Z)
| DiagTooShort
| DiagHeaderMD5 (md5_hex : string)
| DiagNoHeaderInfo (md5_hex : string)
| DiagFileMD5 (md5_hex : string)
| DiagNoFileInfo (md5_hex : string)
| DiagUnknownCIC (ipl3_crc : Z)
| DiagUnknownCartID (cart_id : string)
| DiagDone.

(** The two messages passed to [Info]. *)
Inductive Notice :=
| NoticeUnknownCIC      (* Auto-detect failed: Unknown CIC type. *)
| NoticeUnknownCartID.  (* Auto-detect failed: Unknown Cart ID, Save type not determined. *)

Inductive Event :=
| EvSetIndex (index : Z)                      (* user_io_set_index *)
| EvSetDownload (enable : bool)               (* user_io_set_download *)
| EvProgressClear                             (* ProgressMessage(0, 0, 0, 0) *)
| EvProgress (sent total : nat)               (* ProgressMessage *)
| EvProcessSS (name : string)                 (* process_ss *)
| EvFileReadAdv (chunk : nat)                 (* FileReadAdv *)
| EvFileTxData (data : list byte)             (* user_io_file_tx_data *)
| EvStatusGet (field : string)                (* user_io_status_get *)
| EvStatusSet (field : string) (value : Z)    (* user_io_status_set *)
| EvOpenTextReader (db_file_name : string)    (* FileOpenTextReader *)
| EvFileClose                                 (* FileClose *)
| EvFileMount (name : string)                 (* FileGenerateSavePath, user_io_file_mount *)
| EvInfo (n : Notice)                         (* Info *)
| EvPrintf (d : Diag).                        (* printf *)

(** [EvProgress] records the two counts of
    [ProgressMessage("Loading", f.name, size - bytes2send, size)]; its
    text arguments are not recorded ([f.name] is filled in by [FileOpen],
    which is not among the sources). *)

(** What the file system hands to the program: the contents [FileOpen]
    gives for a ROM name, and the lines [FileReadLine] yields for a
    database file, [None] when the file cannot be opened. *)
Record Env := mkEnv {
  rom_files : string -> option (list byte);
  db_files : string -> option (list string);
}.

(** Modelled from the spec: the status register behind
    [user_io_status_get] and [user_io_status_set] (user_io.cpp is not among
    the sources).  The spec describes addressable bit-fields; a field is
    addressed by the string the source passes, fields of different
    addresses do not overlap, and a field never written reads 0.  The
    register is a finite map from field addresses to values;
    [user_io_status_get] and [user_io_status_set] below read and update
    it. *)
Definition status_read (st : gmap string Z) (field : string) : Z :=
  default 0 (st !! field).

(** A computation reads and writes the status register and emits events. *)
Definition M (A : Type) : Type :=
  gmap string Z -> (A * gmap string Z) * list Event.

Definition ret {A : Type} (a : A) : M A := fun st => ((a, st), []).

Definition bind {A B : Type} (m : M A) (k : A -> M B) : M B :=
  fun st =>
    let '((a, st1), t1) := m st in
    let '((b, st2), t2) := k a st1 in
    ((b, st2), t1 ++ t2).

Notation "x <- m ;; k" := (bind m (fun x => k))
  (at level 100, m at next level, right associativity).
Notation "m ;; k" := (bind m (fun _ => k))
  (at level 100, right associativity).

Definition emit (e : Event) : M unit := fun st => ((tt, st), [e]).
Definition printf (d : Diag) : M unit := emit (EvPrintf d).

Definition user_io_status_get (field : string) : M Z :=
  fun st => ((status_read st field, st), [EvStatusGet field]).

Definition user_io_status_set (field : string) (value : Z) : M unit :=
  fun st => ((tt, <[field := value]> st), [EvStatusSet field value]).

Definition result {A : Type} (r : (A * gmap string Z) * list Event) : A := r.1.1.
Definition final_status {A : Type} (r : (A * gmap string Z) * list Event)
  : gmap string Z := r.1.2.
Definition trace {A : Type} (r : (A * gmap string Z) * list Event)
  : list Event := r.2.

Definition bool_to_Z (b : bool) : Z := if b then 1 else 0.

(* ===================================================================== *)
(** * [detect_rom_settings_in_db] and [detect_rom_settings_in_dbs] *)
(* ===================================================================== *)

(** The body of the token loop: print, lower-case in place, dispatch. *)
Definition apply_tag (p : Settings) (tag : string) : M Settings :=
  printf (DiagTag tag) ;;
  let tag := normalizeString tag in
  match switch_fnv tag_cases (fnv_hash tag) with
  | Some a => ret (assign p a)
  | None => printf (DiagUnknownTag tag) ;; ret p
  end.

Fixpoint apply_tags (p : Settings) (tags : list string) : M Settings :=
  match tags with
  | [] => ret p
  | tag :: rest => p' <- apply_tag p tag ;; apply_tags p' rest
  end.

(** The block after a record was found: report, and update the status
    fields when auto-detect is on. *)
Definition commit_db_settings (p : Settings) : M unit :=
  printf (DiagSettings p) ;;
  v <- user_io_status_get "[64]" ;;
  if AutoDetect.is_on (AutoDetect.of_Z v) then
    printf DiagAutoDetectOn ;;
    user_io_status_set "[80:79]" (SystemType.to_Z (system_type p)) ;;
    user_io_status_set "[68:65]" (CIC.to_Z (cic p)) ;;
    user_io_status_set "[71]" (bool_to_Z (cpak p)) ;;
    user_io_status_set "[72]" (bool_to_Z (rpak p)) ;;
    user_io_status_set "[73]" (bool_to_Z (tpak p)) ;;
    user_io_status_set "[74]" (bool_to_Z (rtc p)) ;;
    user_io_status_set "[77:75]" (MemoryType.to_Z (save_type p))
  else
    printf DiagAutoDetectOff.

(** [while ((line = FileReadLine(&reader)))] *)
Fixpoint scan_db_lines (lookup_hash : string) (lines : list string) : M bool :=
  match lines with
  | [] => ret false
  | line :: rest =>
      if negb (strncmp_eq 32 lookup_hash line) then scan_db_lines lookup_hash rest
      else
        match sscanf_tags line with
        | None => printf DiagNoTags ;; scan_db_lines lookup_hash rest
        | Some tags =>
            printf (DiagFoundEntry line) ;;
            p <- apply_tags db_defaults (strtok_all "|" tags) ;;
            commit_db_settings p ;;
            ret true
        end
  end.

Definition detect_rom_settings_in_db (env : Env) (lookup_hash db_file_name : string)
  : M bool :=
  emit (EvOpenTextReader db_file_name) ;;
  match db_files env db_file_name with
  | None => printf (DiagFailedToOpenDb db_file_name) ;; ret false
  | Some lines => scan_db_lines lookup_hash lines
  end.

Definition DB_FILE_NAMES : list string :=
  [ "N64-database.txt"; "N64-database_user.txt" ].

Fixpoint detect_rom_settings_in_db_list (env : Env) (lookup_hash : string)
  (names : list string) : M bool :=
  match names with
  | [] => ret false
  | db_file_name :: rest =>
      found <- detect_rom_settings_in_db env lookup_hash db_file_name ;;
      if found then ret true
      else detect_rom_settings_in_db_list env lookup_hash rest
  end.

Definition detect_rom_settings_in_dbs (env : Env) (lookup_hash : string) : M bool :=
  detect_rom_settings_in_db_list env lookup_hash DB_FILE_NAMES.

(* ===================================================================== *)
(** * [detect_rom_settings_from_first_chunk] *)
(* ===================================================================== *)

(** [switch (region_code)]: the codes that select PAL. *)
Definition pal_region_codes : list ascii :=
  [ "D"; "F"; "H"; "I"; "L"; "P"; "S"; "U"; "W"; "X"; "Y" ]%char.

Definition region_system_type (region_code : ascii) : SystemType.t :=
  if existsb (Ascii.eqb region_code) pal_region_codes
  then SystemType.PAL else SystemType.NTSC.

(** [switch (crc)]: the CIC and the system type after the switch, [None]
    for the [default: return 1]. *)
Definition cic_switch (crc : Z) (system_type : SystemType.t)
  : option (CIC.t * SystemType.t) :=
  let by_system (ntsc pal : CIC.t) :=
    Some (if SystemType.eqb system_type SystemType.NTSC then ntsc else pal,
          system_type) in
  if (crc =? 0x000000a316adc55a) || (crc =? 0x000000039c981107)
     || (crc =? 0x000000a30dacd530) || (crc =? 0x000000d2828281b0)
     || (crc =? 0x0000009acc31e644)
  then by_system CIC.CIC_NUS_6102 CIC.CIC_NUS_7101
  else if crc =? 0x000000a405397b05 then Some (CIC.CIC_NUS_7102, SystemType.PAL)
  else if crc =? 0x000000a0f26f62fe then Some (CIC.CIC_NUS_6101, SystemType.NTSC)
  else if crc =? 0x000000a9229d7c45 then by_system CIC.CIC_NUS_6103 CIC.CIC_NUS_7103
  else if crc =? 0x000000f8b860ed00 then by_system CIC.CIC_NUS_6105 CIC.CIC_NUS_7105
  else if crc =? 0x000000ba5ba4b8cd then by_system CIC.CIC_NUS_6106 CIC.CIC_NUS_7106
  else if crc =? 0x0000012daafc8aab then Some (CIC.CIC_NUS_5167, system_type)
  else if crc =? 0x000000a9df4b39e1 then Some (CIC.CIC_NUS_8303, system_type)
  else if crc =? 0x000000aa764e39e1 then Some (CIC.CIC_NUS_8401, system_type)
  else if crc =? 0x000000abb0b739e1 then Some (CIC.CIC_NUS_DDUS, system_type)
  else None.

(** The body of a [case] of [switch (fnv_hash(id))]: the assignments it
    executes, given [region_code] and [revision]. *)
Definition CaseBody : Type := ascii -> Z -> list Assign.

Definition plain (l : list Assign) : CaseBody := fun _ _ => l.

Definition is_J (region_code : ascii) : bool := Ascii.eqb region_code "J".

(** The cases with a condition on the region code or the revision. *)
Definition case_N3H : CaseBody := fun region_code _ =>
  if is_J region_code then [SetSaveType MemoryType.SRAM_32k]
  else [SetCpak; SetRpak].

Definition case_ND3 : CaseBody := fun region_code _ =>
  if is_J region_code then [SetSaveType MemoryType.EEPROM_2k; SetRpak]
  else [SetCpak].

Definition case_ND4 : CaseBody := fun region_code _ =>
  if is_J region_code then [SetRpak] else [SetCpak].

Definition case_NSM : CaseBody := fun region_code revision =>
  (if is_J region_code && (revision =? 3) then [SetRpak] else [])
  ++ [SetSaveType MemoryType.EEPROM_512].

Definition case_NWR : CaseBody := fun region_code revision =>
  (if is_J region_code && (revision =? 2) then [SetRpak] else [])
  ++ [SetSaveType MemoryType.EEPROM_512; SetCpak].

Definition case_NK4 : CaseBody := fun region_code revision =>
  (if is_J region_code && (revision <? 2)
   then [SetSaveType MemoryType.SRAM_32k]
   else [SetSaveType MemoryType.EEPROM_2k])
  ++ [SetRpak].

Definition case_NDK : CaseBody := fun region_code _ =>
  if is_J region_code then [SetSaveType MemoryType.EEPROM_512] else [].

Definition case_NWT : CaseBody := fun region_code _ =>
  if is_J region_code then [SetSaveType MemoryType.EEPROM_512] else [SetCpak].

(** The [case] labels of [switch (fnv_hash(id))], in source order. *)
Definition cart_cases : list (string * CaseBody) :=
  [
    ("NTW", plain [SetSaveType MemoryType.EEPROM_512; SetCpak]);
    ("NHF", plain [SetSaveType MemoryType.EEPROM_512]);
    ("NOS", plain [SetSaveType MemoryType.EEPROM_512; SetCpak; SetRpak]);
    ("NTC", plain [SetSaveType MemoryType.EEPROM_512; SetRpak]);
    ("NER", plain [SetSaveType MemoryType.EEPROM_512; SetRpak]);
    ("NAG", plain [SetSaveType MemoryType.EEPROM_512; SetCpak]);
    ("NAB", plain [SetSaveType MemoryType.EEPROM_512; SetCpak; SetRpak]);
    ("NS3", plain [SetSaveType MemoryType.EEPROM_512; SetCpak]);
    ("NTN", plain [SetSaveType MemoryType.EEPROM_512]);
    ("NBN", plain [SetSaveType MemoryType.EEPROM_512; SetCpak]);
    ("NBK", plain [SetSaveType MemoryType.EEPROM_512; SetRpak]);
    ("NFH", plain [SetSaveType MemoryType.EEPROM_512; SetRpak]);
    ("NMU", plain [SetSaveType MemoryType.EEPROM_512; SetCpak; SetRpak]);
    ("NBC", plain [SetSaveType MemoryType.EEPROM_512; SetCpak]);
    ("NBH", plain [SetSaveType MemoryType.EEPROM_512; SetRpak]);
    ("NHA", plain [SetSaveType MemoryType.EEPROM_512; SetCpak]);
    ("NBM", plain [SetSaveType MemoryType.EEPROM_512; SetCpak]);
    ("NBV", plain [SetSaveType MemoryType.EEPROM_512; SetCpak; SetRpak]);
    ("NBD", plain [SetSaveType MemoryType.EEPROM_512; SetRpak]);
    ("NCT", plain [SetSaveType MemoryType.EEPROM_512; SetRpak]);
    ("NCH", plain [SetSaveType MemoryType.EEPROM_512; SetRpak]);
    ("NCG", plain [SetSaveType MemoryType.EEPROM_512; SetCpak; SetRpak; SetTpak]);
    ("NP2", plain [SetSaveType MemoryType.EEPROM_512; SetCpak; SetRpak]);
    ("NXO", plain [SetSaveType MemoryType.EEPROM_512; SetRpak]);
    ("NCU", plain [SetSaveType MemoryType.EEPROM_512; SetCpak]);
    ("NCX", plain [SetSaveType MemoryType.EEPROM_512]);
    ("NDY", plain [SetSaveType MemoryType.EEPROM_512; SetCpak; SetRpak]);
    ("NDQ", plain [SetSaveType MemoryType.EEPROM_512; SetCpak]);
    ("NDR", plain [SetSaveType MemoryType.EEPROM_512]);
    ("NN6", plain [SetSaveType MemoryType.EEPROM_512]);
    ("NDU", plain [SetSaveType MemoryType.EEPROM_512; SetRpak]);
    ("NJM", plain [SetSaveType MemoryType.EEPROM_512]);
    ("NFW", plain [SetSaveType MemoryType.EEPROM_512; SetRpak]);
    ("NF2", plain [SetSaveType MemoryType.EEPROM_512; SetRpak]);
    ("NKA", plain [SetSaveType MemoryType.EEPROM_512; SetCpak; SetRpak]);
    ("NFG", plain [SetSaveType MemoryType.EEPROM_512; SetCpak; SetRpak]);
    ("NGL", plain [SetSaveType MemoryType.EEPROM_512; SetCpak; SetRpak]);
    ("NGV", plain [SetSaveType MemoryType.EEPROM_512]);
    ("NGE", plain [SetSaveType MemoryType.EEPROM_512; SetRpak]);
    ("NHP", plain [SetSaveType MemoryType.EEPROM_512]);
    ("NPG", plain [SetSaveType MemoryType.EEPROM_512; SetRpak]);
    ("NIJ", plain [SetSaveType MemoryType.EEPROM_512; SetRpak]);
    ("NIC", plain [SetSaveType MemoryType.EEPROM_512; SetRpak]);
    ("NFY", plain [SetSaveType MemoryType.EEPROM_512; SetCpak; SetRpak]);
    ("NKI", plain [SetSaveType MemoryType.EEPROM_512; SetCpak]);
    ("NLL", plain [SetSaveType MemoryType.EEPROM_512; SetRpak]);
    ("NLR", plain [SetSaveType MemoryType.EEPROM_512; SetRpak]);
    ("NKT", plain [SetSaveType MemoryType.EEPROM_512; SetCpak]);
    ("CLB", plain [SetSaveType MemoryType.EEPROM_512; SetRpak]);
    ("NLB", plain [SetSaveType MemoryType.EEPROM_512; SetRpak]);
    ("NMW", plain [SetSaveType MemoryType.EEPROM_512; SetRpak]);
    ("NML", plain [SetSaveType MemoryType.EEPROM_512; SetRpak; SetTpak]);
    ("NTM", plain [SetSaveType MemoryType.EEPROM_512]);
    ("NMI", plain [SetSaveType MemoryType.EEPROM_512; SetRpak]);
    ("NMG", plain [SetSaveType MemoryType.EEPROM_512; SetCpak; SetRpak]);
    ("NMO", plain [SetSaveType MemoryType.EEPROM_512]);
    ("NMS", plain [SetSaveType MemoryType.EEPROM_512; SetCpak]);
    ("NMR", plain [SetSaveType MemoryType.EEPROM_512; SetCpak; SetRpak]);
    ("NCR", plain [SetSaveType MemoryType.EEPROM_512; SetCpak]);
    ("NEA", plain [SetSaveType MemoryType.EEPROM_512]);
    ("NPW", plain [SetSaveType MemoryType.EEPROM_512]);
    ("NPY", plain [SetSaveType MemoryType.EEPROM_512; SetRpak]);
    ("NPT", plain [SetSaveType MemoryType.EEPROM_512; SetRpak; SetTpak]);
    ("NRA", plain [SetSaveType MemoryType.EEPROM_512; SetCpak; SetRpak]);
    ("NWQ", plain [SetSaveType MemoryType.EEPROM_512; SetCpak; SetRpak]);
    ("NSU", plain [SetSaveType MemoryType.EEPROM_512; SetRpak]);
    ("NSN", plain [SetSaveType MemoryType.EEPROM_512; SetCpak; SetRpak]);
    ("NK2", plain [SetSaveType MemoryType.EEPROM_512; SetRpak]);
    ("NSV", plain [SetSaveType MemoryType.EEPROM_512; SetRpak]);
    ("NFX", plain [SetSaveType MemoryType.EEPROM_512; SetRpak]);
    ("NS6", plain [SetSaveType MemoryType.EEPROM_512; SetRpak]);
    ("NNA", plain [SetSaveType MemoryType.EEPROM_512; SetRpak]);
    ("NRS", plain [SetSaveType MemoryType.EEPROM_512; SetRpak]);
    ("NSW", plain [SetSaveType MemoryType.EEPROM_512]);
    ("NSC", plain [SetSaveType MemoryType.EEPROM_512]);
    ("NSA", plain [SetSaveType MemoryType.EEPROM_512; SetRpak]);
    ("NB6", plain [SetSaveType MemoryType.EEPROM_512; SetCpak; SetTpak]);
    ("NSS", plain [SetSaveType MemoryType.EEPROM_512; SetRpak]);
    ("NTX", plain [SetSaveType MemoryType.EEPROM_512; SetRpak]);
    ("NT6", plain [SetSaveType MemoryType.EEPROM_512]);
    ("NTP", plain [SetSaveType MemoryType.EEPROM_512]);
    ("NTJ", plain [SetSaveType MemoryType.EEPROM_512; SetRpak]);
    ("NRC", plain [SetSaveType MemoryType.EEPROM_512; SetRpak]);
    ("NTR", plain [SetSaveType MemoryType.EEPROM_512; SetCpak; SetRpak]);
    ("NTB", plain [SetSaveType MemoryType.EEPROM_512; SetRpak]);
    ("NGU", plain [SetSaveType MemoryType.EEPROM_512; SetRpak]);
    ("NIR", plain [SetSaveType MemoryType.EEPROM_512; SetRpak]);
    ("NVL", plain [SetSaveType MemoryType.EEPROM_512; SetRpak]);
    ("NVY", plain [SetSaveType MemoryType.EEPROM_512; SetRpak]);
    ("NWC", plain [SetSaveType MemoryType.EEPROM_512; SetRpak]);
    ("NAD", plain [SetSaveType MemoryType.EEPROM_512]);
    ("NWU", plain [SetSaveType MemoryType.EEPROM_512]);
    ("NYK", plain [SetSaveType MemoryType.EEPROM_512; SetRpak]);
    ("NMZ", plain [SetSaveType MemoryType.EEPROM_512]);
    ("NB7", plain [SetSaveType MemoryType.EEPROM_2k; SetRpak]);
    ("NGT", plain [SetSaveType MemoryType.EEPROM_2k; SetCpak; SetRpak]);
    ("NFU", plain [SetSaveType MemoryType.EEPROM_2k; SetRpak]);
    ("NCW", plain [SetSaveType MemoryType.EEPROM_2k; SetRpak]);
    ("NCZ", plain [SetSaveType MemoryType.EEPROM_2k; SetRpak]);
    ("ND6", plain [SetSaveType MemoryType.EEPROM_2k; SetRpak]);
    ("NDO", plain [SetSaveType MemoryType.EEPROM_2k; SetRpak]);
    ("ND2", plain [SetSaveType MemoryType.EEPROM_2k; SetRpak]);
    ("N3D", plain [SetSaveType MemoryType.EEPROM_2k; SetRpak]);
    ("NMX", plain [SetSaveType MemoryType.EEPROM_2k; SetCpak; SetRpak]);
    ("NGC", plain [SetSaveType MemoryType.EEPROM_2k; SetCpak; SetRpak]);
    ("NIM", plain [SetSaveType MemoryType.EEPROM_2k]);
    ("NNB", plain [SetSaveType MemoryType.EEPROM_2k; SetCpak; SetRpak]);
    ("NMV", plain [SetSaveType MemoryType.EEPROM_2k; SetRpak]);
    ("NM8", plain [SetSaveType MemoryType.EEPROM_2k; SetRpak; SetTpak]);
    ("NEV", plain [SetSaveType MemoryType.EEPROM_2k; SetRpak]);
    ("NPP", plain [SetSaveType MemoryType.EEPROM_2k; SetCpak]);
    ("NUB", plain [SetSaveType MemoryType.EEPROM_2k; SetCpak; SetTpak]);
    ("NPD", plain [SetSaveType MemoryType.EEPROM_2k; SetCpak; SetRpak; SetTpak]);
    ("NRZ", plain [SetSaveType MemoryType.EEPROM_2k; SetRpak]);
    ("NR7", plain [SetSaveType MemoryType.EEPROM_2k; SetTpak]);
    ("NEP", plain [SetSaveType MemoryType.EEPROM_2k; SetRpak]);
    ("NYS", plain [SetSaveType MemoryType.EEPROM_2k; SetRpak]);
    ("NTE", plain [SetSaveType MemoryType.SRAM_32k; SetRpak]);
    ("NVB", plain [SetSaveType MemoryType.SRAM_32k; SetRpak]);
    ("NB5", plain [SetSaveType MemoryType.SRAM_32k; SetRpak]);
    ("CFZ", plain [SetSaveType MemoryType.SRAM_32k; SetRpak]);
    ("NFZ", plain [SetSaveType MemoryType.SRAM_32k; SetRpak]);
    ("NSI", plain [SetSaveType MemoryType.SRAM_32k; SetCpak]);
    ("NG6", plain [SetSaveType MemoryType.SRAM_32k; SetRpak]);
    ("NGP", plain [SetSaveType MemoryType.SRAM_32k; SetCpak]);
    ("NYW", plain [SetSaveType MemoryType.SRAM_32k; SetCpak]);
    ("NHY", plain [SetSaveType MemoryType.SRAM_32k; SetCpak; SetRpak]);
    ("NIB", plain [SetSaveType MemoryType.SRAM_32k; SetRpak]);
    ("NPS", plain [SetSaveType MemoryType.SRAM_32k; SetCpak; SetRpak]);
    ("NPA", plain [SetSaveType MemoryType.SRAM_32k; SetCpak; SetTpak]);
    ("NP4", plain [SetSaveType MemoryType.SRAM_32k; SetCpak]);
    ("NJ5", plain [SetSaveType MemoryType.SRAM_32k; SetCpak]);
    ("NP6", plain [SetSaveType MemoryType.SRAM_32k; SetCpak; SetTpak]);
    ("NPE", plain [SetSaveType MemoryType.SRAM_32k; SetCpak]);
    ("NJG", plain [SetSaveType MemoryType.SRAM_32k; SetRpak]);
    ("CZL", plain [SetSaveType MemoryType.SRAM_32k; SetRpak]);
    ("NZL", plain [SetSaveType MemoryType.SRAM_32k; SetRpak]);
    ("NKG", plain [SetSaveType MemoryType.SRAM_32k; SetCpak; SetRpak]);
    ("NMF", plain [SetSaveType MemoryType.SRAM_32k; SetRpak; SetTpak]);
    ("NRI", plain [SetSaveType MemoryType.SRAM_32k; SetCpak]);
    ("NUT", plain [SetSaveType MemoryType.SRAM_32k; SetCpak; SetRpak; SetTpak]);
    ("NUM", plain [SetSaveType MemoryType.SRAM_32k; SetRpak; SetTpak]);
    ("NOB", plain [SetSaveType MemoryType.SRAM_32k]);
    ("CPS", plain [SetSaveType MemoryType.SRAM_32k; SetTpak]);
    ("NPM", plain [SetSaveType MemoryType.SRAM_32k; SetCpak]);
    ("NRE", plain [SetSaveType MemoryType.SRAM_32k; SetRpak]);
    ("NAL", plain [SetSaveType MemoryType.SRAM_32k; SetRpak]);
    ("NT3", plain [SetSaveType MemoryType.SRAM_32k; SetCpak]);
    ("NS4", plain [SetSaveType MemoryType.SRAM_32k; SetCpak; SetTpak]);
    ("NA2", plain [SetSaveType MemoryType.SRAM_32k; SetCpak; SetRpak]);
    ("NVP", plain [SetSaveType MemoryType.SRAM_32k; SetCpak; SetRpak]);
    ("NWL", plain [SetSaveType MemoryType.SRAM_32k; SetRpak]);
    ("NW2", plain [SetSaveType MemoryType.SRAM_32k; SetRpak]);
    ("NWX", plain [SetSaveType MemoryType.SRAM_32k; SetCpak; SetRpak]);
    ("CDZ", plain [SetSaveType MemoryType.SRAM_96k; SetRpak]);
    ("NCC", plain [SetSaveType MemoryType.FLASH_128k; SetRpak]);
    ("NDA", plain [SetSaveType MemoryType.FLASH_128k; SetCpak]);
    ("NAF", plain [SetSaveType MemoryType.FLASH_128k; SetCpak; SetRtc]);
    ("NJF", plain [SetSaveType MemoryType.FLASH_128k; SetRpak]);
    ("NKJ", plain [SetSaveType MemoryType.FLASH_128k; SetRpak]);
    ("NZS", plain [SetSaveType MemoryType.FLASH_128k; SetRpak]);
    ("NM6", plain [SetSaveType MemoryType.FLASH_128k; SetRpak]);
    ("NCK", plain [SetSaveType MemoryType.FLASH_128k; SetRpak]);
    ("NMQ", plain [SetSaveType MemoryType.FLASH_128k; SetRpak]);
    ("NPN", plain [SetSaveType MemoryType.FLASH_128k]);
    ("NPF", plain [SetSaveType MemoryType.FLASH_128k]);
    ("NPO", plain [SetSaveType MemoryType.FLASH_128k; SetTpak]);
    ("CP2", plain [SetSaveType MemoryType.FLASH_128k; SetTpak]);
    ("NP3", plain [SetSaveType MemoryType.FLASH_128k; SetTpak]);
    ("NRH", plain [SetSaveType MemoryType.FLASH_128k; SetRpak]);
    ("NSQ", plain [SetSaveType MemoryType.FLASH_128k; SetRpak]);
    ("NT9", plain [SetSaveType MemoryType.FLASH_128k]);
    ("NW4", plain [SetSaveType MemoryType.FLASH_128k; SetCpak; SetRpak]);
    ("NDP", plain [SetSaveType MemoryType.FLASH_128k]);
    ("NO7", plain [SetCpak; SetRpak]);
    ("NAY", plain [SetCpak]);
    ("NBS", plain [SetCpak; SetRpak]);
    ("NBE", plain [SetCpak; SetRpak]);
    ("NAS", plain [SetCpak; SetRpak]);
    ("NAR", plain [SetCpak; SetRpak]);
    ("NAC", plain [SetCpak; SetRpak]);
    ("NAM", plain [SetCpak; SetRpak]);
    ("N32", plain [SetCpak; SetRpak]);
    ("NAH", plain [SetCpak; SetRpak]);
    ("NLC", plain [SetCpak; SetRpak]);
    ("NBJ", plain [SetCpak]);
    ("NB4", plain [SetCpak; SetRpak]);
    ("NBX", plain [SetCpak; SetRpak]);
    ("NBQ", plain [SetCpak; SetRpak]);
    ("NZO", plain [SetCpak; SetRpak]);
    ("NNS", plain [SetCpak; SetRpak]);
    ("NB8", plain [SetCpak; SetRpak]);
    ("NBF", plain [SetCpak; SetRpak]);
    ("NBP", plain [SetCpak; SetRpak]);
    ("NBO", plain [SetCpak]);
    ("NOW", plain [SetCpak]);
    ("NBL", plain [SetCpak; SetRpak]);
    ("NBY", plain [SetCpak; SetRpak]);
    ("NB3", plain [SetCpak; SetRpak]);
    ("NBU", plain [SetCpak]);
    ("NCL", plain [SetCpak; SetRpak]);
    ("NCD", plain [SetCpak; SetRpak]);
    ("NTS", plain [SetCpak]);
    ("NV2", plain [SetCpak; SetRpak]);
    ("NPK", plain [SetCpak]);
    ("NT4", plain [SetCpak; SetRpak]);
    ("NDW", plain [SetCpak; SetRpak]);
    ("NGA", plain [SetCpak; SetRpak]);
    ("NDE", plain [SetCpak; SetRpak]);
    ("NTA", plain [SetCpak; SetRpak]);
    ("NDM", plain [SetCpak]);
    ("NDH", plain [SetCpak]);
    ("NDN", plain [SetCpak; SetRpak]);
    ("NDZ", plain [SetCpak; SetRpak]);
    ("NWI", plain [SetCpak; SetRpak]);
    ("NST", plain [SetCpak]);
    ("NET", plain [SetCpak]);
    ("NEG", plain [SetCpak; SetRpak]);
    ("NG2", plain [SetCpak; SetRpak]);
    ("NHG", plain [SetCpak]);
    ("NFR", plain [SetCpak; SetRpak]);
    ("N8I", plain [SetCpak]);
    ("N9F", plain [SetCpak]);
    ("N7I", plain [SetCpak]);
    ("NFS", plain [SetCpak]);
    ("NFF", plain [SetCpak; SetRpak]);
    ("NFD", plain [SetCpak; SetRpak]);
    ("NFO", plain [SetCpak; SetRpak]);
    ("NF9", plain [SetCpak]);
    ("NG5", plain [SetCpak; SetRpak]);
    ("NGX", plain [SetCpak; SetRpak]);
    ("NGD", plain [SetCpak; SetRpak]);
    ("NX3", plain [SetCpak; SetRpak]);
    ("NX2", plain [SetCpak]);
    ("NGM", plain [SetCpak; SetRpak]);
    ("NGN", plain [SetCpak]);
    ("NHS", plain [SetCpak]);
    ("NM9", plain [SetCpak]);
    ("NHC", plain [SetCpak; SetRpak]);
    ("NHX", plain [SetCpak]);
    ("NHK", plain [SetCpak; SetRpak]);
    ("NHW", plain [SetCpak; SetRpak]);
    ("NHV", plain [SetCpak; SetRpak]);
    ("NHT", plain [SetCpak; SetRpak]);
    ("NWB", plain [SetCpak; SetRpak]);
    ("NWS", plain [SetCpak]);
    ("NIS", plain [SetCpak; SetRpak]);
    ("NJP", plain [SetCpak]);
    ("NDS", plain [SetCpak]);
    ("NJE", plain [SetCpak]);
    ("NJL", plain [SetCpak]);
    ("NMA", plain [SetCpak]);
    ("NCO", plain [SetCpak; SetRpak]);
    ("NGS", plain [SetCpak]);
    ("NJ3", plain [SetCpak]);
    ("N64", plain [SetCpak; SetRpak]);
    ("NKK", plain [SetCpak; SetRpak]);
    ("NLG", plain [SetCpak; SetRpak]);
    ("N8M", plain [SetCpak; SetRpak]);
    ("NMD", plain [SetCpak; SetRpak]);
    ("NFL", plain [SetCpak; SetRpak]);
    ("N2M", plain [SetCpak; SetRpak]);
    ("N9M", plain [SetCpak; SetRpak]);
    ("NMJ", plain [SetCpak]);
    ("NMM", plain [SetCpak]);
    ("NHM", plain [SetCpak; SetRpak]);
    ("NWK", plain [SetCpak; SetRpak]);
    ("NV3", plain [SetCpak; SetRpak]);
    ("NAI", plain [SetCpak]);
    ("NMB", plain [SetCpak; SetRpak]);
    ("NBR", plain [SetCpak; SetRpak]);
    ("NM4", plain [SetCpak; SetRpak]);
    ("NMY", plain [SetCpak; SetRpak]);
    ("NP9", plain [SetCpak; SetRpak]);
    ("NH5", plain [SetCpak]);
    ("NNM", plain [SetCpak]);
    ("N9C", plain [SetCpak; SetRpak]);
    ("NN2", plain [SetCpak; SetRpak]);
    ("NXG", plain [SetCpak]);
    ("NBA", plain [SetCpak; SetRpak]);
    ("NB2", plain [SetCpak; SetRpak]);
    ("NWZ", plain [SetCpak; SetRpak]);
    ("NB9", plain [SetCpak]);
    ("NJA", plain [SetCpak; SetRpak]);
    ("N9B", plain [SetCpak; SetRpak]);
    ("NNL", plain [SetCpak; SetRpak]);
    ("NSO", plain [SetCpak]);
    ("NBZ", plain [SetCpak; SetRpak]);
    ("NSZ", plain [SetCpak; SetRpak]);
    ("NBI", plain [SetCpak; SetRpak]);
    ("NFB", plain [SetCpak; SetRpak]);
    ("NQ8", plain [SetCpak; SetRpak]);
    ("NQ9", plain [SetCpak; SetRpak]);
    ("NQB", plain [SetCpak; SetRpak]);
    ("NQC", plain [SetCpak; SetRpak]);
    ("N9H", plain [SetCpak; SetRpak]);
    ("NHO", plain [SetCpak; SetRpak]);
    ("NHL", plain [SetCpak; SetRpak]);
    ("NH9", plain [SetCpak; SetRpak]);
    ("NNC", plain [SetCpak; SetRpak]);
    ("NCE", plain [SetCpak; SetRpak]);
    ("NOF", plain [SetCpak; SetRpak]);
    ("NHN", plain [SetCpak]);
    ("NOM", plain [SetCpak]);
    ("NPC", plain [SetCpak]);
    ("NYP", plain [SetCpak; SetRpak]);
    ("NPX", plain [SetCpak; SetRpak]);
    ("NPL", plain [SetCpak]);
    ("NPU", plain [SetCpak]);
    ("NKM", plain [SetCpak]);
    ("NNR", plain [SetCpak]);
    ("NPB", plain [SetCpak; SetRpak]);
    ("NQK", plain [SetCpak; SetRpak]);
    ("NQ2", plain [SetCpak; SetRpak]);
    ("NKR", plain [SetCpak]);
    ("NRP", plain [SetCpak; SetRpak]);
    ("NRT", plain [SetCpak]);
    ("NRX", plain [SetCpak]);
    ("NY2", plain [SetCpak]);
    ("NFQ", plain [SetCpak; SetRpak]);
    ("NRV", plain [SetCpak; SetRpak]);
    ("NRD", plain [SetCpak; SetRpak]);
    ("N22", plain [SetCpak; SetRpak]);
    ("NRO", plain [SetCpak; SetRpak]);
    ("NRR", plain [SetCpak; SetRpak]);
    ("NRK", plain [SetCpak]);
    ("NR2", plain [SetCpak; SetRpak]);
    ("NCS", plain [SetCpak; SetRpak]);
    ("NDC", plain [SetCpak; SetRpak]);
    ("NSH", plain [SetCpak]);
    ("NSF", plain [SetCpak; SetRpak]);
    ("NRU", plain [SetCpak; SetRpak]);
    ("NSY", plain [SetCpak]);
    ("NSD", plain [SetCpak; SetRpak]);
    ("NSG", plain [SetCpak]);
    ("NTO", plain [SetCpak]);
    ("NS2", plain [SetCpak]);
    ("NSK", plain [SetCpak; SetRpak]);
    ("NDT", plain [SetCpak; SetRpak]);
    ("NPR", plain [SetCpak; SetRpak]);
    ("NIV", plain [SetCpak; SetRpak]);
    ("NSL", plain [SetCpak; SetRpak]);
    ("NR3", plain [SetCpak; SetRpak]);
    ("NBW", plain [SetCpak; SetRpak]);
    ("NSX", plain [SetCpak; SetRpak]);
    ("NSP", plain [SetCpak; SetRpak]);
    ("NPZ", plain [SetCpak; SetRpak]);
    ("NL2", plain [SetCpak; SetRpak]);
    ("NR6", plain [SetCpak; SetRpak]);
    ("NTT", plain [SetCpak]);
    ("NTF", plain [SetCpak; SetRpak]);
    ("NTQ", plain [SetCpak; SetRpak]);
    ("N3T", plain [SetCpak; SetRpak]);
    ("NGB", plain [SetCpak; SetRpak]);
    ("NGR", plain [SetCpak; SetRpak]);
    ("NTH", plain [SetCpak; SetRpak]);
    ("N3P", plain [SetCpak; SetRpak]);
    ("NTU", plain [SetCpak]);
    ("NRW", plain [SetCpak; SetRpak]);
    ("NT2", plain [SetCpak; SetRpak]);
    ("NTK", plain [SetCpak; SetRpak]);
    ("NSB", plain [SetCpak; SetRpak]);
    ("NV8", plain [SetCpak; SetRpak]);
    ("NVG", plain [SetCpak; SetRpak]);
    ("NVC", plain [SetCpak]);
    ("NVR", plain [SetCpak]);
    ("NWV", plain [SetCpak; SetRpak]);
    ("NWM", plain [SetCpak; SetRpak]);
    ("NW3", plain [SetCpak; SetRpak]);
    ("NWN", plain [SetCpak; SetRpak]);
    ("NWW", plain [SetCpak; SetRpak]);
    ("NTI", plain [SetCpak; SetRpak]);
    ("NWG", plain [SetCpak]);
    ("NW8", plain [SetCpak]);
    ("NWD", plain [SetCpak; SetRpak]);
    ("NWP", plain [SetCpak; SetRpak]);
    ("NJ2", plain [SetCpak]);
    ("N8W", plain [SetCpak]);
    ("NWO", plain [SetCpak; SetRpak]);
    ("NXF", plain [SetCpak; SetRpak]);
    ("NJQ", plain [SetRpak]);
    ("NCB", plain [SetRpak]);
    ("NDF", plain [SetRpak]);
    ("NKE", plain [SetRpak]);
    ("NMT", plain [SetRpak]);
    ("NM3", plain [SetRpak]);
    ("NRG", plain [SetRpak]);
    ("NOH", plain [SetRpak; SetTpak]);
    ("NWF", plain [SetRpak]);
    ("N3H", case_N3H);
    ("ND3", case_ND3);
    ("ND4", case_ND4);
    ("NSM", case_NSM);
    ("NWR", case_NWR);
    ("NK4", case_NK4);
    ("NDK", case_NDK);
    ("NWT", case_NWT)
  ].

(** The initial values of the locals other than [cic], which the source
    leaves uninitialised until [switch (crc)] assigns it. *)
Definition chunk_defaults (system_type : SystemType.t) (cic : CIC.t) : Settings :=
  mkSettings MemoryType.NONE system_type cic false false false false.

Definition detect_rom_settings_from_first_chunk
  (id : string) (region_code : ascii) (revision : Z) (crc : Z) : M Z :=
  v <- user_io_status_get "[64]" ;;
  if negb (AutoDetect.is_on (AutoDetect.of_Z v)) then
    printf DiagAutoDetectOff ;; ret 0
  else
    match cic_switch crc (region_system_type region_code) with
    | None => ret 1
    | Some (cic, system_type) =>
        let p := chunk_defaults system_type cic in
        printf (DiagSettings p) ;;
        printf DiagAutoDetectOn ;;
        user_io_status_set "[80:79]" (SystemType.to_Z system_type) ;;
        user_io_status_set "[68:65]" (CIC.to_Z cic) ;;
        match switch_fnv cart_cases (fnv_hash id) with
        | None => ret 2
        | Some body =>
            let p := assign_all p (body region_code revision) in
            user_io_status_set "[71]" (bool_to_Z (cpak p)) ;;
            user_io_status_set "[72]" (bool_to_Z (rpak p)) ;;
            user_io_status_set "[73]" (bool_to_Z (tpak p)) ;;
            user_io_status_set "[74]" (bool_to_Z (rtc p)) ;;
            user_io_status_set "[77:75]" (MemoryType.to_Z (save_type p)) ;;
            ret 0
        end
    end.

(* ===================================================================== *)
(** * [md5_to_hex] and the hash accumulator *)
(* ===================================================================== *)

Definition hex_digit (v : Z) : ascii :=
  ascii_of_N (Z.to_N (if v <? 10 then 48 + v else 87 + v)).

(** [sprintf(p, "%02x", in[i])] *)
Definition sprintf_02x (b : byte) : string :=
  String (hex_digit (byte_val b / 16))
    (String (hex_digit (byte_val b mod 16)) EmptyString).

(** [for (int i = 0; i < 16; i++)] over the 16-byte array [in]. *)
Definition md5_to_hex (input : list byte) : string :=
  fold_right (fun i acc => sprintf_02x (nth i input x00) +:+ acc)
    EmptyString (seq 0 16).

(** The interface of lib/md5 (md5.h), which is not among the sources and
    is taken as a parameter: [MD5Context] is a plain struct, so the
    [memcpy] of one is a copy of its value; [MD5Update] and [MD5Final]
    work on the context they are given and on no other; [MD5Final] writes
    the digest and leaves the context it was given in a finished state. *)
Class Hasher := {
  MD5Context : Type;
  MD5Init : MD5Context;
  MD5Update : MD5Context -> list byte -> MD5Context;
  MD5Final : MD5Context -> list byte * MD5Context;
}.

(* ===================================================================== *)
(** * [n64_rom_tx] *)
(* ===================================================================== *)

(** [sizeof(buf)] of [static uint8_t buf[4096]]. *)
Definition BUF_SIZE : nat := 4096.
Arguments BUF_SIZE : simpl never.

(** The sum over [((uint32_t* )buf)[i]], one word per iteration, into the
    [uint64_t] accumulator. *)
Fixpoint ipl3_sum (iterations : nat) (data : list byte) (acc : Z) : Z :=
  match iterations with
  | O => acc
  | S n =>
      match data with
      | b0 :: b1 :: b2 :: b3 :: data' =>
          ipl3_sum n data' (wrap64 (acc + load32_le b0 b1 b2 b3))
      | _ => acc
      end
  end.

(** [for (i = 0x40 / 4; i < 0x1000 / 4; i++) ipl3_crc += ((uint32_t* )buf)[i];] *)
Definition ipl3_checksum (buf : list byte) (ipl3_crc : Z) : Z :=
  ipl3_sum (0x1000 / 4 - 0x40 / 4) (drop 0x40 buf) ipl3_crc.

(** The C string [strncpy] leaves in a zero-terminated array. *)
Fixpoint c_string (l : list byte) : string :=
  match l with
  | [] => EmptyString
  | b :: l' =>
      if byte_val b =? 0 then EmptyString
      else String (ascii_of_byte b) (c_string l')
  end.

Section Pipeline.
Context {H : Hasher}.

(** The locals of [n64_rom_tx] that live across iterations of the
    [while] loop, with the read position of the file ([unread]) and the
    static buffer.  Sizes are natural numbers: the source keeps them in
    [unsigned long], [uint32_t] and [int].  [int size] is read by the
    progress reports only; the natural numbers of [EvProgress] are the
    values of [size - bytes2send] and [size] for a file of at most
    [INT_MAX] bytes, and what is proved of them carries that bound. *)
Record LoopState := mkLoopState {
  bytes2send : nat;
  unread : list byte;
  buf : list byte;
  is_first_chunk : bool;
  rom_found_in_db : bool;
  rom_format : RomFormat.t;
  ctx : MD5Context;
  ipl3_crc : Z;
  cart_id : string;
  region_code : ascii;
  revision : Z;
}.

(** [normalizeData(buf, chunk, rom_format)] on the static buffer.  The
    buffer holds [BUF_SIZE] bytes and [chunk] never exceeds it, so the
    call stays inside the buffer ([normalizeData_in_buffer] below) and
    the default is never taken. *)
Definition normalize_buf (buf : list byte) (chunk : nat) (format : RomFormat.t)
  : list byte :=
  default buf (normalizeData buf chunk format).

(** The header block of the first iteration: digest of a copy of the
    context, lookup by header digest, and the header fields when the
    lookup misses. *)
Definition first_chunk_detection (env : Env) (s : LoopState) : M LoopState :=
  let ctx_header := ctx s in                        (* memcpy *)
  let '(md5, ctx_header) := MD5Final ctx_header in
  let md5_hex := md5_to_hex md5 in
  printf (DiagHeaderMD5 md5_hex) ;;
  found <- detect_rom_settings_in_dbs env md5_hex ;;
  if negb found then
    printf (DiagNoHeaderInfo md5_hex) ;;
    ret (mkLoopState (bytes2send s) (unread s) (buf s) (is_first_chunk s)
           found (rom_format s) (ctx s)
           (ipl3_checksum (buf s) (ipl3_crc s))
           (c_string (take 3 (drop 0x3b (buf s))))
           (ascii_of_byte (nth 0x3e (buf s) x00))
           (byte_val (nth 0x3f (buf s) x00)))
  else
    ret (mkLoopState (bytes2send s) (unread s) (buf s) (is_first_chunk s)
           found (rom_format s) (ctx s)
           (ipl3_crc s) (cart_id s) (region_code s) (revision s)).

(** One iteration of [while (bytes2send)]; [None] is the [return 0] of
    the length check. *)
Definition loop_body (env : Env) (size : nat) (s : LoopState)
  : M (option LoopState) :=
  let chunk := if (BUF_SIZE <? bytes2send s)%nat then BUF_SIZE else bytes2send s in
  emit (EvFileReadAdv chunk) ;;
  let buf1 := take chunk (unread s) ++ drop chunk (buf s) in
  let unread1 := drop chunk (unread s) in
  if is_first_chunk s && (chunk <? BUF_SIZE)%nat then   (* chunk < 4096 *)
    printf DiagTooShort ;; ret None
  else
    let format := if is_first_chunk s then detectRomFormat buf1 else rom_format s in
    let buf2 := normalize_buf buf1 chunk format in
    let ctx1 := MD5Update (ctx s) (take chunk buf2) in
    let s1 := mkLoopState (bytes2send s) unread1 buf2 (is_first_chunk s)
                (rom_found_in_db s) format ctx1
                (ipl3_crc s) (cart_id s) (region_code s) (revision s) in
    s2 <- (if is_first_chunk s then first_chunk_detection env s1 else ret s1) ;;
    emit (EvFileTxData (take chunk (buf s2))) ;;
    emit (EvProgress (size - bytes2send s2) size) ;;
    ret (Some (mkLoopState (bytes2send s2 - chunk) (unread s2) (buf s2) false
                 (rom_found_in_db s2) (rom_format s2) (ctx s2)
                 (ipl3_crc s2) (cart_id s2) (region_code s2) (revision s2))).

(** [while (bytes2send) { ... }].  Every iteration that continues lowers
    [bytes2send], so [bytes2send] itself bounds the number of iterations;
    [n64_rom_tx] passes it as [fuel]. *)
Fixpoint rom_tx_loop (fuel : nat) (env : Env) (size : nat)
  (s : LoopState) : M (option LoopState) :=
  match fuel with
  | O => ret (Some s)
  | S fuel' =>
      if (bytes2send s =? 0)%nat then ret (Some s)
      else
        r <- loop_body env size s ;;
        match r with
        | None => ret None
        | Some s' => rom_tx_loop fuel' env size s'
        end
  end.

(** The tail of [n64_rom_tx], from [MD5Final(md5, &ctx)] on. *)
Definition finish_rom_tx (env : Env) (name : string) (s : LoopState) : M Z :=
  let '(md5, _) := MD5Final (ctx s) in
  let md5_hex := md5_to_hex md5 in
  printf (DiagFileMD5 md5_hex) ;;
  rom_found_in_db <-
    (if negb (rom_found_in_db s) then
       found <- detect_rom_settings_in_dbs env md5_hex ;;
       (if negb found then printf (DiagNoFileInfo md5_hex) else ret tt) ;;
       ret found
     else ret (rom_found_in_db s)) ;;
  detection_error <-
    (if negb rom_found_in_db then
       e <- detect_rom_settings_from_first_chunk
              (cart_id s) (region_code s) (revision s) (ipl3_crc s) ;;
       (if e =? 1 then printf (DiagUnknownCIC (ipl3_crc s))
        else if e =? 2 then printf (DiagUnknownCartID (cart_id s))
        else ret tt) ;;
       ret e
     else ret 0) ;;
  printf DiagDone ;;
  emit EvFileClose ;;
  emit (EvFileMount name) ;;
  emit (EvSetDownload false) ;;
  emit EvProgressClear ;;
  (if negb rom_found_in_db then
     if detection_error =? 1 then emit (EvInfo NoticeUnknownCIC)
     else if detection_error =? 2 then emit (EvInfo NoticeUnknownCartID)
     else ret tt
   else ret tt) ;;
  ret 1.

(** [n64_rom_tx(name, index)].  [buf0] is what the static buffer holds on
    entry.  [cart_id], which the source leaves uninitialised, starts
    empty: it is read only after the first iteration assigned it, or with
    a zero [ipl3_crc], which [switch (crc)] rejects before the
    identifier is looked at. *)
Definition n64_rom_tx (env : Env) (buf0 : list byte) (name : string) (index : Z)
  : M Z :=
  match rom_files env name with
  | None => ret 0
  | Some contents =>
      let bytes2send := length contents in
      printf (DiagFile name bytes2send index) ;;
      emit (EvSetIndex index) ;;
      emit (EvSetDownload true) ;;
      let size := bytes2send in
      emit EvProgressClear ;;
      emit (EvProcessSS name) ;;
      r <- rom_tx_loop bytes2send env size
             (mkLoopState bytes2send contents buf0 true false
                RomFormat.UNKNOWN MD5Init 0 EmptyString zero 0) ;;
      match r with
      | None => ret 0
      | Some s => finish_rom_tx env name s
      end
  end.

End Pipeline.

(* ===================================================================== *)
(** * An MD5 instance of the hash accumulator *)
(* ===================================================================== *)

(** Modelled from the spec: lib/md5 is not among the sources.  The spec
    asks for a standard incremental 128-bit digest and the source names
    it MD5; [md5_hasher] below is MD5 as RFC 1321 defines it, with a
    context of four state words, a byte count and the bytes of the
    current, partial block.  It is used to run the model on concrete
    files; the theorems about [n64_rom_tx] hold for every [Hasher]. *)
Module MD5.

Definition wrap32 (x : Z) : Z := x mod 2 ^ 32.
Definition rotl32 (x : Z) (s : Z) : Z :=
  wrap32 (Z.lor (Z.shiftl x s) (Z.shiftr x (32 - s))).
Definition not32 (x : Z) : Z := Z.lxor x 0xffffffff.

Definition K : list Z :=
  [ 0xd76aa478; 0xe8c7b756; 0x242070db; 0xc1bdceee; 0xf57c0faf; 0x4787c62a;
    0xa8304613; 0xfd469501; 0x698098d8; 0x8b44f7af; 0xffff5bb1; 0x895cd7be;
    0x6b901122; 0xfd987193; 0xa679438e; 0x49b40821; 0xf61e2562; 0xc040b340;
    0x265e5a51; 0xe9b6c7aa; 0xd62f105d; 0x02441453; 0xd8a1e681; 0xe7d3fbc8;
    0x21e1cde6; 0xc33707d6; 0xf4d50d87; 0x455a14ed; 0xa9e3e905; 0xfcefa3f8;
    0x676f02d9; 0x8d2a4c8a; 0xfffa3942; 0x8771f681; 0x6d9d6122; 0xfde5380c;
    0xa4beea44; 0x4bdecfa9; 0xf6bb4b60; 0xbebfbc70; 0x289b7ec6; 0xeaa127fa;
    0xd4ef3085; 0x04881d05; 0xd9d4d039; 0xe6db99e5; 0x1fa27cf8; 0xc4ac5665;
    0xf4292244; 0x432aff97; 0xab9423a7; 0xfc93a039; 0x655b59c3; 0x8f0ccc92;
    0xffeff47d; 0x85845dd1; 0x6fa87e4f; 0xfe2ce6e0; 0xa3014314; 0x4e0811a1;
    0xf7537e82; 0xbd3af235; 0x2ad7d2bb; 0xeb86d391 ].

Definition shifts : list Z :=
  [ 7; 12; 17; 22; 7; 12; 17; 22; 7; 12; 17; 22; 7; 12; 17; 22;
    5; 9; 14; 20; 5; 9; 14; 20; 5; 9; 14; 20; 5; 9; 14; 20;
    4; 11; 16; 23; 4; 11; 16; 23; 4; 11; 16; 23; 4; 11; 16; 23;
    6; 10; 15; 21; 6; 10; 15; 21; 6; 10; 15; 21; 6; 10; 15; 21 ].

Record state := mkState { sa : Z; sb : Z; sc : Z; sd : Z }.

(** The 16 little-endian words of a 64-byte block. *)
Fixpoint words (n : nat) (block : list byte) : list Z :=
  match n with
  | O => []
  | S n' =>
      match block with
      | b0 :: b1 :: b2 :: b3 :: block' => load32_le b0 b1 b2 b3 :: words n' block'
      | _ => []
      end
  end.

Definition step (m : list Z) (s : state) (i : nat) : state :=
  let iz := Z.of_nat i in
  let '(f, g) :=
    if iz <? 16 then
      (Z.lor (Z.land (sb s) (sc s)) (Z.land (not32 (sb s)) (sd s)), iz)
    else if iz <? 32 then
      (Z.lor (Z.land (sd s) (sb s)) (Z.land (not32 (sd s)) (sc s)), (5 * iz + 1) mod 16)
    else if iz <? 48 then
      (Z.lxor (sb s) (Z.lxor (sc s) (sd s)), (3 * iz + 5) mod 16)
    else
      (Z.lxor (sc s) (Z.lor (sb s) (not32 (sd s))), (7 * iz) mod 16) in
  let f := wrap32 (f + sa s + nth i K 0 + nth (Z.to_nat g) m 0) in
  mkState (sd s) (wrap32 (sb s + rotl32 f (nth i shifts 0))) (sb s) (sc s).

Definition transform (s : state) (block : list byte) : state :=
  let r := fold_left (step (words 16 block)) (seq 0 64) s in
  mkState (wrap32 (sa s + sa r)) (wrap32 (sb s + sb r))
    (wrap32 (sc s + sc r)) (wrap32 (sd s + sd r)).

Record context := mkContext {
  words4 : state;          (* the running state *)
  count : Z;               (* bytes consumed so far *)
  pending : list byte;     (* the bytes of the partial block *)
}.

Definition init : context :=
  mkContext (mkState 0x67452301 0xefcdab89 0x98badcfe 0x10325476) 0 [].

Fixpoint blocks (fuel : nat) (s : state) (data : list byte) : state * list byte :=
  match fuel with
  | O => (s, data)
  | S fuel' =>
      if (length data <? 64)%nat then (s, data)
      else blocks fuel' (transform s (take 64 data)) (drop 64 data)
  end.

Definition update (c : context) (data : list byte) : context :=
  let all := pending c ++ data in
  let '(s, rest) := blocks (length all) (words4 c) all in
  mkContext s (count c + Z.of_nat (length data)) rest.

Definition byte_of_Z (v : Z) : byte :=
  default x00 (Byte.of_N (Z.to_N (v mod 256))).

Definition store_le (n : nat) (v : Z) : list byte :=
  map (fun i => byte_of_Z (Z.shiftr v (8 * Z.of_nat i))) (seq 0 n).

Definition final (c : context) : list byte * context :=
  let used := length (pending c) in
  let zeros := ((if used <? 56 then 55 else 119) - used)%nat in
  let tail := pending c ++ [x80] ++ repeat x00 zeros
              ++ store_le 8 (wrap64 (8 * count c)) in
  let '(s, _) := blocks (length tail) (words4 c) tail in
  (store_le 4 (sa s) ++ store_le 4 (sb s) ++ store_le 4 (sc s) ++ store_le 4 (sd s),
   mkContext (mkState 0 0 0 0) 0 []).

End MD5.

Definition md5_hasher : Hasher :=
  {| MD5Context := MD5.context;
     MD5Init := MD5.init;
     MD5Update := MD5.update;
     MD5Final := MD5.final |}.

(* ===================================================================== *)
(** * Reading a trace *)
(* ===================================================================== *)

(** The writes to the status register, in order. *)
Fixpoint status_writes (tr : list Event) : list (string * Z) :=
  match tr with
  | [] => []
  | EvStatusSet f v :: tr' => (f, v) :: status_writes tr'
  | _ :: tr' => status_writes tr'
  end.

(** The payloads handed to [user_io_file_tx_data], in order. *)
Fixpoint tx_data (tr : list Event) : list (list byte) :=
  match tr with
  | [] => []
  | EvFileTxData d :: tr' => d :: tx_data tr'
  | _ :: tr' => tx_data tr'
  end.

(** The values of [chunk], as passed to [FileReadAdv]. *)
Fixpoint read_sizes (tr : list Event) : list nat :=
  match tr with
  | [] => []
  | EvFileReadAdv n :: tr' => n :: read_sizes tr'
  | _ :: tr' => read_sizes tr'
  end.

(** The messages shown through [Info]. *)
Fixpoint notices (tr : list Event) : list Notice :=
  match tr with
  | [] => []
  | EvInfo n :: tr' => n :: notices tr'
  | _ :: tr' => notices tr'
  end.

(** The digests printed as header MD5 and as file MD5. *)
Fixpoint header_md5_printed (tr : list Event) : list string :=
  match tr with
  | [] => []
  | EvPrintf (DiagHeaderMD5 h) :: tr' => h :: header_md5_printed tr'
  | _ :: tr' => header_md5_printed tr'
  end.

Fixpoint file_md5_printed (tr : list Event) : list string :=
  match tr with
  | [] => []
  | EvPrintf (DiagFileMD5 h) :: tr' => h :: file_md5_printed tr'
  | _ :: tr' => file_md5_printed tr'
  end.

(** The events the three detection functions can emit; [n64_rom_tx]
    itself emits none of them. *)
Definition is_detection_event (e : Event) : bool :=
  match e with
  | EvStatusGet _ | EvStatusSet _ _ | EvOpenTextReader _ => true
  | EvPrintf d =>
      match d with
      | DiagFailedToOpenDb _ | DiagNoTags | DiagFoundEntry _ | DiagTag _
      | DiagUnknownTag _ | DiagSettings _ | DiagAutoDetectOn
      | DiagAutoDetectOff => true
      | _ => false
      end
  | _ => false
  end.

Fixpoint detection_events (tr : list Event) : list Event :=
  match tr with
  | [] => []
  | e :: tr' =>
      if is_detection_event e then e :: detection_events tr'
      else detection_events tr'
  end.

(** The events of the streaming loop after its first iteration. *)
Definition is_stream_event (e : Event) : bool :=
  match e with
  | EvFileReadAdv _ | EvFileTxData _ | EvProgress _ _ => true
  | _ => false
  end.

(** The two writes after [switch (crc)]: system type and CIC. *)
Definition cic_writes (system_type : SystemType.t) (cic : CIC.t)
  : list (string * Z) :=
  [ ("[80:79]", SystemType.to_Z system_type); ("[68:65]", CIC.to_Z cic) ].

(** The five writes of the peripheral flags and the save type. *)
Definition pak_writes (p : Settings) : list (string * Z) :=
  [ ("[71]", bool_to_Z (cpak p));
    ("[72]", bool_to_Z (rpak p));
    ("[73]", bool_to_Z (tpak p));
    ("[74]", bool_to_Z (rtc p));
    ("[77:75]", MemoryType.to_Z (save_type p)) ].

(** The status writes that publish settings [p], in the order both
    detection functions use. *)
Definition settings_writes (p : Settings) : list (string * Z) :=
  cic_writes (system_type p) (cic p) ++ pak_writes p.

(** Auto-detect is enabled in a status register. *)
Definition auto_detect_on (st : gmap string Z) : bool :=
  AutoDetect.is_on (AutoDetect.of_Z (status_read st "[64]")).

(** The header fields, read off the normalised first chunk. *)
Definition header_cart_id (chunk0 : list byte) : string :=
  c_string (take 3 (drop 0x3b chunk0)).
Definition header_region_code (chunk0 : list byte) : ascii :=
  ascii_of_byte (nth 0x3e chunk0 x00).
Definition header_revision (chunk0 : list byte) : Z :=
  byte_val (nth 0x3f chunk0 x00).
Definition header_crc (chunk0 : list byte) : Z := ipl3_checksum chunk0 0.

(** The chunk lengths of a source of [size] bytes: full buffers, then the
    remainder when there is one. *)
Definition chunk_lengths (size : nat) : list nat :=
  repeat BUF_SIZE (size / BUF_SIZE)
  ++ (if (size mod BUF_SIZE =? 0)%nat then [] else [(size mod BUF_SIZE)%nat]).

Section Digests.
Context {H : Hasher}.

(** Hashing a stream of chunks from a fresh context, with no copy of the
    context ever taken: [MD5Init], one [MD5Update] per chunk, [MD5Final]. *)
Definition stream_digest (chunks : list (list byte)) : list byte :=
  (MD5Final (fold_left MD5Update chunks MD5Init)).1.

(** The lookup keys of an ingestion, from the bytes it forwarded: the
    digest of the first chunk and the digest of all chunks. *)
Definition header_md5 (tr : list Event) : string :=
  md5_to_hex (stream_digest (take 1 (tx_data tr))).

Definition file_md5 (tr : list Event) : string :=
  md5_to_hex (stream_digest (tx_data tr)).

End Digests.

(* ===================================================================== *)
(** * Vocabulary of the proofs *)
(* ===================================================================== *)

(** Every event of a trace is a detection event. *)
Definition detection_only (tr : list Event) : Prop :=
  Forall (fun e => is_detection_event e = true) tr.

(** Every event of a trace is an event of the streaming loop. *)
Definition stream_only (tr : list Event) : Prop :=
  Forall (fun e => is_stream_event e = true) tr.

(** A run that left the status register alone and emitted detection
    events only, none of them a write. *)
Definition quiet {A : Type} (r : (A * gmap string Z) * list Event)
  (st : gmap string Z) : Prop :=
  final_status r = st /\ detection_only (trace r) /\ status_writes (trace r) = [].

(** The chunk of an iteration: a full buffer, or what is left. *)
Definition next_chunk (bytes2send : nat) : nat :=
  if (BUF_SIZE <? bytes2send)%nat then BUF_SIZE else bytes2send.

(** The notice that follows the return value of the heuristic. *)
Definition notice_of (detection_error : Z) : list Notice :=
  if detection_error =? 1 then [NoticeUnknownCIC]
  else if detection_error =? 2 then [NoticeUnknownCartID]
  else [].

(** What the program calls before the first read. *)
Definition prologue (name : string) (size : nat) (index : Z) : list Event :=
  [ EvPrintf (DiagFile name size index); EvSetIndex index; EvSetDownload true;
    EvProgressClear; EvProcessSS name ].

Section LoopVocabulary.
Context {H : Hasher}.

(** The state [n64_rom_tx] enters the loop with. *)
Definition initial_state (contents buf0 : list byte) : LoopState :=
  mkLoopState (length contents) contents buf0 true false RomFormat.UNKNOWN
    MD5Init 0 EmptyString zero 0.

(** The buffer after the read and the normalisation of an iteration. *)
Definition iteration_buf (s : LoopState) (format : RomFormat.t) : list byte :=
  let chunk := next_chunk (bytes2send s) in
  normalize_buf (take chunk (unread s) ++ drop chunk (buf s)) chunk format.

(** An iteration after the first: the state it leaves and its events. *)
Definition later_state (s : LoopState) : LoopState :=
  let chunk := next_chunk (bytes2send s) in
  let buf2 := iteration_buf s (rom_format s) in
  mkLoopState (bytes2send s - chunk) (drop chunk (unread s)) buf2 false
    (rom_found_in_db s) (rom_format s) (MD5Update (ctx s) (take chunk buf2))
    (ipl3_crc s) (cart_id s) (region_code s) (revision s).

Definition later_events (size : nat) (s : LoopState) : list Event :=
  let chunk := next_chunk (bytes2send s) in
  [ EvFileReadAdv chunk;
    EvFileTxData (take chunk (iteration_buf s (rom_format s)));
    EvProgress (size - bytes2send s) size ].

(** The lookup key of the header: the digest of a copy of the context
    after the first chunk went in. *)
Definition header_key (c : MD5Context) (chunk0 : list byte) : string :=
  md5_to_hex (MD5Final (MD5Update c chunk0)).1.

(** The events of the first iteration around the database lookup. *)
Definition first_events (env : Env) (size : nat) (s : LoopState)
  (chunk0 : list byte) (st : gmap string Z) : list Event :=
  let hdr := header_key (ctx s) chunk0 in
  let by_header := detect_rom_settings_in_dbs env hdr st in
  [EvFileReadAdv BUF_SIZE; EvPrintf (DiagHeaderMD5 hdr)]
  ++ trace by_header
  ++ (if result by_header then [] else [EvPrintf (DiagNoHeaderInfo hdr)])
  ++ [EvFileTxData chunk0; EvProgress (size - bytes2send s) size].

End LoopVocabulary.

(* ===================================================================== *)
(** * Concrete sources and databases *)
(* ===================================================================== *)

(** A big-endian image of 4100 bytes: the cartridge magic, a header and
    boot segment of zeros, and four more bytes. *)
Definition rom_be : list byte :=
  [x80; x37; x12; x40] ++ repeat x00 4092 ++ [x01; x02; x03; x04].

(** A little-endian image of 4100 bytes: [rom_be] with every group of
    four bytes reversed. *)
Definition rom_le : list byte :=
  [x40; x12; x37; x80] ++ repeat x00 4092 ++ [x04; x03; x02; x01].

(** A little-endian image of 4098 bytes, two bytes past a full buffer. *)
Definition rom_le_4098 : list byte :=
  [x40; x12; x37; x80] ++ repeat x00 4092 ++ [xaa; xbb].

(** An image of 2048 bytes. *)
Definition rom_2048 : list byte := repeat x00 2048.

(** A database whose first source holds the header digest of [rom_be]. *)
Definition env_header_hit : Env :=
  mkEnv (fun _ => Some rom_be)
    (fun db_file_name =>
       if String.eqb db_file_name "N64-database.txt"
       then Some ["eaa4097154101cf622f1fed91f944736 sram32k|rpak"]
       else None).

(** No database can be opened. *)
Definition env_no_db (contents : list byte) : Env :=
  mkEnv (fun _ => Some contents) (fun _ => None).

(** A database with records that carry the DDUS token in two letter
    cases. *)
Definition env_ddus : Env :=
  mkEnv (fun _ => None)
    (fun _ => Some ["00000000000000000000000000000001 cicDDUS|rpak";
                    "00000000000000000000000000000002 cicddus"]).

(** Auto-detect switched off. *)
Definition status_auto_detect_off : gmap string Z := <["[64]" := 1]> ∅.
(* ===================================================================== *)
(** * More readings of a trace and of the status register *)
(* ===================================================================== *)

(** The counts of the reports
    [ProgressMessage("Loading", f.name, size - bytes2send, size)], in
    order. *)
Fixpoint progress_reports (tr : list Event) : list (nat * nat) :=
  match tr with
  | [] => []
  | EvProgress sent total :: tr' => (sent, total) :: progress_reports tr'
  | _ :: tr' => progress_reports tr'
  end.

(** The calls that drive the transfer and the display, as opposed to the
    diagnostics, the reads and the detection. *)
Definition is_control_event (e : Event) : bool :=
  match e with
  | EvSetIndex _ | EvSetDownload _ | EvProgressClear | EvProcessSS _
  | EvFileTxData _ | EvFileClose | EvFileMount _ | EvInfo _ => true
  | _ => false
  end.

Fixpoint control_events (tr : list Event) : list Event :=
  match tr with
  | [] => []
  | e :: tr' =>
      if is_control_event e then e :: control_events tr'
      else control_events tr'
  end.

(** What the program calls after the stream: close, mount the save
    file, end of transfer, progress reset. *)
Definition epilogue (name : string) : list Event :=
  [ EvFileClose; EvFileMount name; EvSetDownload false; EvProgressClear ].

(** The width in bits of the seven status fields the detection functions
    write, as their addresses give it. *)
Definition field_width (field : string) : option Z :=
  if String.eqb field "[80:79]" then Some 2
  else if String.eqb field "[68:65]" then Some 4
  else if String.eqb field "[71]" then Some 1
  else if String.eqb field "[72]" then Some 1
  else if String.eqb field "[73]" then Some 1
  else if String.eqb field "[74]" then Some 1
  else if String.eqb field "[77:75]" then Some 3
  else None.

(** A write goes to one of the seven fields, with a value the field can
    hold. *)
Definition write_fits (w : string * Z) : Prop :=
  match field_width w.1 with
  | Some n => 0 <= w.2 < 2 ^ n
  | None => False
  end.

(** A status register after a sequence of writes. *)
Definition apply_writes (ws : list (string * Z)) (st : gmap string Z)
  : gmap string Z :=
  fold_left (fun st w => <[w.1 := w.2]> st) ws st.

(** A run that left the status register alone, wrote no field and showed
    no notice. *)
Definition silent {A : Type} (r : (A * gmap string Z) * list Event)
  (st : gmap string Z) : Prop :=
  final_status r = st /\ status_writes (trace r) = [] /\ notices (trace r) = [].

(** An event other than a write, or a write that fits. *)
Definition event_fits (e : Event) : Prop :=
  match e with
  | EvStatusSet field value => write_fits (field, value)
  | _ => True
  end.

(** A computation whose status register holds, in the end, what the
    trace wrote, in order, and whose writes all fit. *)
Definition tracked {A : Type} (m : M A) : Prop :=
  forall st,
    final_status (m st) = apply_writes (status_writes (trace (m st))) st
    /\ Forall event_fits (trace (m st)).

(* ===================================================================== *)
(** * Readings of the tag list of a database record *)
(* ===================================================================== *)

(** The case a tag selects in the tag switch, after [normalizeString]. *)
Definition tag_effect (tag : string) : option Assign :=
  switch_fnv tag_cases (fnv_hash (normalizeString tag)).

Definition tag_save_type (tag : string) : option MemoryType.t :=
  match tag_effect tag with Some (SetSaveType m) => Some m | _ => None end.

Definition tag_system_type (tag : string) : option SystemType.t :=
  match tag_effect tag with Some (SetSystemType s) => Some s | _ => None end.

Definition tag_cic (tag : string) : option CIC.t :=
  match tag_effect tag with Some (SetCic c) => Some c | _ => None end.

Definition tag_sets_cpak (tag : string) : bool :=
  match tag_effect tag with Some SetCpak => true | _ => false end.

Definition tag_sets_rpak (tag : string) : bool :=
  match tag_effect tag with Some SetRpak => true | _ => false end.

Definition tag_sets_tpak (tag : string) : bool :=
  match tag_effect tag with Some SetTpak => true | _ => false end.

Definition tag_sets_rtc (tag : string) : bool :=
  match tag_effect tag with Some SetRtc => true | _ => false end.

(** A database line that the reader passes over: the first 32 characters
    differ from the lookup hash, or the line has no second word. *)
Definition passed_over (lookup_hash line : string) : bool :=
  negb (strncmp_eq 32 lookup_hash line)
  || match sscanf_tags line with None => true | Some _ => false end.

(** The settings a record with tag field [tags] gives: the defaults,
    then the assignment of every token that selects a case, in order. *)
Definition record_settings (tags : string) : Settings :=
  assign_all db_defaults (omap tag_effect (strtok_all "|" tags)).

(* ===================================================================== *)
(** * Readings of a digest in hexadecimal *)
(* ===================================================================== *)

(** The characters [%02x] prints. *)
Definition is_lower_hex (c : ascii) : bool :=
  let v := char_val c in
  ((48 <=? v) && (v <=? 57)) || ((97 <=? v) && (v <=? 102)).

(** The value of a hexadecimal digit, and of a pair of them. *)
Definition hex_value (c : ascii) : Z :=
  let v := char_val c in if v <? 58 then v - 48 else v - 87.

Definition hex_pair_value (s : string) : Z :=
  match s with
  | String hi (String lo _) => hex_value hi * 16 + hex_value lo
  | _ => 0
  end.

(* ===================================================================== *)
(** * The CIC families *)
(* ===================================================================== *)

(** The television system a CIC belongs to: the 61xx series is NTSC, the
    71xx series PAL; the others are used with both. *)
Definition cic_region (c : CIC.t) : option SystemType.t :=
  match c with
  | CIC.CIC_NUS_6101 | CIC.CIC_NUS_6102 | CIC.CIC_NUS_6103
  | CIC.CIC_NUS_6105 | CIC.CIC_NUS_6106 => Some SystemType.NTSC
  | CIC.CIC_NUS_7101 | CIC.CIC_NUS_7102 | CIC.CIC_NUS_7103
  | CIC.CIC_NUS_7105 | CIC.CIC_NUS_7106 => Some SystemType.PAL
  | _ => None
  end.

(** The sum of [iterations] 32-bit words, in unbounded arithmetic. *)
Fixpoint word_sum (iterations : nat) (data : list byte) : Z :=
  match iterations with
  | O => 0
  | S n =>
      match data with
      | b0 :: b1 :: b2 :: b3 :: data' => load32_le b0 b1 b2 b3 + word_sum n data'
      | _ => 0
      end
  end.

(* ===================================================================== *)
(** * Analog stick routing (support/n64/n64_joy_emu.cpp) *)
(* ===================================================================== *)

(** The range of [int]. *)
Definition INT_MIN : Z := - 2 ^ 31.
Definition INT_MAX : Z := 2 ^ 31 - 1.


(** [stick_swap(int* num, int* stick)].  [tv] is the [uint32_t] that
    [user_io_status_get("TV", 1)] returns; the contents of the two [int]
    cells are passed in and the pair of their final contents is returned.
    The additions and subtractions are written in unbounded arithmetic:
    on an [int] none of them leaves the range of [int], as is proved
    below.  [%] is the C remainder, [Z.rem]. *)
Definition stick_swap (tv : Z) (num stick : Z) : Z * Z :=
  let p2 := negb (Z.land tv 1 =? 0) in
  let p3 := negb (Z.land (Z.shiftr tv 1) 1 =? 0) in
  let swap := negb (Z.land (Z.shiftr tv 2) 1 =? 0) in
  (* Reverse sticks *)
  let stick := if stick =? 0 then 1 else 0 in
  (* P1 right stick -> P3 *)
  let '(num, stick) :=
    if p3 then
      if negb (stick =? 0) then
        if num <? 2 then (num + 2, 0) else (num, stick)
      else if (2 <? num) && (num <? 5) then (num - 2, 1)
      else (num, stick)
    else (num, stick) in
  (* P1 right stick -> P2 *)
  if p2 then
    let num_odd := negb (Z.rem num 2 =? 0) in
    if negb (stick =? 0) then
      if negb num_odd then (num + 1, 0) else (num, stick)
    else if num_odd then (num - 1, 1)
    else (num, stick)
  else (num, stick).

(* ===================================================================== *)
(** * More concrete sources and databases *)
(* ===================================================================== *)

(** A big-endian image of 4096 bytes whose boot segment sums to
    0x39c981107, an entry of the CIC table, and whose cartridge
    identifier is empty. *)
Definition rom_unknown_id : list byte :=
  [x80; x37; x12; x40] ++ repeat x00 60
  ++ repeat xff 12 ++ [x0a; x11; x98; x9c] ++ repeat x00 4016.

(** A database whose first file has, for one hash, a line without tags,
    a record, and a second record. *)
Definition env_two_records : Env :=
  mkEnv (fun _ => None)
    (fun db_file_name =>
       if String.eqb db_file_name "N64-database.txt"
       then Some ["ffffffffffffffffffffffffffffffff eeprom2k";
                  "00000000000000000000000000000001";
                  "00000000000000000000000000000001 sram32k|cpak|SRAM96K|pal";
                  "00000000000000000000000000000001 flash128k"]
       else Some ["00000000000000000000000000000001 eeprom512";
                  "00000000000000000000000000000002 rpak"]).

(* ===================================================================== *)
(** * C strings *)
(* ===================================================================== *)

(** No character of the string is the terminator. *)
Fixpoint nul_free (s : string) : bool :=
  match s with
  | EmptyString => true
  | String c s' => negb (is_nul c) && nul_free s'
  end.

(** Every character of the string satisfies [p]. *)
Fixpoint string_forall (p : ascii -> bool) (s : string) : bool :=
  match s with
  | EmptyString => true
  | String c s' => p c && string_forall p s'
  end.

(** An upper-case letter of the C locale. *)
Definition isupper (c : ascii) : bool :=
  (65 <=? char_val c) && (char_val c <=? 90).

(** The offset each chunk of a sequence starts at, from [start]. *)
Fixpoint running_offsets (start : nat) (sizes : list nat) : list nat :=
  match sizes with
  | [] => []
  | c :: cs => start :: running_offsets (start + c) cs
  end.

(* ===================================================================== *)
(** * The normaliser *)
(* ===================================================================== *)

Section Normalizer.

(** Induction over a list two elements at a time. *)
Lemma list_pair_ind {A : Type} (P : list A -> Prop) :
  P [] -> (forall x, P [x]) -> (forall x y l, P l -> P (x :: y :: l)) ->
  forall l, P l.
Proof.
  intros H0 H1 H2.
  refine (fix go l := match l with
                      | [] => H0
                      | [x] => H1 x
                      | x :: y :: l' => H2 x y l' (go l')
                      end).
Qed.

(** Induction over a list four elements at a time. *)
Lemma list_quad_ind {A : Type} (P : list A -> Prop) :
  P [] -> (forall x, P [x]) -> (forall x y, P [x; y]) ->
  (forall x y z, P [x; y; z]) ->
  (forall x y z w l, P l -> P (x :: y :: z :: w :: l)) ->
  forall l, P l.
Proof.
  intros H0 H1 H2 H3 H4.
  refine (fix go l := match l with
                      | [] => H0
                      | [x] => H1 x
                      | [x; y] => H2 x y
                      | [x; y; z] => H3 x y z
                      | x :: y :: z :: w :: l' => H4 x y z w l' (go l')
                      end).
Qed.

(** The transform of a buffer whose first [length a] bytes are whole
    groups: the groups of [a] are rewritten, then the loop goes on in
    [b]. *)
Lemma normalize_byte_swapped_app (a b : list byte) (n : nat) :
  (length a mod 2 = 0)%nat ->
  exists out, normalize_byte_swapped (length a) a = Some out
    /\ length out = length a
    /\ normalize_byte_swapped (length a + n) (a ++ b)
       = option_map (app out) (normalize_byte_swapped n b).
Proof.
  induction a as [|x|x y a IH] using list_pair_ind; intros Hlen.
  - exists []. cbn. repeat split. by destruct (normalize_byte_swapped n b).
  - discriminate.
  - destruct IH as (out & Ha & Hl & Hab).
    { cbn [length] in Hlen.
      replace (S (S (length a))) with (length a + 1 * 2)%nat in Hlen by lia.
      by rewrite Nat.Div0.mod_add in Hlen. }
    exists (y :: x :: out). cbn [length app Nat.add normalize_byte_swapped].
    rewrite Ha, Hab, Hl. repeat split.
    by destruct (normalize_byte_swapped n b).
Qed.

Lemma normalize_little_endian_app (a b : list byte) (n : nat) :
  (length a mod 4 = 0)%nat ->
  exists out, normalize_little_endian (length a) a = Some out
    /\ length out = length a
    /\ normalize_little_endian (length a + n) (a ++ b)
       = option_map (app out) (normalize_little_endian n b).
Proof.
  induction a as [|x|x y|x y z|x y z w a IH] using list_quad_ind; intros Hlen;
    try discriminate.
  - exists []. cbn. repeat split. by destruct (normalize_little_endian n b).
  - destruct IH as (out & Ha & Hl & Hab).
    { cbn [length] in Hlen.
      replace (S (S (S (S (length a))))) with (length a + 1 * 4)%nat in Hlen by lia.
      by rewrite Nat.Div0.mod_add in Hlen. }
    exists (w :: z :: y :: x :: out).
    cbn [length app Nat.add normalize_little_endian].
    rewrite Ha, Hab, Hl. repeat split.
    by destruct (normalize_little_endian n b).
Qed.

Lemma normalizeData_app (format : RomFormat.t) (a b : list byte) (n : nat) :
  (length a mod granularity format = 0)%nat ->
  exists out, normalize_chunk format a = Some out
    /\ length out = length a
    /\ normalizeData (a ++ b) (length a + n) format
       = option_map (app out) (normalizeData b n format).
Proof.
  intros Hlen. unfold normalize_chunk. destruct format; cbn in *.
  - by exists a.
  - by exists a.
  - by apply normalize_byte_swapped_app.
  - by apply normalize_little_endian_app.
Qed.

(** A chunk of whole groups is normalised without an access past its
    own length. *)
Lemma normalize_chunk_whole_groups (format : RomFormat.t) (chunk : list byte) :
  (length chunk mod granularity format = 0)%nat ->
  exists out, normalize_chunk format chunk = Some out /\ length out = length chunk.
Proof.
  intros Hlen. destruct (normalizeData_app format chunk [] 0 Hlen) as (out & ? & ? & _).
  by exists out.
Qed.

(** C8. For every format and every split of a buffer into chunks whose
    lengths are multiples of the granularity of the format (2 bytes for
    byte-swapped, 4 bytes for little-endian), normalising every chunk on
    its own succeeds, and so does normalising the concatenation in one
    call, whose result is the concatenation of the normalised chunks. *)
Theorem normalizeData_chunked (format : RomFormat.t) (chunks : list (list byte)) :
  Forall (fun chunk => (length chunk mod granularity format = 0)%nat) chunks ->
  exists outs,
    mapM (normalize_chunk format) chunks = Some outs
    /\ normalize_chunk format (concat chunks) = Some (concat outs).
Proof.
  induction 1 as [|chunk rest Hc _ IH].
  - exists []. split; [done|]. by destruct format.
  - destruct IH as (outs & Hm & Hall).
    destruct (normalizeData_app format chunk (concat rest) (length (concat rest)) Hc)
      as (out & Ho & _ & Happ).
    exists (out :: outs). split.
    + cbn. rewrite Ho. cbn. by rewrite Hm.
    + unfold normalize_chunk in *. cbn [concat].
      rewrite length_app, Happ, Hall. done.
Qed.

End Normalizer.

(** The split of eight bytes into chunks of four, two and two bytes,
    byte-swapped. *)
Lemma normalizeData_chunked_witness :
  exists outs,
    mapM (normalize_chunk RomFormat.BYTE_SWAPPED)
      [[x01; x02; x03; x04]; [x05; x06]; [x07; x08]] = Some outs
    /\ normalize_chunk RomFormat.BYTE_SWAPPED
         (concat [[x01; x02; x03; x04]; [x05; x06]; [x07; x08]])
       = Some (concat outs).
Proof.
  apply (normalizeData_chunked RomFormat.BYTE_SWAPPED
           [[x01; x02; x03; x04]; [x05; x06]; [x07; x08]]).
  repeat constructor.
Defined.

(* ===================================================================== *)
(** * Running computations *)
(* ===================================================================== *)

Section Running.
Context {A B : Type}.

Lemma run_bind (m : M A) (k : A -> M B) (st : gmap string Z) :
  bind m k st =
  let r := m st in
  let r' := k (result r) (final_status r) in
  ((result r', final_status r'), trace r ++ trace r').
Proof.
  unfold bind, result, final_status, trace.
  destruct (m st) as [[a st1] t1]; cbn.
  by destruct (k a st1) as [[b st2] t2].
Qed.

Lemma result_bind (m : M A) (k : A -> M B) (st : gmap string Z) :
  result (bind m k st) = result (k (result (m st)) (final_status (m st))).
Proof. by rewrite run_bind. Qed.

Lemma final_status_bind (m : M A) (k : A -> M B) (st : gmap string Z) :
  final_status (bind m k st)
  = final_status (k (result (m st)) (final_status (m st))).
Proof. by rewrite run_bind. Qed.

Lemma trace_bind (m : M A) (k : A -> M B) (st : gmap string Z) :
  trace (bind m k st)
  = trace (m st) ++ trace (k (result (m st)) (final_status (m st))).
Proof. by rewrite run_bind. Qed.

End Running.

(** A run is determined by its three components. *)
Lemma run_eta {A : Type} (r : (A * gmap string Z) * list Event) :
  r = ((result r, final_status r), trace r).
Proof. by destruct r as [[a st] t]. Qed.

Lemma detection_only_app (t1 t2 : list Event) :
  detection_only t1 -> detection_only t2 -> detection_only (t1 ++ t2).
Proof. intros. by apply Forall_app. Qed.

Lemma detection_only_filter (tr : list Event) :
  detection_only tr -> detection_events tr = tr.
Proof.
  induction 1 as [|e tr He _ IH]; [done|].
  cbn [detection_events]. by rewrite He, IH.
Qed.

Lemma detection_only_projections (tr : list Event) :
  detection_only tr ->
  tx_data tr = [] /\ read_sizes tr = [] /\ notices tr = []
  /\ header_md5_printed tr = [] /\ file_md5_printed tr = [].
Proof.
  induction 1 as [|e tr He _ (I1 & I2 & I3 & I4 & I5)]; [done|].
  destruct e as [| | | | | | | | | | | | |d]; try discriminate;
    try (destruct d; try discriminate); done.
Qed.

Lemma stream_only_projections (tr : list Event) :
  stream_only tr ->
  detection_events tr = [] /\ status_writes tr = [] /\ notices tr = []
  /\ header_md5_printed tr = [] /\ file_md5_printed tr = [].
Proof.
  induction 1 as [|e tr He _ (I1 & I2 & I3 & I4 & I5)]; [done|].
  destruct e; try discriminate; done.
Qed.

Create Rewrite HintDb run.
#[export] Hint Rewrite @result_bind @final_status_bind @trace_bind : run.

(** Normalises the projections of a run of a composed computation. *)
Ltac run_simpl :=
  repeat (autorewrite with run; cbn [ret emit printf user_io_status_get
            user_io_status_set result final_status trace fst snd app]).

(** ** Projections of composed traces *)

Lemma status_writes_app (t1 t2 : list Event) :
  status_writes (t1 ++ t2) = status_writes t1 ++ status_writes t2.
Proof.
  induction t1 as [|e t1 IH]; [done|]. destruct e; cbn; by rewrite ?IH.
Qed.

Lemma tx_data_app (t1 t2 : list Event) :
  tx_data (t1 ++ t2) = tx_data t1 ++ tx_data t2.
Proof.
  induction t1 as [|e t1 IH]; [done|]. destruct e; cbn; by rewrite ?IH.
Qed.

Lemma read_sizes_app (t1 t2 : list Event) :
  read_sizes (t1 ++ t2) = read_sizes t1 ++ read_sizes t2.
Proof.
  induction t1 as [|e t1 IH]; [done|]. destruct e; cbn; by rewrite ?IH.
Qed.

Lemma notices_app (t1 t2 : list Event) :
  notices (t1 ++ t2) = notices t1 ++ notices t2.
Proof.
  induction t1 as [|e t1 IH]; [done|]. destruct e; cbn; by rewrite ?IH.
Qed.

Lemma header_md5_printed_app (t1 t2 : list Event) :
  header_md5_printed (t1 ++ t2) = header_md5_printed t1 ++ header_md5_printed t2.
Proof.
  induction t1 as [|e t1 IH]; [done|].
  destruct e as [| | | | | | | | | | | | |d]; cbn; try done.
  destruct d; cbn; by rewrite ?IH.
Qed.

Lemma file_md5_printed_app (t1 t2 : list Event) :
  file_md5_printed (t1 ++ t2) = file_md5_printed t1 ++ file_md5_printed t2.
Proof.
  induction t1 as [|e t1 IH]; [done|].
  destruct e as [| | | | | | | | | | | | |d]; cbn; try done.
  destruct d; cbn; by rewrite ?IH.
Qed.

Lemma detection_events_app (t1 t2 : list Event) :
  detection_events (t1 ++ t2) = detection_events t1 ++ detection_events t2.
Proof.
  induction t1 as [|e t1 IH]; [done|]. cbn.
  destruct (is_detection_event e); cbn; by rewrite IH.
Qed.

Create Rewrite HintDb proj.
#[export] Hint Rewrite status_writes_app tx_data_app read_sizes_app notices_app
  header_md5_printed_app file_md5_printed_app detection_events_app : proj.

(** Splits a projection of a trace along [++] and evaluates it on the
    explicit parts. *)
Ltac proj_simpl :=
  repeat (autorewrite with proj;
          cbn [status_writes tx_data read_sizes notices header_md5_printed
                 file_md5_printed detection_events is_detection_event app]).

(* ===================================================================== *)
(** * The detection functions *)
(* ===================================================================== *)

Lemma quiet_bind {A B : Type} (m : M A) (k : A -> M B) (st : gmap string Z) :
  quiet (m st) st -> (forall a, quiet (k a st) st) -> quiet (bind m k st) st.
Proof.
  intros (Hs & Hd & Hw) Hk. unfold quiet. run_simpl. rewrite Hs.
  destruct (Hk (result (m st))) as (Hs' & Hd' & Hw').
  repeat split; [done|by apply detection_only_app|].
  by rewrite status_writes_app, Hw, Hw'.
Qed.

Lemma apply_tag_quiet (p : Settings) (tag : string) (st : gmap string Z) :
  quiet (apply_tag p tag st) st.
Proof.
  unfold apply_tag. apply quiet_bind.
  - repeat split. by repeat constructor.
  - intros _. destruct (switch_fnv _ _).
    + repeat split. constructor.
    + repeat split. by repeat constructor.
Qed.

Lemma apply_tags_quiet (tags : list string) (p : Settings) (st : gmap string Z) :
  quiet (apply_tags p tags st) st.
Proof.
  revert p. induction tags as [|tag rest IH]; intros p; cbn [apply_tags].
  - repeat split. constructor.
  - apply quiet_bind; [apply apply_tag_quiet|]. intros p'. apply IH.
Qed.

(** Publishing settings: the seven writes when auto-detect is on, none
    when it is off. *)
Lemma commit_db_settings_run (p : Settings) (st : gmap string Z) :
  detection_only (trace (commit_db_settings p st))
  /\ status_writes (trace (commit_db_settings p st))
     = (if auto_detect_on st then settings_writes p else [])
  /\ (auto_detect_on st = false -> final_status (commit_db_settings p st) = st).
Proof.
  unfold commit_db_settings, auto_detect_on. run_simpl.
  destruct (AutoDetect.is_on _); run_simpl.
  - repeat split; [by repeat constructor|discriminate].
  - repeat split; by repeat constructor.
Qed.

Lemma scan_db_lines_run (lookup_hash : string) (lines : list string)
  (st : gmap string Z) :
  detection_only (trace (scan_db_lines lookup_hash lines st))
  /\ (result (scan_db_lines lookup_hash lines st) = false ->
      quiet (scan_db_lines lookup_hash lines st) st).
Proof.
  induction lines as [|line rest [IHd IHq]]; cbn [scan_db_lines].
  - repeat split. constructor. constructor.
  - destruct (negb _); [done|]. destruct (sscanf_tags line) as [tags|].
    + run_simpl. destruct (apply_tags_quiet (strtok_all "|" tags) db_defaults st)
        as (Hs & Hd & Hw).
      rewrite Hs. split; [|discriminate].
      constructor; [done|]. apply detection_only_app; [done|].
      rewrite app_nil_r. apply commit_db_settings_run.
    + split.
      * run_simpl. by constructor.
      * run_simpl. intros Hr. apply quiet_bind; [|by intros _; apply IHq].
        repeat split. by repeat constructor.
Qed.

Lemma detect_rom_settings_in_db_run (env : Env) (lookup_hash name : string)
  (st : gmap string Z) :
  detection_only (trace (detect_rom_settings_in_db env lookup_hash name st))
  /\ (result (detect_rom_settings_in_db env lookup_hash name st) = false ->
      quiet (detect_rom_settings_in_db env lookup_hash name st) st).
Proof.
  unfold detect_rom_settings_in_db.
  destruct (db_files env name) as [lines|].
  - destruct (scan_db_lines_run lookup_hash lines st) as [Hd Hq]. split.
    + run_simpl. by constructor.
    + run_simpl. intros Hr. apply quiet_bind; [|by intros _; apply Hq].
      repeat split. by repeat constructor.
  - split.
    + run_simpl. by repeat constructor.
    + intros _. repeat split. by repeat constructor.
Qed.

Lemma detect_rom_settings_in_db_list_run (env : Env) (lookup_hash : string)
  (names : list string) (st : gmap string Z) :
  detection_only (trace (detect_rom_settings_in_db_list env lookup_hash names st))
  /\ (result (detect_rom_settings_in_db_list env lookup_hash names st) = false ->
      quiet (detect_rom_settings_in_db_list env lookup_hash names st) st).
Proof.
  induction names as [|name rest [IHd IHq]]; cbn [detect_rom_settings_in_db_list].
  - repeat split; constructor.
  - destruct (detect_rom_settings_in_db_run env lookup_hash name st) as [Hd Hq].
    run_simpl.
    destruct (result (detect_rom_settings_in_db env lookup_hash name st)) eqn:Hr.
    + run_simpl. rewrite app_nil_r. split; [done|discriminate].
    + destruct (Hq eq_refl) as (Hs & _ & Hw). rewrite Hs. split.
      * by apply detection_only_app.
      * intros Hr'. apply quiet_bind; [by apply Hq|].
        intros [|]; [repeat split; constructor|by apply IHq].
Qed.

(** A database lookup emits detection events only, and one that misses
    changes no status field. *)
Lemma detect_rom_settings_in_dbs_run (env : Env) (lookup_hash : string)
  (st : gmap string Z) :
  detection_only (trace (detect_rom_settings_in_dbs env lookup_hash st))
  /\ (result (detect_rom_settings_in_dbs env lookup_hash st) = false ->
      quiet (detect_rom_settings_in_dbs env lookup_hash st) st).
Proof. apply detect_rom_settings_in_db_list_run. Qed.

(** The heuristic with auto-detect off: the status is read, nothing is
    written, and the function returns 0. *)
Lemma detect_from_first_chunk_off (id : string) (region_code : ascii)
  (revision crc : Z) (st : gmap string Z) :
  auto_detect_on st = false ->
  detect_rom_settings_from_first_chunk id region_code revision crc st
  = ((0, st), [EvStatusGet "[64]"; EvPrintf DiagAutoDetectOff]).
Proof.
  unfold auto_detect_on, detect_rom_settings_from_first_chunk. intros Hoff.
  rewrite (run_eta (bind _ _ _)). run_simpl. rewrite Hoff. by run_simpl.
Qed.

(** The heuristic with auto-detect on and a checksum outside the table:
    [return 1] before any write and before [id] is looked at. *)
Lemma detect_from_first_chunk_unknown_cic (id : string) (region_code : ascii)
  (revision crc : Z) (st : gmap string Z) :
  auto_detect_on st = true ->
  cic_switch crc (region_system_type region_code) = None ->
  detect_rom_settings_from_first_chunk id region_code revision crc st
  = ((1, st), [EvStatusGet "[64]"]).
Proof.
  unfold auto_detect_on, detect_rom_settings_from_first_chunk. intros Hon Hc.
  rewrite (run_eta (bind _ _ _)). run_simpl. rewrite Hon, Hc. by run_simpl.
Qed.

(** The heuristic with auto-detect on and a checksum of the table: the
    system type and the CIC are written first; the identifier then
    decides the return value and the five remaining writes. *)
Lemma detect_from_first_chunk_known_cic (id : string) (region_code : ascii)
  (revision crc : Z) (st : gmap string Z) (c : CIC.t) (sys : SystemType.t) :
  auto_detect_on st = true ->
  cic_switch crc (region_system_type region_code) = Some (c, sys) ->
  let r := detect_rom_settings_from_first_chunk id region_code revision crc st in
  match switch_fnv cart_cases (fnv_hash id) with
  | None =>
      result r = 2
      /\ status_writes (trace r) = cic_writes sys c
  | Some body =>
      result r = 0
      /\ status_writes (trace r)
         = cic_writes sys c
           ++ pak_writes
                (assign_all (chunk_defaults sys c) (body region_code revision))
  end.
Proof.
  unfold auto_detect_on, detect_rom_settings_from_first_chunk. intros Hon Hc.
  cbn zeta. run_simpl. rewrite Hon, Hc. cbn [negb].
  destruct (switch_fnv cart_cases (fnv_hash id)); by run_simpl.
Qed.

Lemma detect_from_first_chunk_detection_only (id : string) (region_code : ascii)
  (revision crc : Z) (st : gmap string Z) :
  detection_only (trace (detect_rom_settings_from_first_chunk
                           id region_code revision crc st)).
Proof.
  unfold detect_rom_settings_from_first_chunk. run_simpl.
  destruct (negb _); run_simpl; [by repeat constructor|].
  destruct (cic_switch _ _) as [[c sys]|]; run_simpl; [|by repeat constructor].
  destruct (switch_fnv _ _); run_simpl; by repeat constructor.
Qed.

(* ===================================================================== *)
(** * The streaming loop *)
(* ===================================================================== *)

Lemma BUF_SIZE_val : Z.of_nat BUF_SIZE = 4096.
Proof. reflexivity. Qed.

Lemma BUF_SIZE_whole_groups (format : RomFormat.t) :
  (BUF_SIZE mod granularity format = 0)%nat.
Proof. by destruct format. Qed.

Lemma chunk_lengths_0 : chunk_lengths 0 = [].
Proof. reflexivity. Qed.

Lemma chunk_lengths_step (n : nat) :
  n <> 0%nat ->
  chunk_lengths n = next_chunk n :: chunk_lengths (n - next_chunk n).
Proof.
  intros Hn. pose proof BUF_SIZE_val as HB. unfold chunk_lengths, next_chunk.
  destruct (Nat.ltb_spec BUF_SIZE n) as [Hlt|Hge].
  - assert (n `div` BUF_SIZE = S ((n - BUF_SIZE) `div` BUF_SIZE))%nat as ->.
    { replace n with ((n - BUF_SIZE) + 1 * BUF_SIZE)%nat at 1 by lia.
      rewrite Nat.div_add by lia. lia. }
    assert (n `mod` BUF_SIZE = (n - BUF_SIZE) `mod` BUF_SIZE)%nat as ->.
    { replace n with ((n - BUF_SIZE) + 1 * BUF_SIZE)%nat at 1 by lia.
      by rewrite Nat.Div0.mod_add. }
    done.
  - rewrite Nat.sub_diag, Nat.Div0.div_0_l, Nat.Div0.mod_0_l. cbn [repeat app Nat.eqb].
    destruct (decide (n = BUF_SIZE)) as [->|Hne].
    + by rewrite Nat.div_same, Nat.Div0.mod_same by lia.
    + rewrite Nat.div_small, Nat.mod_small by lia. cbn [repeat app].
      by destruct (Nat.eqb_spec n 0).
Qed.

Lemma next_chunk_bounds (n : nat) :
  (next_chunk n <= BUF_SIZE)%nat /\ (next_chunk n <= n)%nat
  /\ (n <> 0 -> next_chunk n <> 0)%nat.
Proof.
  pose proof BUF_SIZE_val. unfold next_chunk.
  destruct (Nat.ltb_spec BUF_SIZE n); lia.
Qed.

(** ** The normaliser inside the static buffer *)

Lemma normalize_byte_swapped_in_buffer (data : list byte) (n m : nat) :
  (n <= m)%nat -> (m mod 2 = 0)%nat -> (m <= length data)%nat ->
  exists out, normalize_byte_swapped n data = Some out /\ length out = length data.
Proof.
  revert n m. induction data as [|x|x y data IH] using list_pair_ind;
    intros n m Hn Hm Hlen; cbn [length] in Hlen.
  - assert (n = 0%nat) as -> by lia. by exists [].
  - assert (m = 0%nat) as ->.
    { destruct m as [|[|m]]; [done|discriminate|lia]. }
    assert (n = 0%nat) as -> by lia. by exists [x].
  - destruct n as [|[|n]]; [by eexists|by eexists|].
    destruct m as [|[|m]]; [lia|lia|].
    destruct (IH n m) as (out & Ho & Hl); [lia| |lia|].
    { replace (S (S m)) with (m + 1 * 2)%nat in Hm by lia.
      by rewrite Nat.Div0.mod_add in Hm. }
    exists (y :: x :: out). cbn. rewrite Ho. cbn. by rewrite Hl.
Qed.

Lemma normalize_little_endian_in_buffer (data : list byte) (n m : nat) :
  (n <= m)%nat -> (m mod 4 = 0)%nat -> (m <= length data)%nat ->
  exists out, normalize_little_endian n data = Some out /\ length out = length data.
Proof.
  revert n m. induction data as [|x|x y|x y z|x y z w data IH] using list_quad_ind;
    intros n m Hn Hm Hlen; cbn [length] in Hlen.
  1-4: assert (m = 0%nat) as -> by
         (destruct m as [|[|[|[|m]]]]; [done|discriminate..|lia]);
       assert (n = 0%nat) as -> by lia; by eexists.
  destruct n as [|[|[|[|n]]]]; [by eexists..|].
  destruct m as [|[|[|[|m]]]]; [lia..|].
  destruct (IH n m) as (out & Ho & Hl); [lia| |lia|].
  { replace (S (S (S (S m)))) with (m + 1 * 4)%nat in Hm by lia.
    by rewrite Nat.Div0.mod_add in Hm. }
  exists (w :: z :: y :: x :: out). cbn. rewrite Ho. cbn. by rewrite Hl.
Qed.

(** [normalizeData(buf, chunk, rom_format)] with [chunk <= sizeof(buf)]
    stays inside the buffer, whatever the chunk length: the default of
    [normalize_buf] is never taken. *)
Lemma normalizeData_in_buffer (buf : list byte) (chunk : nat) (format : RomFormat.t) :
  (chunk <= BUF_SIZE)%nat -> (BUF_SIZE <= length buf)%nat ->
  exists out, normalizeData buf chunk format = Some out /\ length out = length buf.
Proof.
  intros Hc Hb. destruct format; cbn [normalizeData].
  - by exists buf.
  - by exists buf.
  - by apply (normalize_byte_swapped_in_buffer buf chunk BUF_SIZE).
  - by apply (normalize_little_endian_in_buffer buf chunk BUF_SIZE).
Qed.

Lemma normalize_buf_length (buf : list byte) (chunk : nat) (format : RomFormat.t) :
  (chunk <= BUF_SIZE)%nat -> (BUF_SIZE <= length buf)%nat ->
  length (normalize_buf buf chunk format) = length buf.
Proof.
  intros Hc Hb. unfold normalize_buf.
  destruct (normalizeData_in_buffer buf chunk format Hc Hb) as (out & -> & Hl).
  done.
Qed.

(** The first chunk fills the buffer: it is normalised as a chunk of its
    own, and what lies behind it is left alone. *)
Lemma normalize_buf_full (a b : list byte) (format : RomFormat.t) :
  length a = BUF_SIZE ->
  exists out, normalize_chunk format a = Some out /\ length out = BUF_SIZE
    /\ normalize_buf (a ++ b) BUF_SIZE format = out ++ b.
Proof.
  intros Ha.
  destruct (normalizeData_app format a b 0) as (out & Ho & Hl & Happ).
  { rewrite Ha. apply BUF_SIZE_whole_groups. }
  exists out. repeat split; [done|congruence|].
  unfold normalize_buf. rewrite Ha, Nat.add_0_r in Happ. rewrite Happ.
  by destruct format.
Qed.

Section Streaming.
Context {H : Hasher}.

Lemma rom_tx_loop_unfold (fuel : nat) (env : Env) (size : nat)
  (s : LoopState) :
  bytes2send s <> 0%nat ->
  rom_tx_loop (S fuel) env size s =
  (r <- loop_body env size s ;;
   match r with
   | None => ret None
   | Some s' => rom_tx_loop fuel env size s'
   end).
Proof.
  intros Hn. cbn [rom_tx_loop]. by destruct (Nat.eqb_spec (bytes2send s) 0).
Qed.

Lemma rom_tx_loop_done (fuel : nat) (env : Env) (size : nat)
  (s : LoopState) (st : gmap string Z) :
  bytes2send s = 0%nat ->
  rom_tx_loop fuel env size s st = ((Some s, st), []).
Proof. intros Hn. destruct fuel; cbn [rom_tx_loop]; [done|]. by rewrite Hn. Qed.

Lemma loop_body_later (env : Env) (size : nat) (s : LoopState)
  (st : gmap string Z) :
  is_first_chunk s = false ->
  loop_body env size s st
  = ((Some (later_state s), st), later_events size s).
Proof.
  intros Hf. unfold loop_body. rewrite Hf. cbn [andb].
  rewrite (run_eta (bind _ _ _)). by run_simpl.
Qed.

Lemma iteration_buf_length (s : LoopState) (format : RomFormat.t) :
  (BUF_SIZE <= length (buf s))%nat -> (bytes2send s <= length (unread s))%nat ->
  length (iteration_buf s format) = length (buf s).
Proof.
  intros Hb Hu. unfold iteration_buf. cbn zeta.
  destruct (next_chunk_bounds (bytes2send s)) as (Hc1 & Hc2 & _).
  rewrite normalize_buf_length; [|done|];
    rewrite length_app, length_take, length_drop; lia.
Qed.

(** The loop from a state past the first chunk: it runs to the end of the
    source, forwards one payload per chunk, feeds each payload to the
    hash context, and touches nothing else. *)
Lemma rom_tx_loop_later (fuel : nat) (env : Env) (size : nat)
  (s : LoopState) (st : gmap string Z) :
  is_first_chunk s = false ->
  (BUF_SIZE <= length (buf s))%nat ->
  (bytes2send s <= length (unread s))%nat ->
  (bytes2send s <= fuel)%nat ->
  let r := rom_tx_loop fuel env size s st in
  exists s',
    result r = Some s' /\ bytes2send s' = 0%nat
    /\ final_status r = st /\ stream_only (trace r)
    /\ read_sizes (trace r) = chunk_lengths (bytes2send s)
    /\ map length (tx_data (trace r)) = chunk_lengths (bytes2send s)
    /\ ctx s' = fold_left MD5Update (tx_data (trace r)) (ctx s)
    /\ rom_found_in_db s' = rom_found_in_db s
    /\ ipl3_crc s' = ipl3_crc s /\ cart_id s' = cart_id s
    /\ region_code s' = region_code s /\ revision s' = revision s.
Proof.
  revert s. induction fuel as [|fuel IH]; intros s Hf Hb Hu Hfuel r.
  - subst r. rewrite rom_tx_loop_done by lia.
    assert (bytes2send s = 0%nat) as Hz by lia. rewrite Hz.
    exists s. repeat split; (done || constructor).
  - destruct (decide (bytes2send s = 0%nat)) as [Hz|Hnz].
    { subst r. rewrite rom_tx_loop_done by done. rewrite Hz.
      exists s. repeat split; (done || constructor). }
    destruct (next_chunk_bounds (bytes2send s)) as (Hc1 & Hc2 & Hc3).
    specialize (Hc3 Hnz).
    pose proof (iteration_buf_length s (rom_format s) Hb Hu) as Hlen.
    destruct (IH (later_state s))
      as (s' & Hr & Hend & Hs & Hso & Hrs & Htx & Hctx & Hrest);
      cbn [later_state is_first_chunk buf bytes2send unread];
      [done|lia|rewrite length_drop; lia|lia|].
    cbn [later_state bytes2send ctx rom_found_in_db ipl3_crc cart_id region_code
           revision] in *.
    subst r. rewrite rom_tx_loop_unfold by done.
    run_simpl. rewrite loop_body_later by done. run_simpl.
    exists s'. rewrite (chunk_lengths_step (bytes2send s)) by done.
    split; [done|]. split; [done|]. split; [done|].
    split; [by repeat constructor|].
    unfold later_events. proj_simpl. cbn [map fold_left].
    rewrite Hrs, Htx, length_take. destruct Hrest as (? & ? & ? & ? & ?).
    repeat split; try done. f_equal. lia.
Qed.

End Streaming.

(* ===================================================================== *)
(** * The first iteration *)
(* ===================================================================== *)

Lemma detectRomFormat_app (a b : list byte) :
  (4 <= length a)%nat -> detectRomFormat (a ++ b) = detectRomFormat a.
Proof.
  destruct a as [|b0 [|b1 [|b2 [|b3 a]]]]; cbn [length]; try lia. done.
Qed.

Lemma ipl3_sum_app (n : nat) (l k : list byte) (acc : Z) :
  (4 * n <= length l)%nat -> ipl3_sum n (l ++ k) acc = ipl3_sum n l acc.
Proof.
  revert l acc. induction n as [|n IH]; intros l acc Hl; [done|].
  destruct l as [|b0 [|b1 [|b2 [|b3 l]]]]; cbn [length] in Hl; try lia.
  cbn [ipl3_sum app]. apply IH. lia.
Qed.

(** The header fields depend on the first [BUF_SIZE] bytes of the buffer
    only. *)
Lemma header_fields_app (chunk0 b : list byte) :
  length chunk0 = BUF_SIZE ->
  c_string (take 3 (drop 0x3b (chunk0 ++ b))) = header_cart_id chunk0
  /\ ascii_of_byte (nth 0x3e (chunk0 ++ b) x00) = header_region_code chunk0
  /\ byte_val (nth 0x3f (chunk0 ++ b) x00) = header_revision chunk0
  /\ forall acc, ipl3_checksum (chunk0 ++ b) acc = ipl3_checksum chunk0 acc.
Proof.
  intros Hl. pose proof BUF_SIZE_val as HB.
  unfold header_cart_id, header_region_code, header_revision, ipl3_checksum.
  rewrite !drop_app_le by lia. rewrite take_app_le by (rewrite length_drop; lia).
  rewrite !app_nth1 by lia. repeat split. intros acc.
  apply ipl3_sum_app. rewrite length_drop.
  change (0x1000 / 4 - 0x40 / 4)%nat with 1008%nat. lia.
Qed.

Section FirstIteration.
Context {H : Hasher}.

(** The first iteration on a source of at least [BUF_SIZE] bytes. *)
Lemma loop_body_first (env : Env) (size : nat) (s : LoopState)
  (st : gmap string Z) :
  is_first_chunk s = true ->
  (BUF_SIZE <= bytes2send s)%nat ->
  (bytes2send s <= length (unread s))%nat ->
  let first := take BUF_SIZE (unread s) in
  let r := loop_body env size s st in
  exists chunk0,
    normalize_chunk (detectRomFormat first) first = Some chunk0
    /\ length chunk0 = BUF_SIZE
    /\ let by_header :=
         detect_rom_settings_in_dbs env (header_key (ctx s) chunk0) st in
       exists s',
       result r = Some s'
       /\ final_status r = final_status by_header
       /\ trace r = first_events env size s chunk0 st
       /\ is_first_chunk s' = false
       /\ bytes2send s' = (bytes2send s - BUF_SIZE)%nat
       /\ unread s' = drop BUF_SIZE (unread s)
       /\ (BUF_SIZE <= length (buf s'))%nat
       /\ ctx s' = MD5Update (ctx s) chunk0
       /\ rom_found_in_db s' = result by_header
       /\ rom_format s' = detectRomFormat first
       /\ (result by_header = false ->
           cart_id s' = header_cart_id chunk0
           /\ region_code s' = header_region_code chunk0
           /\ revision s' = header_revision chunk0
           /\ ipl3_crc s' = ipl3_checksum chunk0 (ipl3_crc s)).
Proof.
  intros Hf Hb Hu first r. pose proof BUF_SIZE_val as HB.
  assert (length first = BUF_SIZE) as Hfirst.
  { unfold first. rewrite length_take. lia. }
  destruct (normalize_buf_full first (drop BUF_SIZE (buf s))
              (detectRomFormat first) Hfirst) as (chunk0 & Hn & Hl & Hbuf).
  assert (next_chunk (bytes2send s) = BUF_SIZE) as Hchunk.
  { unfold next_chunk. destruct (Nat.ltb_spec BUF_SIZE (bytes2send s)); lia. }
  subst r. unfold loop_body. fold (next_chunk (bytes2send s)).
  rewrite Hchunk, Hf, Nat.ltb_irrefl. cbn [andb]. fold first.
  rewrite detectRomFormat_app by lia. rewrite Hbuf.
  rewrite take_app_length' by done.
  destruct (header_fields_app chunk0 (drop BUF_SIZE (buf s)) Hl)
    as (Hid & Hreg & Hrev & Hcrc).
  unfold first_chunk_detection.
  cbn [ctx buf bytes2send unread is_first_chunk rom_format ipl3_crc cart_id
         region_code revision rom_found_in_db].
  exists chunk0. split; [done|]. split; [done|]. cbn zeta.
  unfold first_events, header_key.
  destruct (MD5Final (MD5Update (ctx s) chunk0)) as [md5 ctx_header] eqn:Hfin.
  cbn [fst]. set (hdr := md5_to_hex md5).
  destruct (detect_rom_settings_in_dbs_run env hdr st) as [_ Hq].
  run_simpl.
  destruct (result (detect_rom_settings_in_dbs env hdr st)) eqn:Hres;
    eexists; cbn [negb]; run_simpl;
    cbn [ctx buf bytes2send unread is_first_chunk rom_format ipl3_crc cart_id
           region_code revision rom_found_in_db];
    rewrite take_app_length' by done.
  - split; [reflexivity|].
    cbn [ctx buf bytes2send unread is_first_chunk rom_format ipl3_crc cart_id
           region_code revision rom_found_in_db].
    repeat split; try done.
    + by rewrite <- !app_assoc.
    + rewrite length_app. lia.
  - destruct (Hq eq_refl) as (Hst & _). rewrite Hst.
    split; [reflexivity|].
    cbn [ctx buf bytes2send unread is_first_chunk rom_format ipl3_crc cart_id
           region_code revision rom_found_in_db].
    repeat split; try done.
    + by rewrite <- !app_assoc.
    + rewrite length_app. lia.
Qed.

End FirstIteration.

(* ===================================================================== *)
(** * Resolution after the stream, and the whole ingestion *)
(* ===================================================================== *)

Lemma status_writes_detection_events (tr : list Event) :
  status_writes (detection_events tr) = status_writes tr.
Proof.
  induction tr as [|e tr IH]; [done|].
  unfold detection_events, status_writes in *. cbn [List.filter].
  destruct e as [| | | | | | | | | | | | |d]; cbn; try done; try by rewrite IH.
  destruct d; cbn; done.
Qed.

Section Resolution.
Context {H : Hasher}.

(** The tail of [n64_rom_tx]: the file digest is printed once; the
    database is asked for it only when the header lookup missed, and the
    heuristic runs only when both lookups missed. *)
Lemma finish_rom_tx_run (env : Env) (name : string) (s : LoopState)
  (st : gmap string Z) :
  let fil := md5_to_hex (MD5Final (ctx s)).1 in
  let by_file := detect_rom_settings_in_dbs env fil st in
  let heur := detect_rom_settings_from_first_chunk
                (cart_id s) (region_code s) (revision s) (ipl3_crc s) st in
  let r := finish_rom_tx env name s st in
  result r = 1
  /\ file_md5_printed (trace r) = [fil]
  /\ header_md5_printed (trace r) = []
  /\ tx_data (trace r) = [] /\ read_sizes (trace r) = []
  /\ if rom_found_in_db s then
       detection_events (trace r) = [] /\ final_status r = st
       /\ notices (trace r) = []
     else if result by_file then
       detection_events (trace r) = trace by_file
       /\ final_status r = final_status by_file
       /\ notices (trace r) = []
     else
       detection_events (trace r) = trace by_file ++ trace heur
       /\ final_status r = final_status heur
       /\ notices (trace r) = notice_of (result heur).
Proof.
  intros fil by_file heur r. subst r. unfold finish_rom_tx.
  destruct (MD5Final (ctx s)) as [md5 c'] eqn:Hfin. cbn [fst] in fil.
  fold fil. destruct (rom_found_in_db s); cbn [negb].
  { run_simpl. by proj_simpl. }
  destruct (detect_rom_settings_in_dbs_run env fil st) as [Hd Hq].
  fold by_file in Hd, Hq.
  destruct (detection_only_projections _ Hd) as (Ft & Fr & Fn & Fh & Ff).
  pose proof (detection_only_filter _ Hd) as Fd.
  run_simpl. fold by_file. destruct (result by_file) eqn:Hres; cbn [negb]; run_simpl.
  { proj_simpl. rewrite Ft, Fr, Fn, Fh, Ff, Fd, ?app_nil_r. done. }
  destruct (Hq eq_refl) as (Hst & _). rewrite Hst. fold heur.
  pose proof (detect_from_first_chunk_detection_only
                (cart_id s) (region_code s) (revision s) (ipl3_crc s) st) as Hd'.
  fold heur in Hd'.
  destruct (detection_only_projections _ Hd') as (Ft' & Fr' & Fn' & Fh' & Ff').
  pose proof (detection_only_filter _ Hd') as Fd'.
  unfold notice_of.
  destruct (result heur =? 1); run_simpl;
    [|destruct (result heur =? 2); run_simpl];
    proj_simpl; rewrite Ft, Fr, Fn, Fh, Ff, Fd, Ft', Fr', Fn', Fh', Ff', Fd',
      ?app_nil_r; done.
Qed.

Lemma sub_whole_groups (g a b : nat) :
  (a mod g = 0)%nat -> (b mod g = 0)%nat -> ((a - b) mod g = 0)%nat.
Proof.
  intros Ha Hb. apply Nat.Div0.div_exact in Ha. apply Nat.Div0.div_exact in Hb.
  rewrite Ha, Hb, <- Nat.mul_sub_distr_l, Nat.mul_comm.
  apply Nat.Div0.mod_mul.
Qed.

(** The iterations after the first, on a rest of whole groups: the
    payloads, put together, are the rest of the source normalised in one
    call. *)
Lemma rom_tx_loop_later_payload (fuel : nat) (env : Env)
  (size : nat) (s : LoopState) (st : gmap string Z) :
  is_first_chunk s = false ->
  (BUF_SIZE <= length (buf s))%nat ->
  bytes2send s = length (unread s) ->
  (bytes2send s <= fuel)%nat ->
  (bytes2send s mod granularity (rom_format s) = 0)%nat ->
  exists out,
    normalize_chunk (rom_format s) (unread s) = Some out
    /\ concat (tx_data (trace (rom_tx_loop fuel env size s st))) = out.
Proof.
  revert s. induction fuel as [|fuel IH]; intros s Hf Hb Hu Hfuel Hmod.
  - rewrite rom_tx_loop_done by lia.
    assert (unread s = []) as -> by (apply length_zero_iff_nil; lia).
    exists []. split; [by destruct (rom_format s)|done].
  - destruct (decide (bytes2send s = 0%nat)) as [Hz|Hnz].
    { rewrite rom_tx_loop_done by done.
      assert (unread s = []) as -> by (apply length_zero_iff_nil; lia).
      exists []. split; [by destruct (rom_format s)|done]. }
    destruct (next_chunk_bounds (bytes2send s)) as (Hc1 & Hc2 & Hc3).
    specialize (Hc3 Hnz). set (chunk := next_chunk (bytes2send s)) in *.
    pose proof (BUF_SIZE_whole_groups (rom_format s)) as HBg.
    assert (chunk mod granularity (rom_format s) = 0)%nat as Hcg.
    { unfold chunk, next_chunk. by destruct (BUF_SIZE <? bytes2send s)%nat. }
    assert (length (take chunk (unread s)) = chunk) as Hlt
      by (rewrite length_take; lia).
    destruct (normalizeData_app (rom_format s) (take chunk (unread s))
                (drop chunk (buf s)) 0) as (out1 & Ho1 & Hl1 & Happ1);
      [by rewrite Hlt|].
    assert (take chunk (iteration_buf s (rom_format s)) = out1) as Hpay.
    { unfold iteration_buf. fold chunk. cbn zeta. unfold normalize_buf.
      rewrite Hlt, Nat.add_0_r in Happ1. rewrite Happ1.
      assert (normalizeData (drop chunk (buf s)) 0 (rom_format s)
              = Some (drop chunk (buf s))) as -> by (by destruct (rom_format s)).
      cbn [option_map default]. apply take_app_length'. congruence. }
    pose proof (iteration_buf_length s (rom_format s) Hb ltac:(lia)) as Hlen.
    destruct (IH (later_state s)) as (out2 & Ho2 & Hcat2);
      cbn [later_state is_first_chunk buf bytes2send unread rom_format];
      fold chunk; [done|lia|rewrite length_drop; lia|lia| |].
    { by apply sub_whole_groups. }
    cbn [later_state rom_format unread] in Ho2. fold chunk in Ho2.
    destruct (normalizeData_app (rom_format s) (take chunk (unread s))
                (drop chunk (unread s)) (length (drop chunk (unread s))))
      as (out1' & Ho1' & _ & Happ); [by rewrite Hlt|].
    assert (out1' = out1) as -> by congruence.
    exists (out1 ++ out2). split.
    + unfold normalize_chunk in *. rewrite <- (take_drop chunk (unread s)) at 1 2.
      rewrite length_app, Happ, Ho2. done.
    + rewrite rom_tx_loop_unfold by done. run_simpl.
      rewrite loop_body_later by done. run_simpl.
      unfold later_events. fold chunk. proj_simpl. cbn [concat].
      by rewrite Hpay, Hcat2.
Qed.

(** The streaming loop on a source of at least [BUF_SIZE] bytes. *)
Lemma rom_tx_loop_first (fuel : nat) (env : Env) (size : nat)
  (s : LoopState) (st : gmap string Z) :
  is_first_chunk s = true ->
  (BUF_SIZE <= bytes2send s)%nat ->
  (bytes2send s <= length (unread s))%nat ->
  (bytes2send s <= fuel)%nat ->
  let first := take BUF_SIZE (unread s) in
  let r := rom_tx_loop fuel env size s st in
  exists chunk0,
    normalize_chunk (detectRomFormat first) first = Some chunk0
    /\ length chunk0 = BUF_SIZE
    /\ let by_header :=
         detect_rom_settings_in_dbs env (header_key (ctx s) chunk0) st in
       exists s' later,
       result r = Some s'
       /\ bytes2send s' = 0%nat
       /\ final_status r = final_status by_header
       /\ trace r = first_events env size s chunk0 st ++ later
       /\ stream_only later
       /\ read_sizes later = chunk_lengths (bytes2send s - BUF_SIZE)
       /\ map length (tx_data later) = chunk_lengths (bytes2send s - BUF_SIZE)
       /\ ctx s' = fold_left MD5Update (tx_data later) (MD5Update (ctx s) chunk0)
       /\ rom_found_in_db s' = result by_header
       /\ (bytes2send s = length (unread s) ->
           (bytes2send s mod granularity (detectRomFormat first) = 0)%nat ->
           exists out,
             normalize_chunk (detectRomFormat first) (drop BUF_SIZE (unread s))
             = Some out
             /\ concat (tx_data later) = out)
       /\ (result by_header = false ->
           cart_id s' = header_cart_id chunk0
           /\ region_code s' = header_region_code chunk0
           /\ revision s' = header_revision chunk0
           /\ ipl3_crc s' = ipl3_checksum chunk0 (ipl3_crc s)).
Proof.
  intros Hf Hb Hu Hfuel first r. pose proof BUF_SIZE_val as HB.
  destruct fuel as [|fuel]; [lia|].
  destruct (loop_body_first env size s st Hf Hb Hu)
    as (chunk0 & Hn & Hl & s1 & Hr & Hst & Htr & Hf1 & Hb1 & Hu1 & Hbuf1 & Hctx1
        & Hfound1 & Hfmt1 & Hhdr1).
  exists chunk0. split; [done|]. split; [done|]. cbn zeta.
  destruct (rom_tx_loop_later fuel env size s1
              (final_status (detect_rom_settings_in_dbs env
                               (header_key (ctx s) chunk0) st)))
    as (s' & Hr' & Hend & Hst' & Hso & Hrs & Htx & Hctx & Hfound & Hcrc & Hid
        & Hreg & Hrev);
    [done|done|rewrite Hu1, Hb1, length_drop; lia|lia|].
  exists s', (trace (rom_tx_loop fuel env size s1
                       (final_status (detect_rom_settings_in_dbs env
                                        (header_key (ctx s) chunk0) st)))).
  subst r. rewrite rom_tx_loop_unfold by lia. run_simpl.
  rewrite Hr, Hst, Htr. run_simpl. rewrite Hb1 in Hrs, Htx.
  rewrite Hctx1 in Hctx. do 9 (split; [done || congruence|]).
  split.
  - intros Hall Hmod.
    destruct (rom_tx_loop_later_payload fuel env size s1
                (final_status (detect_rom_settings_in_dbs env
                                 (header_key (ctx s) chunk0) st)))
      as (out & Hout & Hcat); [done|done|rewrite Hu1, Hb1, length_drop; lia|lia| |].
    { rewrite Hb1, Hfmt1.
      apply sub_whole_groups; [done|apply BUF_SIZE_whole_groups]. }
    exists out. rewrite Hfmt1, Hu1 in Hout. done.
  - intros Hmiss. destruct (Hhdr1 Hmiss) as (? & ? & ? & ?).
    repeat split; congruence.
Qed.

End Resolution.

Section Ingestion.
Context {H : Hasher}.

Lemma n64_rom_tx_unfold (env : Env) (buf0 : list byte) (name : string)
  (index : Z) (contents : list byte) (st : gmap string Z) :
  rom_files env name = Some contents ->
  let loop := rom_tx_loop (length contents) env (length contents)
                (initial_state contents buf0) st in
  n64_rom_tx env buf0 name index st =
  match result loop with
  | None => ((0, final_status loop), prologue name (length contents) index ++ trace loop)
  | Some s =>
      let fin := finish_rom_tx env name s (final_status loop) in
      ((result fin, final_status fin),
       prologue name (length contents) index ++ trace loop ++ trace fin)
  end.
Proof.
  intros Hfile. cbn zeta. unfold n64_rom_tx. rewrite Hfile.
  rewrite (run_eta (bind _ _ _)). run_simpl. fold (initial_state contents buf0).
  destruct (result (rom_tx_loop _ _ _ _ _)); run_simpl; [done|].
  by rewrite app_nil_r.
Qed.

(** An ingestion of a source of at least [BUF_SIZE] bytes: what it
    forwards, the digests it prints, and how it resolves the settings. *)
Lemma n64_rom_tx_accepted (env : Env) (buf0 : list byte) (name : string)
  (index : Z) (contents : list byte) (st : gmap string Z) :
  rom_files env name = Some contents ->
  (BUF_SIZE <= length contents)%nat ->
  let first := take BUF_SIZE contents in
  let run := n64_rom_tx env buf0 name index st in
  exists chunk0 later,
    normalize_chunk (detectRomFormat first) first = Some chunk0
    /\ length chunk0 = BUF_SIZE
    /\ tx_data (trace run) = chunk0 :: later
    /\ read_sizes (trace run) = chunk_lengths (length contents)
    /\ map length (tx_data (trace run)) = chunk_lengths (length contents)
    /\ header_md5_printed (trace run) = [header_md5 (trace run)]
    /\ file_md5_printed (trace run) = [file_md5 (trace run)]
    /\ result run = 1
    /\ let by_header := detect_rom_settings_in_dbs env (header_md5 (trace run)) st in
       let by_file := detect_rom_settings_in_dbs env (file_md5 (trace run)) st in
       let heur := detect_rom_settings_from_first_chunk
                     (header_cart_id chunk0) (header_region_code chunk0)
                     (header_revision chunk0) (header_crc chunk0) st in
       if result by_header then
         detection_events (trace run) = trace by_header
         /\ final_status run = final_status by_header
         /\ notices (trace run) = []
       else if result by_file then
         detection_events (trace run) = trace by_header ++ trace by_file
         /\ final_status run = final_status by_file
         /\ notices (trace run) = []
       else
         detection_events (trace run)
         = trace by_header ++ trace by_file ++ trace heur
         /\ final_status run = final_status heur
         /\ notices (trace run) = notice_of (result heur).
Proof.
  intros Hfile Hlen first run. pose proof BUF_SIZE_val as HB.
  subst run. rewrite (n64_rom_tx_unfold env buf0 name index contents st Hfile).
  cbn zeta.
  destruct (rom_tx_loop_first (length contents) env (length contents)
              (initial_state contents buf0) st)
    as (chunk0 & Hn & Hl & s' & later & Hr & _ & Hst & Htr & Hso & Hrs & Htxl
        & Hctx & Hfound & _ & Hhdr); cbn [initial_state is_first_chunk bytes2send unread];
    [done|done|done|done|].
  cbn [initial_state ctx bytes2send unread ipl3_crc] in *.
  set (hdr := header_key MD5Init chunk0) in *.
  set (by_header := detect_rom_settings_in_dbs env hdr st) in *.
  rewrite Hr, Hst, Htr.
  destruct (finish_rom_tx_run env name s' (final_status by_header))
    as (Fres & Ffil & Fhdr & Ftx & Frs & Fcase).
  set (fin := finish_rom_tx env name s' (final_status by_header)) in *.
  destruct (detect_rom_settings_in_dbs_run env hdr st) as [Hd Hq].
  fold by_header in Hd, Hq.
  destruct (detection_only_projections _ Hd) as (Ht & Hrd & Hno & Hh & Hf).
  pose proof (detection_only_filter _ Hd) as Hdet.
  destruct (stream_only_projections _ Hso) as (Sd & Sw & Sn & Sh & Sf).
  exists chunk0, (tx_data later). split; [done|]. split; [done|].
  assert (forall A (b : bool) (x : list A), (if b then [] else x) ++ [] = if b then [] else x)
    as Hif by (intros ? [] ?; by rewrite ?app_nil_r).
  assert (tx_data (trace ((result fin, final_status fin),
            prologue name (length contents) index
            ++ (first_events env (length contents)
                  (initial_state contents buf0) chunk0 st ++ later)
            ++ trace fin)) = chunk0 :: tx_data later) as Htx.
  { unfold first_events, prologue. cbn [trace snd initial_state ctx bytes2send].
    fold hdr by_header.
    proj_simpl. rewrite Ht, Ftx, app_nil_r.
    by destruct (result by_header). }
  rewrite Htx. unfold header_md5, file_md5. rewrite Htx.
  unfold stream_digest. rewrite firstn_cons, take_0. cbn [fold_left].
  fold (header_key MD5Init chunk0).
  fold hdr by_header. rewrite <- Hctx.
  cbn [trace result final_status fst snd].
  unfold first_events, prologue.
  cbn [initial_state ctx bytes2send unread ipl3_crc]. fold hdr by_header.
  split; [done|].
  split.
  { proj_simpl. rewrite Hrd, Hrs, Frs, app_nil_r.
    rewrite (chunk_lengths_step (length contents)) by lia.
    assert (next_chunk (length contents) = BUF_SIZE) as ->; [|by destruct (result by_header)].
    unfold next_chunk. destruct (Nat.ltb_spec BUF_SIZE (length contents)); lia. }
  split.
  { cbn [map]. rewrite Htxl, Hl.
    rewrite (chunk_lengths_step (length contents)) by lia.
    assert (next_chunk (length contents) = BUF_SIZE) as ->; [|done].
    unfold next_chunk. destruct (Nat.ltb_spec BUF_SIZE (length contents)); lia. }
  split.
  { proj_simpl. rewrite Hh, Sh, Fhdr. by destruct (result by_header). }
  split.
  { proj_simpl. rewrite Hf, Sf, Ffil. by destruct (result by_header). }
  split; [done|].
  rewrite Hfound in Fcase. destruct (result by_header) eqn:Hres.
  - destruct Fcase as (Fd & Fs & Fn). proj_simpl.
    rewrite Hdet, Sd, Fd, Hno, Sn, Fn, ?app_nil_r. done.
  - destruct (Hq eq_refl) as (Hs0 & _). rewrite Hs0 in *.
    destruct (Hhdr eq_refl) as (Hid & Hreg & Hrev & Hcrc).
    rewrite Hid, Hreg, Hrev, Hcrc in Fcase. change (ipl3_checksum chunk0 0) with (header_crc chunk0) in Fcase.
    destruct (result (detect_rom_settings_in_dbs env _ st));
      destruct Fcase as (Fd & Fs & Fn); proj_simpl;
      rewrite Hdet, Sd, Fd, Hno, Sn, Fn, ?app_nil_r; done.
Qed.

(** An accepted source of whole groups: the payloads forwarded, put
    together, are the source normalised in one call. *)
Lemma n64_rom_tx_payload (env : Env) (buf0 : list byte) (name : string)
  (index : Z) (contents : list byte) (st : gmap string Z) :
  rom_files env name = Some contents ->
  (BUF_SIZE <= length contents)%nat ->
  (length contents mod granularity (detectRomFormat contents) = 0)%nat ->
  exists out,
    normalize_chunk (detectRomFormat contents) contents = Some out
    /\ concat (tx_data (trace (n64_rom_tx env buf0 name index st))) = out.
Proof.
  intros Hfile Hlen Hmod. pose proof BUF_SIZE_val as HB.
  rewrite (n64_rom_tx_unfold env buf0 name index contents st Hfile). cbn zeta.
  destruct (rom_tx_loop_first (length contents) env (length contents)
              (initial_state contents buf0) st)
    as (chunk0 & Hn & Hl & s' & later & Hr & _ & Hst & Htr & Hso & _ & _ & _ & _
        & Hpay & _); cbn [initial_state is_first_chunk bytes2send unread];
    [done|done|done|done|].
  cbn [initial_state ctx bytes2send unread] in *.
  assert (detectRomFormat (take BUF_SIZE contents) = detectRomFormat contents)
    as Hfmt.
  { rewrite <- (take_drop BUF_SIZE contents) at 2.
    rewrite detectRomFormat_app; [done|]. rewrite length_take. lia. }
  rewrite Hfmt in Hn, Hpay.
  destruct (Hpay eq_refl Hmod) as (rest & Hrest & Hcat).
  rewrite Hr, Hst, Htr.
  destruct (finish_rom_tx_run env name s'
              (final_status (detect_rom_settings_in_dbs env
                               (header_key MD5Init chunk0) st)))
    as (_ & _ & _ & Ftx & _).
  destruct (detect_rom_settings_in_dbs_run env (header_key MD5Init chunk0) st)
    as [Hd _].
  destruct (detection_only_projections _ Hd) as (Ht & _).
  destruct (normalizeData_app (detectRomFormat contents) (take BUF_SIZE contents)
              (drop BUF_SIZE contents) (length (drop BUF_SIZE contents)))
    as (c0 & Hc0 & _ & Happ).
  { rewrite length_take, Nat.min_l by lia. apply BUF_SIZE_whole_groups. }
  assert (c0 = chunk0) as -> by congruence.
  exists (chunk0 ++ rest). split.
  - unfold normalize_chunk in *. rewrite <- (take_drop BUF_SIZE contents) at 1 2.
    rewrite length_app, Happ, Hrest. done.
  - cbn [trace snd]. unfold first_events, prologue.
    cbn [initial_state ctx bytes2send]. proj_simpl.
    rewrite Ht, Ftx, app_nil_r.
    destruct (result (detect_rom_settings_in_dbs env _ st));
      cbn [tx_data app concat]; by rewrite Hcat.
Qed.

(** An ingestion of a source of 1 to [BUF_SIZE - 1] bytes stops at the
    length check of the first iteration. *)
Lemma n64_rom_tx_short (env : Env) (buf0 : list byte) (name : string)
  (index : Z) (contents : list byte) (st : gmap string Z) :
  rom_files env name = Some contents ->
  (0 < length contents < BUF_SIZE)%nat ->
  n64_rom_tx env buf0 name index st =
  ((0, st),
   prologue name (length contents) index
   ++ [EvFileReadAdv (length contents); EvPrintf DiagTooShort]).
Proof.
  intros Hfile [Hpos Hlt].
  rewrite (n64_rom_tx_unfold env buf0 name index contents st Hfile). cbn zeta.
  destruct (length contents) as [|fuel] eqn:Hlen; [lia|].
  assert (rom_tx_loop (S fuel) env (S fuel) (initial_state contents buf0) st
          = ((None, st), [EvFileReadAdv (S fuel); EvPrintf DiagTooShort])) as ->.
  { rewrite rom_tx_loop_unfold by (cbn; lia).
    rewrite (run_eta (bind _ _ _)). run_simpl. unfold loop_body.
    cbn [initial_state is_first_chunk bytes2send andb]. rewrite Hlen.
    destruct (Nat.ltb_spec BUF_SIZE (S fuel)) as [|_]; [lia|].
    destruct (Nat.ltb_spec (S fuel) BUF_SIZE) as [_|]; [|lia].
    by run_simpl. }
  done.
Qed.

End Ingestion.

(* ===================================================================== *)
(** * The heuristic resolver *)
(* ===================================================================== *)

(** C4 (as amended). The heuristic resolver is a function of its four
    arguments and of the auto-detect flag it reads from the status
    register: two invocations with the same arguments, from status
    registers that agree on the flag, return the same code and make the
    same calls with the same values, whatever else the registers hold. *)
Theorem heuristic_determined_by_inputs_and_flag
  (id : string) (region_code : ascii) (revision crc : Z)
  (st1 st2 : gmap string Z) :
  auto_detect_on st1 = auto_detect_on st2 ->
  let r1 := detect_rom_settings_from_first_chunk id region_code revision crc st1 in
  let r2 := detect_rom_settings_from_first_chunk id region_code revision crc st2 in
  result r1 = result r2
  /\ trace r1 = trace r2
  /\ status_writes (trace r1) = status_writes (trace r2).
Proof.
  unfold auto_detect_on. intros Hflag. cbn zeta.
  assert (trace (detect_rom_settings_from_first_chunk id region_code revision crc st1)
          = trace (detect_rom_settings_from_first_chunk id region_code revision crc st2))
    as Htr.
  { unfold detect_rom_settings_from_first_chunk. run_simpl. rewrite Hflag.
    destruct (negb _); run_simpl; [done|].
    destruct (cic_switch _ _) as [[c sys]|]; run_simpl; [|done].
    destruct (switch_fnv _ _); by run_simpl. }
  split; [|by rewrite Htr].
  unfold detect_rom_settings_from_first_chunk. run_simpl. rewrite Hflag.
  destruct (negb _); run_simpl; [done|].
  destruct (cic_switch _ _) as [[c sys]|]; run_simpl; [|done].
  destruct (switch_fnv _ _); by run_simpl.
Qed.

(** C5 (as amended). With auto-detect on, cartridge identifier NZL, region
    code E and the checksum of the 6105/7105 entry, the resolver returns 0
    and publishes NTSC, CIC 6105, 32 KiB SRAM and the rumble pak, for
    every revision: E is not one of the PAL region codes.  With a PAL
    region code such as P the same entry gives PAL and CIC 7105. *)
Theorem heuristic_NZL_6105_7105 (revision : Z) (st : gmap string Z) :
  auto_detect_on st = true ->
  let crc := 0x000000f8b860ed00 in
  let ntsc := detect_rom_settings_from_first_chunk "NZL" "E" revision crc st in
  let pal := detect_rom_settings_from_first_chunk "NZL" "P" revision crc st in
  result ntsc = 0
  /\ status_writes (trace ntsc)
     = settings_writes
         (mkSettings MemoryType.SRAM_32k SystemType.NTSC CIC.CIC_NUS_6105
            false true false false)
  /\ result pal = 0
  /\ status_writes (trace pal)
     = settings_writes
         (mkSettings MemoryType.SRAM_32k SystemType.PAL CIC.CIC_NUS_7105
            false true false false).
Proof.
  intros Hon. cbn zeta.
  assert (forall region_code c sys,
            cic_switch 0x000000f8b860ed00 (region_system_type region_code)
            = Some (c, sys) ->
            let r := detect_rom_settings_from_first_chunk
                       "NZL" region_code revision 0x000000f8b860ed00 st in
            result r = 0
            /\ status_writes (trace r)
               = cic_writes sys c
                 ++ pak_writes
                      (assign_all (chunk_defaults sys c)
                         [SetSaveType MemoryType.SRAM_32k; SetRpak])) as Hrun.
  { intros region_code c sys Hc.
    pose proof (detect_from_first_chunk_known_cic "NZL" region_code revision
                  0x000000f8b860ed00 st c sys Hon Hc) as Hk.
    assert (switch_fnv cart_cases (fnv_hash "NZL")
            = Some (plain [SetSaveType MemoryType.SRAM_32k; SetRpak])) as Hcase
      by (vm_compute; reflexivity).
    rewrite Hcase in Hk. exact Hk. }
  destruct (Hrun "E"%char CIC.CIC_NUS_6105 SystemType.NTSC) as [-> ->];
    [vm_compute; reflexivity|].
  destruct (Hrun "P"%char CIC.CIC_NUS_7105 SystemType.PAL) as [-> ->];
    [vm_compute; reflexivity|].
  clear Hrun. repeat split.
Qed.

(** C10. The checksum 0x000000a405397b05 gives CIC 7102 and PAL, and the
    checksum 0x000000a0f26f62fe gives CIC 6101 and NTSC, whatever system
    type the region code selected; when the resolver reaches the table
    (auto-detect on), the first two status writes carry the forced system
    type and that CIC, for every identifier, region code and revision. *)
Theorem heuristic_forced_system_type :
  (forall sys, cic_switch 0x000000a405397b05 sys
               = Some (CIC.CIC_NUS_7102, SystemType.PAL))
  /\ (forall sys, cic_switch 0x000000a0f26f62fe sys
                  = Some (CIC.CIC_NUS_6101, SystemType.NTSC))
  /\ forall (id : string) (region_code : ascii) (revision : Z)
       (st : gmap string Z),
       auto_detect_on st = true ->
       take 2 (status_writes
                 (trace (detect_rom_settings_from_first_chunk
                           id region_code revision 0x000000a405397b05 st)))
       = cic_writes SystemType.PAL CIC.CIC_NUS_7102
       /\ take 2 (status_writes
                    (trace (detect_rom_settings_from_first_chunk
                              id region_code revision 0x000000a0f26f62fe st)))
          = cic_writes SystemType.NTSC CIC.CIC_NUS_6101.
Proof.
  split; [by intros []|]. split; [by intros []|].
  intros id region_code revision st Hon.
  pose proof (detect_from_first_chunk_known_cic id region_code revision
                0x000000a405397b05 st CIC.CIC_NUS_7102 SystemType.PAL Hon) as Hpal.
  pose proof (detect_from_first_chunk_known_cic id region_code revision
                0x000000a0f26f62fe st CIC.CIC_NUS_6101 SystemType.NTSC Hon) as Hntsc.
  cbn zeta in Hpal, Hntsc.
  destruct (switch_fnv cart_cases (fnv_hash id)).
  - destruct Hpal as [_ ->]; [by destruct (region_system_type region_code)|].
    destruct Hntsc as [_ ->]; [by destruct (region_system_type region_code)|].
    done.
  - destruct Hpal as [_ ->]; [by destruct (region_system_type region_code)|].
    destruct Hntsc as [_ ->]; [by destruct (region_system_type region_code)|].
    done.
Qed.

(* ===================================================================== *)
(** * The tag switch of the database reader *)
(* ===================================================================== *)

(** X3. A tag whose lower-case form is one of the lower-case labels has
    the effect of that label, in any letter case, and no diagnostic other
    than the echo of the tag. *)
Lemma apply_tag_recognised (p : Settings) (tag label : string) (a : Assign)
  (st : gmap string Z) :
  In (label, a) tag_cases -> label <> "cicDDUS" ->
  normalizeString tag = label ->
  apply_tag p tag st = ((assign p a, st), [EvPrintf (DiagTag tag)]).
Proof.
  intros Hin Hne Hnorm. unfold apply_tag.
  rewrite (run_eta (bind _ _ _)). run_simpl. rewrite Hnorm.
  cbn [tag_cases In] in Hin.
  repeat (destruct Hin as [Heq|Hin];
          [injection Heq as <- <-; try (by vm_compute); by destruct Hne|]).
  destruct Hin.
Qed.

(** X4. No letter-case variant of the DDUS token reaches its label: the
    tag is lower-cased before the switch, the label is not. *)
Lemma apply_tag_ddus_unreachable (p : Settings) (tag : string) (st : gmap string Z) :
  normalizeString tag = "cicddus" ->
  apply_tag p tag st
  = ((p, st), [EvPrintf (DiagTag tag); EvPrintf (DiagUnknownTag "cicddus")]).
Proof.
  intros Hnorm. unfold apply_tag.
  rewrite (run_eta (bind _ _ _)). run_simpl. rewrite Hnorm. by vm_compute.
Qed.

(* ===================================================================== *)
(** * The ingestion pipeline *)
(* ===================================================================== *)

Lemma chunk_lengths_multiple_of_4 (size : nat) :
  (size mod 4 = 0)%nat ->
  Forall (fun chunk => (chunk mod 4 = 0)%nat) (chunk_lengths size).
Proof.
  intros Hsize. unfold chunk_lengths. apply Forall_app. split.
  - apply List.Forall_forall. intros chunk Hin. apply repeat_spec in Hin. by subst.
  - destruct (size mod BUF_SIZE =? 0)%nat; constructor; [|constructor].
    change BUF_SIZE with (4 * 1024)%nat.
    rewrite Nat.Div0.mod_mul_r, Hsize, Nat.add_0_l, Nat.mul_comm.
    apply Nat.Div0.mod_mul.
Qed.

Lemma list_sum_repeat (x n : nat) : list_sum (repeat x n) = (n * x)%nat.
Proof.
  induction n as [|n IH]; [done|]. cbn [repeat].
  change (list_sum (x :: repeat x n)) with (x + list_sum (repeat x n))%nat.
  rewrite IH. lia.
Qed.

Lemma chunk_lengths_sum (size : nat) : list_sum (chunk_lengths size) = size.
Proof.
  unfold chunk_lengths. rewrite list_sum_app, list_sum_repeat.
  pose proof (Nat.div_mod_eq size BUF_SIZE) as Hdiv.
  destruct (Nat.eqb_spec (size mod BUF_SIZE) 0) as [Hz|_];
    cbn [list_sum fold_right]; lia.
Qed.

(** X5. Whatever the chunk length, [normalizeData(buf, chunk, format)] on
    the static buffer with [chunk <= sizeof(buf)] touches no byte outside
    the buffer, and leaves a buffer of the same size. *)
Theorem normalizer_stays_inside_buffer (buf : list byte) (chunk : nat)
  (format : RomFormat.t) :
  (chunk <= BUF_SIZE)%nat -> length buf = BUF_SIZE ->
  exists out, normalizeData buf chunk format = Some out
              /\ length out = BUF_SIZE.
Proof.
  intros Hc Hb.
  destruct (normalizeData_in_buffer buf chunk format Hc) as (out & Ho & Hl);
    [lia|].
  exists out. split; [done|congruence].
Qed.

Section Claims.
Context {H : Hasher}.

(** X1. For every accepted source whose size is a multiple of the
    granularity of its detected format, the payloads forwarded to the
    byte sink, put together, are the source normalised in one call: the
    chunked transfer neither drops nor reorders a group. *)
Theorem forwarded_bytes_are_the_normalized_source (env : Env) (buf0 : list byte)
  (name : string) (index : Z) (contents : list byte) (st : gmap string Z) :
  rom_files env name = Some contents ->
  (BUF_SIZE <= length contents)%nat ->
  (length contents mod granularity (detectRomFormat contents) = 0)%nat ->
  let run := n64_rom_tx env buf0 name index st in
  exists out,
    normalize_chunk (detectRomFormat contents) contents = Some out
    /\ concat (tx_data (trace run)) = out.
Proof. intros Hfile Hlen Hmod run. by apply n64_rom_tx_payload. Qed.

(** X2. The loop of an accepted source ends with every byte read: the chunk
    lengths, and the lengths of the payloads forwarded, add up to the
    size of the source. *)
Theorem accepted_source_is_read_to_the_end (env : Env) (buf0 : list byte)
  (name : string) (index : Z) (contents : list byte) (st : gmap string Z) :
  rom_files env name = Some contents ->
  (BUF_SIZE <= length contents)%nat ->
  let run := n64_rom_tx env buf0 name index st in
  result run = 1
  /\ list_sum (read_sizes (trace run)) = length contents
  /\ length (concat (tx_data (trace run))) = length contents.
Proof.
  intros Hfile Hlen run.
  destruct (n64_rom_tx_accepted env buf0 name index contents st Hfile Hlen)
    as (c0 & later & _ & _ & _ & Hrs & Hml & _ & _ & Hres & _).
  fold run in Hrs, Hml, Hres.
  rewrite length_concat, Hml, Hrs, chunk_lengths_sum. done.
Qed.

(** X31. For every ingestion of a source of at least 4096 bytes the
    three resolution paths are tried in priority order and the first
    success ends the resolution.  The detection events of the run are
    those of the lookup by header digest alone when that lookup hits;
    those of the header lookup and of the lookup by file digest when the
    first misses and the second hits; and only when both miss, those of
    the two lookups and of the heuristic.  The status writes of the run,
    and the status register it leaves, are exactly those of the path that
    succeeded: a header match is never followed by a write of the
    file-digest lookup or of the heuristic, and a file-digest match never
    by a write of the heuristic. *)
Theorem resolution_in_priority_order (env : Env) (buf0 : list byte)
  (name : string) (index : Z) (contents : list byte) (st : gmap string Z) :
  rom_files env name = Some contents ->
  (BUF_SIZE <= length contents)%nat ->
  let run := n64_rom_tx env buf0 name index st in
  let chunk0 := hd [] (tx_data (trace run)) in
  let by_header := detect_rom_settings_in_dbs env (header_md5 (trace run)) st in
  let by_file := detect_rom_settings_in_dbs env (file_md5 (trace run)) st in
  let heuristic := detect_rom_settings_from_first_chunk
                     (header_cart_id chunk0) (header_region_code chunk0)
                     (header_revision chunk0) (header_crc chunk0) st in
  (result by_header = true ->
     detection_events (trace run) = trace by_header
     /\ status_writes (trace run) = status_writes (trace by_header)
     /\ final_status run = final_status by_header)
  /\ (result by_header = false -> result by_file = true ->
        detection_events (trace run) = trace by_header ++ trace by_file
        /\ status_writes (trace by_header) = []
        /\ status_writes (trace run) = status_writes (trace by_file)
        /\ final_status run = final_status by_file)
  /\ (result by_header = false -> result by_file = false ->
        detection_events (trace run)
        = trace by_header ++ trace by_file ++ trace heuristic
        /\ status_writes (trace by_header) = []
        /\ status_writes (trace by_file) = []
        /\ status_writes (trace run) = status_writes (trace heuristic)
        /\ final_status run = final_status heuristic).
Proof.
  intros Hfile Hlen run chunk0 by_header by_file heuristic.
  destruct (n64_rom_tx_accepted env buf0 name index contents st Hfile Hlen)
    as (c0 & later & _ & _ & Htx & _ & _ & _ & _ & _ & Hcase).
  fold run in Htx, Hcase. cbn zeta in Hcase.
  assert (chunk0 = c0) as <- by (unfold chunk0; by rewrite Htx).
  fold by_header by_file heuristic in Hcase.
  destruct (detect_rom_settings_in_dbs_run env (header_md5 (trace run)) st)
    as [_ Hq1].
  destruct (detect_rom_settings_in_dbs_run env (file_md5 (trace run)) st)
    as [_ Hq2].
  fold by_header in Hq1. fold by_file in Hq2.
  rewrite <- (status_writes_detection_events (trace run)).
  destruct (result by_header).
  - destruct Hcase as (-> & -> & _). by repeat split.
  - destruct (Hq1 eq_refl) as (_ & _ & Hw1). destruct (result by_file).
    + destruct Hcase as (-> & -> & _).
      rewrite status_writes_app, Hw1. by repeat split.
    + destruct (Hq2 eq_refl) as (_ & _ & Hw2). destruct Hcase as (-> & -> & _).
      rewrite !status_writes_app, Hw1, Hw2. by repeat split.
Qed.

(** C2. For every accepted source, the digest taken after the first
    chunk, from a copy of the context, is the digest of the first
    forwarded chunk alone; and the digest the original context gives at
    the end of the stream is that of [MD5Init], one [MD5Update] per
    forwarded chunk and [MD5Final], with no copy ever taken
    ([stream_digest]).  Each is printed once. *)
Theorem snapshot_leaves_stream_digest (env : Env) (buf0 : list byte)
  (name : string) (index : Z) (contents : list byte) (st : gmap string Z) :
  rom_files env name = Some contents ->
  (BUF_SIZE <= length contents)%nat ->
  let run := n64_rom_tx env buf0 name index st in
  let chunks := tx_data (trace run) in
  exists chunk0 later,
    chunks = chunk0 :: later
    /\ header_md5_printed (trace run) = [md5_to_hex (stream_digest [chunk0])]
    /\ file_md5_printed (trace run) = [md5_to_hex (stream_digest chunks)].
Proof.
  intros Hfile Hlen run chunks.
  destruct (n64_rom_tx_accepted env buf0 name index contents st Hfile Hlen)
    as (c0 & later & _ & _ & Htx & _ & _ & Hh & Hf & _).
  fold run in Htx, Hh, Hf. exists c0, later. split; [done|].
  unfold header_md5, file_md5 in *. rewrite Htx in Hh.
  rewrite firstn_cons, take_0 in Hh. done.
Qed.

(** C3 (as amended). For every ingestion of an accepted source with
    auto-detect on, in which both database lookups miss and the checksum
    of the first chunk is outside the CIC table: the heuristic returns 1
    whatever the cartridge identifier and the revision are, after reading
    the auto-detect flag and nothing else; the run writes no status
    field; and the one notice shown is the unknown-CIC notice. *)
Theorem unknown_cic_when_auto_detect_on (env : Env) (buf0 : list byte)
  (name : string) (index : Z) (contents : list byte) (st : gmap string Z) :
  rom_files env name = Some contents ->
  (BUF_SIZE <= length contents)%nat ->
  auto_detect_on st = true ->
  let run := n64_rom_tx env buf0 name index st in
  let chunk0 := hd [] (tx_data (trace run)) in
  result (detect_rom_settings_in_dbs env (header_md5 (trace run)) st) = false ->
  result (detect_rom_settings_in_dbs env (file_md5 (trace run)) st) = false ->
  cic_switch (header_crc chunk0) (region_system_type (header_region_code chunk0))
  = None ->
  (forall id revision,
     detect_rom_settings_from_first_chunk
       id (header_region_code chunk0) revision (header_crc chunk0) st
     = ((1, st), [EvStatusGet "[64]"]))
  /\ status_writes (trace run) = []
  /\ final_status run = st
  /\ notices (trace run) = [NoticeUnknownCIC].
Proof.
  intros Hfile Hlen Hon run chunk0 Hmiss1 Hmiss2 Hcic.
  destruct (n64_rom_tx_accepted env buf0 name index contents st Hfile Hlen)
    as (c0 & later & _ & _ & Htx & _ & _ & _ & _ & _ & Hcase).
  fold run in Htx, Hcase. cbn zeta in Hcase.
  assert (chunk0 = c0) as <- by (unfold chunk0; by rewrite Htx).
  rewrite Hmiss1, Hmiss2 in Hcase.
  pose proof (fun id revision =>
                detect_from_first_chunk_unknown_cic id (header_region_code chunk0)
                  revision (header_crc chunk0) st Hon Hcic) as Hheur.
  rewrite Hheur in Hcase. destruct Hcase as (Hd & Hs & Hn).
  split; [done|].
  destruct (detect_rom_settings_in_dbs_run env (header_md5 (trace run)) st)
    as [_ Hq1].
  destruct (detect_rom_settings_in_dbs_run env (file_md5 (trace run)) st)
    as [_ Hq2].
  destruct (Hq1 Hmiss1) as (_ & _ & Hw1). destruct (Hq2 Hmiss2) as (_ & _ & Hw2).
  rewrite <- (status_writes_detection_events (trace run)), Hd.
  rewrite !status_writes_app, Hw1, Hw2. done.
Qed.

(** C7. What [n64_rom_tx] does with a source of 1 to 4095 bytes.  It
    returns 0 from the length check, which sits in the first iteration of
    the loop: by then the target index was selected, the start of the
    transfer was signalled, the progress display was reset, the save
    state was processed and the bytes were read.  The return leaves the
    transfer open: no end of transfer is signalled and the file is not
    closed, as the regular end of the function does.  No status field was
    written and nothing was forwarded to the byte sink. *)
Theorem short_source_aborts (env : Env) (buf0 : list byte)
  (name : string) (index : Z) (contents : list byte) (st : gmap string Z) :
  rom_files env name = Some contents ->
  (0 < length contents < BUF_SIZE)%nat ->
  let run := n64_rom_tx env buf0 name index st in
  result run = 0
  /\ trace run
     = [ EvPrintf (DiagFile name (length contents) index);
         EvSetIndex index; EvSetDownload true; EvProgressClear;
         EvProcessSS name; EvFileReadAdv (length contents);
         EvPrintf DiagTooShort ]
  /\ status_writes (trace run) = []
  /\ tx_data (trace run) = []
  /\ final_status run = st.
Proof.
  intros Hfile Hlen run. subst run.
  rewrite (n64_rom_tx_short env buf0 name index contents st Hfile Hlen).
  by repeat split.
Qed.

(** C9 (as amended). For every accepted source whose size is a multiple
    of 4, the chunks are full buffers followed by the remainder of the
    size modulo 4096 when that is not zero; every chunk length is a
    multiple of 4, equals the length of the payload forwarded for it, and
    a chunk of that length is normalised, in every format, without an
    access past its own length. *)
Theorem chunks_of_aligned_source (env : Env) (buf0 : list byte)
  (name : string) (index : Z) (contents : list byte) (st : gmap string Z) :
  rom_files env name = Some contents ->
  (BUF_SIZE <= length contents)%nat ->
  (length contents mod 4 = 0)%nat ->
  let run := n64_rom_tx env buf0 name index st in
  read_sizes (trace run) = chunk_lengths (length contents)
  /\ map length (tx_data (trace run)) = read_sizes (trace run)
  /\ Forall (fun chunk => (chunk mod 4 = 0)%nat) (read_sizes (trace run))
  /\ forall (format : RomFormat.t) (data : list byte),
       In (length data) (read_sizes (trace run)) ->
       exists out, normalize_chunk format data = Some out
                   /\ length out = length data.
Proof.
  intros Hfile Hlen Hmod run.
  destruct (n64_rom_tx_accepted env buf0 name index contents st Hfile Hlen)
    as (c0 & later & _ & _ & _ & Hrs & Hml & _).
  fold run in Hrs, Hml. rewrite Hrs, Hml.
  pose proof (chunk_lengths_multiple_of_4 (length contents) Hmod) as Hall.
  repeat split; [done|].
  intros format data Hin. apply normalize_chunk_whole_groups.
  rewrite List.Forall_forall in Hall. specialize (Hall _ Hin). cbv beta in Hall.
  destruct format; cbn [granularity]; try apply Nat.mod_1_r; [|done].
  apply Nat.Div0.div_exact in Hall. rewrite Hall.
  replace (4 * (length data / 4))%nat with (2 * (length data / 4) * 2)%nat by lia.
  apply Nat.Div0.mod_mul.
Qed.

(** C1. The ingestion of an empty source.  [while (bytes2send)] is not
    entered, so the length check of the first iteration is never reached
    and the source is not rejected.  No chunk is read, no header digest
    is taken and the database is never asked for one: the first lookup of
    the run is the lookup by the digest of the empty stream, and the
    heuristic follows when it misses, on the initial header fields. *)
Theorem empty_source_skips_header_lookup (env : Env) (buf0 : list byte)
  (name : string) (index : Z) (st : gmap string Z) :
  rom_files env name = Some [] ->
  let run := n64_rom_tx env buf0 name index st in
  let key := md5_to_hex (stream_digest []) in
  let by_file := detect_rom_settings_in_dbs env key st in
  let heuristic := detect_rom_settings_from_first_chunk EmptyString zero 0 0 st in
  result run = 1
  /\ read_sizes (trace run) = []
  /\ header_md5_printed (trace run) = []
  /\ file_md5_printed (trace run) = [key]
  /\ detection_events (trace run)
     = trace by_file ++ (if result by_file then [] else trace heuristic)
  /\ final_status run
     = (if result by_file then final_status by_file else final_status heuristic).
Proof.
  intros Hfile run key by_file heuristic. subst run.
  rewrite (n64_rom_tx_unfold env buf0 name index [] st Hfile). cbn zeta.
  cbn [length rom_tx_loop ret result final_status trace fst snd].
  destruct (finish_rom_tx_run env name (initial_state [] buf0) st)
    as (Fres & Ffil & Fhdr & _ & Frs & Fcase).
  cbn [initial_state ctx rom_found_in_db cart_id region_code revision ipl3_crc]
    in Ffil, Fcase.
  change (md5_to_hex (MD5Final MD5Init).1) with key in Ffil, Fcase.
  cbn zeta in Fcase. fold by_file heuristic in Fcase.
  unfold prologue. proj_simpl. rewrite Frs, Fhdr, Ffil.
  destruct (result by_file); destruct Fcase as (-> & -> & _);
    by rewrite ?app_nil_r.
Qed.

End Claims.
(* ===================================================================== *)
(** * Bytes and words *)
(* ===================================================================== *)

Lemma byte_val_bound (b : byte) : 0 <= byte_val b < 256.
Proof.
  destruct b; vm_compute; (split; [discriminate|reflexivity]).
Qed.

Lemma byte_val_inj (a b : byte) : byte_val a = byte_val b -> a = b.
Proof.
  unfold byte_val. intros Heq. apply N2Z.inj in Heq.
  pose proof (Byte.of_to_N a) as Ha. pose proof (Byte.of_to_N b) as Hb.
  rewrite Heq in Ha. congruence.
Qed.

(** Bits that do not overlap: [|] is [+]. *)
Lemma lor_shiftl_add (a b n : Z) :
  0 <= n -> 0 <= a < 2 ^ n -> Z.lor a (Z.shiftl b n) = a + b * 2 ^ n.
Proof.
  intros Hn Ha. rewrite Z.shiftl_mul_pow2 by done.
  symmetry. apply Z.add_nocarry_lor. apply Z.bits_inj'. intros i Hi.
  rewrite Z.land_spec, Z.bits_0.
  destruct (Z.lt_ge_cases i n) as [Hlt|Hge].
  - by rewrite (Z.mul_pow2_bits_low b n i), andb_false_r.
  - rewrite <- (Z.mod_small a (2 ^ n)) by done.
    by rewrite Z.mod_pow2_bits_high.
Qed.

Lemma load32_le_sum (b0 b1 b2 b3 : byte) :
  load32_le b0 b1 b2 b3
  = byte_val b0 + 2 ^ 8 * byte_val b1 + 2 ^ 16 * byte_val b2
    + 2 ^ 24 * byte_val b3.
Proof.
  unfold load32_le.
  pose proof (byte_val_bound b0). pose proof (byte_val_bound b1).
  pose proof (byte_val_bound b2). pose proof (byte_val_bound b3).
  replace (Z.shiftl (byte_val b2) 16) with (Z.shiftl (Z.shiftl (byte_val b2) 8) 8)
    by (rewrite Z.shiftl_shiftl by lia; done).
  replace (Z.shiftl (byte_val b3) 24)
    with (Z.shiftl (Z.shiftl (Z.shiftl (byte_val b3) 8) 8) 8)
    by (rewrite !Z.shiftl_shiftl by lia; done).
  rewrite <- !Z.shiftl_lor.
  rewrite (lor_shiftl_add (byte_val b2)) by lia.
  rewrite (lor_shiftl_add (byte_val b1)) by lia.
  rewrite (lor_shiftl_add (byte_val b0)) by lia.
  lia.
Qed.

Lemma load32_le_bound (b0 b1 b2 b3 : byte) : 0 <= load32_le b0 b1 b2 b3 < 2 ^ 32.
Proof.
  rewrite load32_le_sum.
  pose proof (byte_val_bound b0). pose proof (byte_val_bound b1).
  pose proof (byte_val_bound b2). pose proof (byte_val_bound b3). lia.
Qed.

Lemma load32_le_inj (a0 a1 a2 a3 c0 c1 c2 c3 : byte) :
  load32_le a0 a1 a2 a3 = load32_le c0 c1 c2 c3 ->
  a0 = c0 /\ a1 = c1 /\ a2 = c2 /\ a3 = c3.
Proof.
  rewrite !load32_le_sum. intros Heq.
  pose proof (byte_val_bound a0). pose proof (byte_val_bound a1).
  pose proof (byte_val_bound a2). pose proof (byte_val_bound a3).
  pose proof (byte_val_bound c0). pose proof (byte_val_bound c1).
  pose proof (byte_val_bound c2). pose proof (byte_val_bound c3).
  repeat split; apply byte_val_inj; lia.
Qed.
(* ===================================================================== *)
(** * Round trips of the normaliser *)
(* ===================================================================== *)

Lemma normalize_byte_swapped_twice (data : list byte) :
  (length data mod 2 = 0)%nat ->
  exists out, normalize_byte_swapped (length data) data = Some out
    /\ length out = length data
    /\ normalize_byte_swapped (length data) out = Some data.
Proof.
  induction data as [|x|x y data IH] using list_pair_ind; intros Hlen.
  - by exists [].
  - discriminate.
  - destruct IH as (out & Ha & Hl & Hb).
    { cbn [length] in Hlen.
      replace (S (S (length data))) with (length data + 1 * 2)%nat in Hlen by lia.
      by rewrite Nat.Div0.mod_add in Hlen. }
    exists (y :: x :: out). cbn [length normalize_byte_swapped].
    rewrite Ha, Hb, Hl. by destruct (length data).
Qed.

Lemma normalize_little_endian_twice (data : list byte) :
  (length data mod 4 = 0)%nat ->
  exists out, normalize_little_endian (length data) data = Some out
    /\ length out = length data
    /\ normalize_little_endian (length data) out = Some data.
Proof.
  induction data as [|x|x y|x y z|x y z w data IH] using list_quad_ind;
    intros Hlen; try discriminate.
  - by exists [].
  - destruct IH as (out & Ha & Hl & Hb).
    { cbn [length] in Hlen.
      replace (S (S (S (S (length data))))) with (length data + 1 * 4)%nat
        in Hlen by lia.
      by rewrite Nat.Div0.mod_add in Hlen. }
    exists (w :: z :: y :: x :: out). cbn [length normalize_little_endian].
    rewrite Ha, Hb, Hl. by destruct (length data).
Qed.

(** X10. On a buffer of whole groups the transform of every format is
    its own inverse: normalising the normalised bytes, with the same
    format, gives the original bytes back. *)
Theorem normalizeData_involution (format : RomFormat.t) (data : list byte) :
  (length data mod granularity format = 0)%nat ->
  exists out,
    normalizeData data (length data) format = Some out
    /\ length out = length data
    /\ normalizeData out (length out) format = Some data.
Proof.
  intros Hlen. destruct format; cbn [normalizeData granularity] in *.
  - by exists data.
  - by exists data.
  - destruct (normalize_byte_swapped_twice data Hlen) as (out & Ha & Hl & Hb).
    exists out. by rewrite Hl.
  - destruct (normalize_little_endian_twice data Hlen) as (out & Ha & Hl & Hb).
    exists out. by rewrite Hl.
Qed.

(** The four bytes behind a value of the first word. *)
Lemma load32_le_is (b0 b1 b2 b3 c0 c1 c2 c3 : byte) (val : Z) :
  load32_le b0 b1 b2 b3 = val -> val = load32_le c0 c1 c2 c3 ->
  [b0; b1; b2; b3] = [c0; c1; c2; c3].
Proof.
  intros Hb Hc. rewrite Hc in Hb.
  by destruct (load32_le_inj _ _ _ _ _ _ _ _ Hb) as (-> & -> & -> & ->).
Qed.

Lemma normalized_magic_is_big_endian (b0 b1 b2 b3 : byte) (out : list byte) :
  let magic := [b0; b1; b2; b3] in
  detectRomFormat magic <> RomFormat.UNKNOWN ->
  normalize_chunk (detectRomFormat magic) magic = Some out ->
  detectRomFormat out = RomFormat.BIG_ENDIAN.
Proof.
  cbn zeta. unfold detectRomFormat at 1 2.
  repeat match goal with
         | |- context [load32_le b0 b1 b2 b3 =? ?v] =>
             destruct (Z.eqb_spec (load32_le b0 b1 b2 b3) v) as [Hval|_]
         end; cbn [orb]; intros Hknown Hnorm; try done.
  all: first
    [ rewrite (load32_le_is _ _ _ _ x80 x37 x12 x40 _ Hval eq_refl) in *
    | rewrite (load32_le_is _ _ _ _ x80 x27 x07 x40 _ Hval eq_refl) in *
    | rewrite (load32_le_is _ _ _ _ x37 x80 x40 x12 _ Hval eq_refl) in *
    | rewrite (load32_le_is _ _ _ _ x27 x80 x40 x07 _ Hval eq_refl) in *
    | rewrite (load32_le_is _ _ _ _ x40 x12 x37 x80 _ Hval eq_refl) in *
    | rewrite (load32_le_is _ _ _ _ x40 x07 x27 x80 _ Hval eq_refl) in * ].
  all: vm_compute in Hnorm; injection Hnorm as <-; reflexivity.
Qed.

(** X11. An image whose first word is one of the six magic values is,
    once normalised with the format detected for it, an image that is
    detected as big-endian. *)
Theorem normalized_image_is_big_endian (data : list byte) (size : nat)
  (out : list byte) :
  (4 <= size)%nat ->
  detectRomFormat data <> RomFormat.UNKNOWN ->
  normalizeData data size (detectRomFormat data) = Some out ->
  detectRomFormat out = RomFormat.BIG_ENDIAN.
Proof.
  intros Hsize Hknown Hnorm.
  destruct data as [|b0 [|b1 [|b2 [|b3 data]]]]; try done.
  change (b0 :: b1 :: b2 :: b3 :: data) with ([b0; b1; b2; b3] ++ data) in *.
  rewrite detectRomFormat_app in * by (cbn; lia).
  destruct (normalizeData_app (detectRomFormat [b0; b1; b2; b3])
              [b0; b1; b2; b3] data (size - 4)) as (magic & Hm & Hl & Happ).
  { by destruct (detectRomFormat _). }
  replace size with (length [b0; b1; b2; b3] + (size - 4))%nat in Hnorm
    by (cbn [length]; lia).
  rewrite Happ in Hnorm.
  destruct (normalizeData data (size - 4) _) as [rest|]; [|done].
  injection Hnorm as <-. rewrite detectRomFormat_app by (rewrite Hl; cbn; lia).
  by apply (normalized_magic_is_big_endian b0 b1 b2 b3).
Qed.
(* ===================================================================== *)
(** * [fnv_hash], [normalizeString], [md5_to_hex] *)
(* ===================================================================== *)

Lemma fnv_hash_from_range (s : string) (h : Z) :
  0 <= h < 2 ^ 64 -> 0 <= fnv_hash_from s h < 2 ^ 64.
Proof.
  revert h. induction s as [|a s IH]; intros h Hh; cbn [fnv_hash_from]; [done|].
  destruct (is_nul a); [done|]. apply IH. unfold wrap64.
  apply Z.mod_pos_bound. lia.
Qed.

(** X15. [fnv_hash] is a 64-bit value; the hash of a string can be
    continued: hashing [s1] and then [s2], starting from the hash of
    [s1], is hashing the two strings joined; and the hash reads a string
    up to its terminator and no further. *)
Theorem fnv_hash_continues (s1 s2 : string) (h : Z) :
  nul_free s1 = true ->
  fnv_hash_from (s1 +:+ s2) h = fnv_hash_from s2 (fnv_hash_from s1 h)
  /\ fnv_hash_from (s1 +:+ String zero s2) h = fnv_hash_from s1 h
  /\ 0 <= fnv_hash (s1 +:+ s2) < 2 ^ 64.
Proof.
  intros Hfree. split; [|split].
  - revert h. induction s1 as [|a s1 IH]; intros h; [done|].
    cbn [nul_free] in Hfree. apply andb_prop in Hfree as [Ha Hs].
    change (String a s1 +:+ s2) with (String a (s1 +:+ s2)).
    cbn [fnv_hash_from]. apply negb_true_iff in Ha. rewrite Ha.
    by apply IH.
  - revert h. induction s1 as [|a s1 IH]; intros h; [done|].
    cbn [nul_free] in Hfree. apply andb_prop in Hfree as [Ha Hs].
    change (String a s1 +:+ String zero s2)
      with (String a (s1 +:+ String zero s2)).
    cbn [fnv_hash_from]. apply negb_true_iff in Ha. rewrite Ha.
    by apply IH.
  - apply fnv_hash_from_range. by vm_compute.
Qed.

Lemma tolower_twice (c : ascii) :
  tolower (tolower c) = tolower c /\ is_nul (tolower c) = is_nul c
  /\ isupper (tolower c) = false.
Proof. by destruct c as [[] [] [] [] [] [] [] []]. Qed.

(** X13. [normalizeString] is idempotent and keeps the length of the
    string; a string without terminator inside comes out without an
    upper-case letter. *)
Theorem normalizeString_idempotent (s : string) :
  normalizeString (normalizeString s) = normalizeString s
  /\ String.length (normalizeString s) = String.length s
  /\ (nul_free s = true ->
      string_forall (fun c => negb (isupper c)) (normalizeString s) = true).
Proof.
  induction s as [|c s (IH1 & IH2 & IH3)]; [done|]. cbn [normalizeString].
  destruct (tolower_twice c) as (Ht & Hn & Hu).
  destruct (is_nul c) eqn:Hc.
  - cbn [normalizeString nul_free]. rewrite Hc. by repeat split.
  - cbn [normalizeString String.length nul_free string_forall negb andb].
    rewrite Hn, Ht, IH1, IH2, Hu, Hc. repeat split. by intros ?%IH3.
Qed.

Lemma hex_pair_value_sprintf (b : byte) :
  hex_pair_value (sprintf_02x b) = byte_val b
  /\ string_forall is_lower_hex (sprintf_02x b) = true.
Proof. by destruct b. Qed.

Lemma sprintf_02x_inj (a b : byte) : sprintf_02x a = sprintf_02x b -> a = b.
Proof.
  intros Heq. apply byte_val_inj.
  rewrite <- (proj1 (hex_pair_value_sprintf a)), <- (proj1 (hex_pair_value_sprintf b)).
  by rewrite Heq.
Qed.

Lemma sprintf_02x_shape (b : byte) :
  exists hi lo, sprintf_02x b = String hi (String lo EmptyString)
                /\ is_lower_hex hi = true /\ is_lower_hex lo = true.
Proof.
  eexists _, _. split; [reflexivity|].
  pose proof (proj2 (hex_pair_value_sprintf b)) as Hs.
  cbn [sprintf_02x string_forall] in Hs.
  apply andb_prop in Hs as [? Hs]. by apply andb_prop in Hs as [? _].
Qed.

(** The text has 32 characters, digits and letters from a to f in lower
    case. *)
Lemma md5_to_hex_lower_case (digest : list byte) :
  length digest = 16%nat ->
  String.length (md5_to_hex digest) = 32%nat
  /\ string_forall is_lower_hex (md5_to_hex digest) = true.
Proof.
  intros _. unfold md5_to_hex. cbn [seq fold_right].
  repeat match goal with
         | |- context [sprintf_02x ?b] =>
             let hi := fresh "hi" in let lo := fresh "lo" in
             let Heq := fresh "Heq" in
             destruct (sprintf_02x_shape b) as (hi & lo & Heq & ? & ?);
             rewrite Heq; clear Heq
         end.
  cbv [String.append]. cbn [String.length string_forall].
  repeat match goal with
         | Hc : is_lower_hex _ = true |- _ => rewrite Hc; clear Hc
         end.
  done.
Qed.

(** Two digests with the same text are the same digest. *)
Lemma md5_to_hex_injective (a b : list byte) :
  length a = 16%nat -> length b = 16%nat ->
  md5_to_hex a = md5_to_hex b -> a = b.
Proof.
  intros Ha Hb.
  do 17 (destruct a as [|? a]; try discriminate Ha).
  do 17 (destruct b as [|? b]; try discriminate Hb).
  unfold md5_to_hex. cbn [seq fold_right nth]. cbn [sprintf_02x String.append].
  intros Heq. injection Heq as H1 H2 H3 H4 H5 H6 H7 H8 H9 H10 H11 H12 H13 H14
    H15 H16 H17 H18 H19 H20 H21 H22 H23 H24 H25 H26 H27 H28 H29 H30 H31 H32.
  repeat f_equal; apply sprintf_02x_inj; unfold sprintf_02x; congruence.
Qed.

(** X14. [md5_to_hex] gives a faithful text of a digest of 16 bytes: 32
    characters, each of them a digit or a letter from a to f in lower
    case, and two digests with the same text are the same digest, so
    that no two digests share a lookup key. *)
Theorem md5_to_hex_faithful (a b : list byte) :
  length a = 16%nat -> length b = 16%nat ->
  String.length (md5_to_hex a) = 32%nat
  /\ string_forall is_lower_hex (md5_to_hex a) = true
  /\ (md5_to_hex a = md5_to_hex b -> a = b).
Proof.
  intros Ha Hb. destruct (md5_to_hex_lower_case a Ha) as [Hl Hx].
  repeat split; [done..|]. by apply md5_to_hex_injective.
Qed.
(* ===================================================================== *)
(** * The CIC table and the boot-code checksum *)
(* ===================================================================== *)

(** X16. Whatever the checksum and the region, the CIC and the system
    type that [switch (crc)] leaves agree: a CIC of the 61xx series comes
    with NTSC and one of the 71xx series with PAL; and the system type is
    the one the region code gave, except for the two entries that force
    it. *)
Theorem cic_switch_agrees_with_system_type (crc : Z) (sys sys' : SystemType.t)
  (c : CIC.t) :
  cic_switch crc sys = Some (c, sys') ->
  (cic_region c = None \/ cic_region c = Some sys')
  /\ (sys' = sys \/ crc = 0x000000a405397b05 \/ crc = 0x000000a0f26f62fe).
Proof.
  unfold cic_switch.
  repeat match goal with
         | |- context [crc =? ?v] => destruct (Z.eqb_spec crc v) as [->|_]
         end; cbn [orb]; intros Hc; try discriminate Hc;
    injection Hc as <- <-; destruct sys; cbn; tauto.
Qed.

Lemma ipl3_sum_word_sum (n : nat) (data : list byte) (acc : Z) :
  0 <= acc -> acc + Z.of_nat n * (2 ^ 32 - 1) < 2 ^ 64 ->
  ipl3_sum n data acc = acc + word_sum n data
  /\ 0 <= word_sum n data <= Z.of_nat n * (2 ^ 32 - 1).
Proof.
  revert data acc. induction n as [|n IH]; intros data acc Hacc Hmax.
  - cbn. lia.
  - cbn [ipl3_sum word_sum].
    destruct data as [|b0 [|b1 [|b2 [|b3 data]]]]; try lia.
    pose proof (load32_le_bound b0 b1 b2 b3) as Hw.
    unfold wrap64. rewrite Z.mod_small by lia.
    destruct (IH data (acc + load32_le b0 b1 b2 b3)) as [-> Hs]; lia.
Qed.

(** X17. The boot-code checksum never wraps around: the 64-bit
    accumulator holds the plain sum of the 1008 words from offset 0x40 to
    0x1000, which is below 1008 * 2^32. *)
Theorem ipl3_checksum_no_overflow (buf : list byte) :
  ipl3_checksum buf 0 = word_sum 1008 (drop 0x40 buf)
  /\ 0 <= ipl3_checksum buf 0 < 1008 * 2 ^ 32.
Proof.
  unfold ipl3_checksum. change (0x1000 / 4 - 0x40 / 4)%nat with 1008%nat.
  destruct (ipl3_sum_word_sum 1008 (drop 0x40 buf) 0) as [-> Hs]; lia.
Qed.

(* ===================================================================== *)
(** * [stick_swap] *)
(* ===================================================================== *)

Lemma rem_2_cases (n : Z) :
  exists q r, n = 2 * q + r /\ Z.rem n 2 = r /\ (r = 0 \/ r = 1 \/ r = -1)
              /\ (0 <= n -> 0 <= r) /\ (n <= 0 -> r <= 0).
Proof.
  exists (Z.quot n 2), (Z.rem n 2).
  pose proof (Z.quot_rem' n 2) as Hqr.
  destruct (Z.le_gt_cases 0 n) as [Hpos|Hneg].
  - pose proof (Z.rem_bound_pos n 2 Hpos). lia.
  - pose proof (Z.rem_bound_pos_neg n 2). lia.
Qed.

(** X18. [stick_swap] never leaves the range of [int]: for every mode
    and every [int] on entry, the additions and subtractions do not
    overflow; the stick comes out as 0 or 1; the number moves by at most
    2 and a number that is not negative stays so. *)
Theorem stick_swap_keeps_int_range (tv num stick : Z) :
  INT_MIN <= num <= INT_MAX ->
  let '(num', stick') := stick_swap tv num stick in
  INT_MIN <= num' <= INT_MAX
  /\ (stick' = 0 \/ stick' = 1)
  /\ num - 2 <= num' <= num + 2
  /\ (0 <= num -> 0 <= num').
Proof.
  unfold INT_MIN, INT_MAX, stick_swap. intros Hnum.
  destruct (negb (Z.land tv 1 =? 0)), (negb (Z.land (Z.shiftr tv 1) 1 =? 0));
    destruct (stick =? 0); cbn [negb Z.eqb];
    repeat match goal with
           | |- context [?a <? ?b] => destruct (Z.ltb_spec a b)
           end; cbn [andb negb];
    repeat match goal with
           | |- context [Z.rem ?n 2] =>
               let q := fresh "q" in let r := fresh "r" in
               destruct (rem_2_cases n) as (q & r & ? & -> & ? & ? & ?)
           | |- context [?a =? 0] => destruct (Z.eqb_spec a 0)
           end; cbn [negb]; lia.
Qed.

Lemma mode_bits (tv : Z) :
  Z.land tv 1 = Z.land (Z.land tv 3) 1
  /\ Z.land (Z.shiftr tv 1) 1 = Z.land (Z.shiftr (Z.land tv 3) 1) 1.
Proof.
  split.
  - by rewrite <- Z.land_assoc.
  - by rewrite Z.shiftr_land, <- Z.land_assoc.
Qed.

(** X19. [stick_swap] reads two bits of the status value and no more:
    two values that agree on bits 0 and 1 route every stick alike, the
    third bit the function extracts has no effect, and with both bits
    clear the stick is reversed and the number kept. *)
Theorem stick_swap_reads_two_bits (tv tv' num stick : Z) :
  Z.land tv 3 = Z.land tv' 3 ->
  stick_swap tv num stick = stick_swap tv' num stick
  /\ (Z.land tv 3 = 0 ->
      stick_swap tv num stick = (num, if stick =? 0 then 1 else 0)).
Proof.
  intros Heq. destruct (mode_bits tv) as [H0 H1], (mode_bits tv') as [H0' H1'].
  unfold stick_swap. rewrite H0, H1, H0', H1', Heq. split; [done|].
  intros Hz. by rewrite Hz.
Qed.

(** X20. With the P2 bit alone, [stick_swap] routes no two sticks to the
    same place: on sticks 0 and 1 it is one-to-one.  With the P3 bit
    alone it is not: stick 0 of number 2 and stick 1 of number 4 are both
    routed to stick 1 of number 2. *)
Theorem stick_swap_p2_one_to_one (tv n1 s1 n2 s2 : Z) :
  Z.land tv 3 = 1 ->
  (s1 = 0 \/ s1 = 1) -> (s2 = 0 \/ s2 = 1) ->
  stick_swap tv n1 s1 = stick_swap tv n2 s2 ->
  (n1 = n2 /\ s1 = s2)
  /\ stick_swap 2 2 0 = stick_swap 2 4 1.
Proof.
  intros Hmode Hs1 Hs2 Heq. split; [|done]. revert Heq.
  destruct (mode_bits tv) as [H0 H1]. unfold stick_swap.
  rewrite H0, H1, Hmode. cbn [Z.land Z.shiftr Z.eqb negb Pos.land].
  change (Z.land (Z.shiftr 1 1) 1 =? 0) with true.
  change (Z.land 1 1 =? 0) with false. cbn [negb].
  destruct (rem_2_cases n1) as (q1 & r1 & ? & -> & ? & ? & ?).
  destruct (rem_2_cases n2) as (q2 & r2 & ? & -> & ? & ? & ?).
  destruct Hs1 as [-> | ->], Hs2 as [-> | ->];
    change (0 =? 0) with true; change (1 =? 0) with false; cbn [negb];
    destruct (Z.eqb_spec r1 0), (Z.eqb_spec r2 0); cbn [negb];
    intros Heq; inversion Heq; lia.
Qed.
(* ===================================================================== *)
(** * The database reader *)
(* ===================================================================== *)

(** The token loop is a fold of the assignments the tokens select. *)
Lemma apply_tags_result (tags : list string) (p : Settings) (st : gmap string Z) :
  result (apply_tags p tags st) = assign_all p (omap tag_effect tags).
Proof.
  revert p. induction tags as [|tag rest IH]; intros p; [done|].
  cbn [apply_tags omap]. run_simpl.
  destruct (apply_tag_quiet p tag st) as (-> & _). rewrite IH.
  unfold apply_tag, tag_effect. run_simpl. cbn [omap list_omap].
  destruct (switch_fnv tag_cases _); by run_simpl.
Qed.

Lemma last_cons_default {A : Type} (x d : A) (l : list A) :
  default d (last (x :: l)) = default x (last l).
Proof.
  revert x d. induction l as [|y l IH]; intros x d; [done|].
  change (last (x :: y :: l)) with (last (y :: l)).
  by rewrite (IH y d), (IH y x).
Qed.

(** X21. How the tags of a record compose.  A peripheral flag is set by
    a tag and never cleared: it ends up set exactly when it was set
    before or some tag of the list selects its case.  For the save type,
    the system type and the CIC the last tag of the category decides, and
    a list without a tag of the category leaves the value it started
    from.  Tags of one category do not touch another. *)
Theorem tags_accumulate (p : Settings) (tags : list string) (st : gmap string Z) :
  let q := result (apply_tags p tags st) in
  cpak q = cpak p || existsb tag_sets_cpak tags
  /\ rpak q = rpak p || existsb tag_sets_rpak tags
  /\ tpak q = tpak p || existsb tag_sets_tpak tags
  /\ rtc q = rtc p || existsb tag_sets_rtc tags
  /\ save_type q = default (save_type p) (last (omap tag_save_type tags))
  /\ system_type q = default (system_type p) (last (omap tag_system_type tags))
  /\ cic q = default (cic p) (last (omap tag_cic tags)).
Proof.
  cbn zeta. rewrite apply_tags_result.
  revert p. induction tags as [|tag rest IH]; intros p.
  - cbn. by rewrite !orb_false_r.
  - cbn [omap list_omap existsb].
    unfold tag_sets_cpak, tag_sets_rpak, tag_sets_tpak, tag_sets_rtc,
      tag_save_type, tag_system_type, tag_cic in *.
    destruct (tag_effect tag) as [a|]; [|apply IH].
    unfold assign_all in *. cbn [fold_left].
    destruct (IH (assign p a)) as (-> & -> & -> & -> & -> & -> & ->).
    destruct a; cbn [assign cpak rpak tpak rtc save_type system_type cic orb];
      rewrite ?last_cons_default, ?orb_true_r; done.
Qed.

Lemma strncmp_eq_prefix (n : nat) (a line : string) :
  String.length a = n -> strncmp_eq n a line = true ->
  exists rest, line = a +:+ rest.
Proof.
  revert a line. induction n as [|n IH]; intros a line Hlen Hcmp.
  - destruct a; [|done]. by exists line.
  - destruct a as [|x a]; [done|]. destruct line as [|y line]; [done|].
    cbn [strncmp_eq] in Hcmp. destruct (Ascii.eqb_spec x y) as [->|]; [|done].
    destruct (IH a line) as (rest & ->); [by injection Hlen|done|].
    by exists rest.
Qed.

Lemma scan_db_lines_hit (lookup_hash : string) (lines : list string)
  (st : gmap string Z) :
  result (scan_db_lines lookup_hash lines st) = true ->
  exists line tags,
    In line lines /\ strncmp_eq 32 lookup_hash line = true
    /\ sscanf_tags line = Some tags.
Proof.
  induction lines as [|line rest IH]; cbn [scan_db_lines]; [done|].
  destruct (strncmp_eq 32 lookup_hash line) eqn:Hcmp; cbn [negb].
  - destruct (sscanf_tags line) as [tags|] eqn:Htags.
    + intros _. exists line, tags. cbn. tauto.
    + run_simpl. intros (l & t & ? & ?)%IH. exists l, t. cbn. tauto.
  - intros (l & t & ? & ?)%IH. exists l, t. cbn. tauto.
Qed.

(** X22. A lookup succeeds only on an exact key: when
    [detect_rom_settings_in_dbs] finds a record for a hash of 32
    characters, one of the two database files holds a line that starts
    with those 32 characters, letter case included, and has a tag
    field. *)
Theorem lookup_hit_needs_exact_key (env : Env) (lookup_hash : string)
  (st : gmap string Z) :
  String.length lookup_hash = 32%nat ->
  result (detect_rom_settings_in_dbs env lookup_hash st) = true ->
  exists db_file_name lines rest tags,
    In db_file_name DB_FILE_NAMES
    /\ db_files env db_file_name = Some lines
    /\ In (lookup_hash +:+ rest) lines
    /\ sscanf_tags (lookup_hash +:+ rest) = Some tags.
Proof.
  intros Hlen. unfold detect_rom_settings_in_dbs.
  assert (forall name st',
            result (detect_rom_settings_in_db env lookup_hash name st') = true ->
            exists lines rest tags,
              db_files env name = Some lines
              /\ In (lookup_hash +:+ rest) lines
              /\ sscanf_tags (lookup_hash +:+ rest) = Some tags) as Hone.
  { intros name st'. unfold detect_rom_settings_in_db. run_simpl.
    destruct (db_files env name) as [lines|]; run_simpl; [|done].
    intros (line & tags & Hin & Hcmp & Htags)%scan_db_lines_hit.
    destruct (strncmp_eq_prefix 32 lookup_hash line Hlen Hcmp) as (rest & ->).
    by exists lines, rest, tags. }
  generalize DB_FILE_NAMES as names. intros names. revert st.
  induction names as [|name names IH]; intros st;
    cbn [detect_rom_settings_in_db_list]; [done|].
  run_simpl.
  destruct (result (detect_rom_settings_in_db env lookup_hash name st)) eqn:Hr.
  - intros _. destruct (Hone name st Hr) as (lines & rest & tags & ? & ? & ?).
    exists name, lines, rest, tags. cbn. tauto.
  - intros (n & lines & rest & tags & ? & ?)%IH.
    exists n, lines, rest, tags. cbn. tauto.
Qed.
(* ===================================================================== *)
(** * What a run writes to the status register *)
(* ===================================================================== *)

Lemma apply_writes_app (w1 w2 : list (string * Z)) (st : gmap string Z) :
  apply_writes (w1 ++ w2) st = apply_writes w2 (apply_writes w1 st).
Proof. apply fold_left_app. Qed.

Lemma tracked_ret {A : Type} (a : A) : tracked (ret a).
Proof. intros st. split; [done|constructor]. Qed.

Lemma tracked_emit (e : Event) :
  match e with EvStatusSet _ _ => False | _ => True end -> tracked (emit e).
Proof. intros He st. split; [by destruct e|]. by destruct e; repeat constructor. Qed.

Lemma tracked_printf (d : Diag) : tracked (printf d).
Proof. by apply tracked_emit. Qed.

Lemma tracked_get (field : string) : tracked (user_io_status_get field).
Proof. intros st. split; [done|by repeat constructor]. Qed.

Lemma tracked_set (field : string) (value : Z) :
  write_fits (field, value) -> tracked (user_io_status_set field value).
Proof. intros Hw st. split; [done|by repeat constructor]. Qed.

Lemma tracked_bind {A B : Type} (m : M A) (k : A -> M B) :
  tracked m -> (forall a, tracked (k a)) -> tracked (bind m k).
Proof.
  intros Hm Hk st. destruct (Hm st) as [Hs Hf].
  destruct (Hk (result (m st)) (final_status (m st))) as [Hs' Hf'].
  run_simpl. split.
  - by rewrite status_writes_app, apply_writes_app, <- Hs.
  - by apply Forall_app.
Qed.

(** Breaks a computation into its calls. *)
Ltac tracked_steps :=
  repeat match goal with
         | |- tracked (ret _) => apply tracked_ret
         | |- tracked (printf _) => apply tracked_printf
         | |- tracked (user_io_status_get _) => apply tracked_get
         | |- tracked (user_io_status_set _ _) => apply tracked_set
         | |- tracked (emit _) => apply tracked_emit; exact I
         | |- tracked (bind _ _) => apply tracked_bind; [|intros ?]
         | |- tracked (if ?b then _ else _) => destruct b
         | |- tracked (match ?o with Some _ => _ | None => _ end) => destruct o
         end.

Lemma settings_values_fit (p : Settings) :
  0 <= SystemType.to_Z (system_type p) < 2 ^ 2
  /\ 0 <= CIC.to_Z (cic p) < 2 ^ 4
  /\ 0 <= MemoryType.to_Z (save_type p) < 2 ^ 3
  /\ (forall b : bool, 0 <= bool_to_Z b < 2 ^ 1).
Proof.
  repeat split; first
    [ by destruct (system_type p) | by destruct (cic p)
    | by destruct (save_type p) | by destruct b ].
Qed.

Lemma tracked_apply_tags (tags : list string) (p : Settings) :
  tracked (apply_tags p tags).
Proof.
  revert p. induction tags as [|tag rest IH]; intros p; cbn [apply_tags].
  - apply tracked_ret.
  - apply tracked_bind; [|by intros ?]. unfold apply_tag. tracked_steps.
Qed.

Lemma tracked_commit_db_settings (p : Settings) : tracked (commit_db_settings p).
Proof.
  destruct (settings_values_fit p) as (? & ? & ? & Hb).
  unfold commit_db_settings. tracked_steps; unfold write_fits; cbn; (done || apply Hb).
Qed.

Lemma tracked_scan_db_lines (lookup_hash : string) (lines : list string) :
  tracked (scan_db_lines lookup_hash lines).
Proof.
  induction lines as [|line rest IH]; cbn [scan_db_lines].
  - apply tracked_ret.
  - destruct (negb _); [done|]. destruct (sscanf_tags line).
    + tracked_steps; [apply tracked_apply_tags|apply tracked_commit_db_settings].
    + by tracked_steps.
Qed.

Lemma tracked_detect_rom_settings_in_db (env : Env) (lookup_hash name : string) :
  tracked (detect_rom_settings_in_db env lookup_hash name).
Proof.
  unfold detect_rom_settings_in_db. tracked_steps. apply tracked_scan_db_lines.
Qed.

Lemma tracked_detect_rom_settings_in_dbs (env : Env) (lookup_hash : string) :
  tracked (detect_rom_settings_in_dbs env lookup_hash).
Proof.
  unfold detect_rom_settings_in_dbs. generalize DB_FILE_NAMES as names.
  induction names as [|name names IH]; cbn [detect_rom_settings_in_db_list].
  - apply tracked_ret.
  - apply tracked_bind; [apply tracked_detect_rom_settings_in_db|].
    intros [|]; [apply tracked_ret|done].
Qed.

Lemma tracked_detect_from_first_chunk (id : string) (region_code : ascii)
  (revision crc : Z) :
  tracked (detect_rom_settings_from_first_chunk id region_code revision crc).
Proof.
  unfold detect_rom_settings_from_first_chunk.
  apply tracked_bind; [apply tracked_get|]. intros v.
  destruct (negb _); [by tracked_steps|].
  destruct (cic_switch _ _) as [[c sys]|]; [|apply tracked_ret].
  destruct (settings_values_fit (chunk_defaults sys c)) as (Hs & Hc & _ & _).
  cbn [chunk_defaults system_type cic] in Hs, Hc.
  destruct (switch_fnv cart_cases (fnv_hash id)) as [body|].
  - destruct (settings_values_fit
                (assign_all (chunk_defaults sys c) (body region_code revision)))
      as (_ & _ & ? & Hb).
    tracked_steps; unfold write_fits; cbn [fst snd field_width String.eqb];
      cbn; (done || apply Hb).
  - tracked_steps; unfold write_fits; cbn; done.
Qed.

Section TrackedIngestion.
Context {H : Hasher}.

Lemma tracked_first_chunk_detection (env : Env) (s : LoopState) :
  tracked (first_chunk_detection env s).
Proof.
  unfold first_chunk_detection. destruct (MD5Final (ctx s)) as [md5 c].
  tracked_steps. apply tracked_detect_rom_settings_in_dbs.
Qed.

Lemma tracked_loop_body (env : Env) (size : nat) (s : LoopState) :
  tracked (loop_body env size s).
Proof.
  unfold loop_body. cbv zeta.
  apply tracked_bind; [by apply tracked_emit|]. intros _.
  destruct (_ && _); [by tracked_steps|].
  apply tracked_bind.
  - destruct (is_first_chunk s);
      [apply tracked_first_chunk_detection|apply tracked_ret].
  - intros s2. by tracked_steps.
Qed.

Lemma tracked_rom_tx_loop (fuel : nat) (env : Env) (size : nat)
  (s : LoopState) :
  tracked (rom_tx_loop fuel env size s).
Proof.
  revert s. induction fuel as [|fuel IH]; intros s; cbn [rom_tx_loop].
  - apply tracked_ret.
  - destruct (_ =? _)%nat; [apply tracked_ret|].
    apply tracked_bind; [apply tracked_loop_body|].
    intros [s'|]; [apply IH|apply tracked_ret].
Qed.

Lemma tracked_finish_rom_tx (env : Env) (name : string) (s : LoopState) :
  tracked (finish_rom_tx env name s).
Proof.
  unfold finish_rom_tx. destruct (MD5Final (ctx s)) as [md5 c].
  apply tracked_bind; [apply tracked_printf|]. intros _.
  apply tracked_bind.
  { destruct (negb _); [|apply tracked_ret].
    apply tracked_bind; [apply tracked_detect_rom_settings_in_dbs|].
    intros found. by tracked_steps. }
  intros found. apply tracked_bind.
  { destruct (negb _); [|apply tracked_ret].
    apply tracked_bind; [apply tracked_detect_from_first_chunk|].
    intros e. by tracked_steps. }
  intros e. by tracked_steps.
Qed.

Lemma tracked_n64_rom_tx (env : Env) (buf0 : list byte) (name : string)
  (index : Z) :
  tracked (n64_rom_tx env buf0 name index).
Proof.
  unfold n64_rom_tx. destruct (rom_files env name) as [contents|];
    [|apply tracked_ret].
  cbv zeta. do 5 (apply tracked_bind; [by tracked_steps|intros _]).
  apply tracked_bind; [apply tracked_rom_tx_loop|].
  intros [s|]; [apply tracked_finish_rom_tx|apply tracked_ret].
Qed.

End TrackedIngestion.

Lemma event_fits_writes (tr : list Event) :
  Forall event_fits tr -> Forall write_fits (status_writes tr).
Proof.
  induction 1 as [|e tr He _ IH]; [constructor|].
  destruct e; cbn [status_writes]; try done. by constructor.
Qed.

Lemma apply_writes_other_field (ws : list (string * Z)) (st : gmap string Z)
  (field : string) :
  Forall write_fits ws -> field_width field = None ->
  apply_writes ws st !! field = st !! field.
Proof.
  intros Hws Hf. revert st. induction Hws as [|[f v] ws Hw _ IH]; intros st; [done|].
  change (apply_writes ((f, v) :: ws) st) with (apply_writes ws (<[f := v]> st)).
  rewrite IH. apply lookup_insert_ne. intros ->.
  unfold write_fits in Hw. cbn [fst] in Hw. by rewrite Hf in Hw.
Qed.
(* ===================================================================== *)
(** * Runs with auto-detect off *)
(* ===================================================================== *)

Lemma silent_bind {A B : Type} (m : M A) (k : A -> M B) (st : gmap string Z) :
  silent (m st) st -> (forall a, silent (k a st) st) -> silent (bind m k st) st.
Proof.
  intros (Hs & Hw & Hn) Hk. unfold silent. run_simpl. rewrite Hs.
  destruct (Hk (result (m st))) as (Hs' & Hw' & Hn').
  by rewrite status_writes_app, notices_app, Hw, Hw', Hn, Hn'.
Qed.

Lemma quiet_silent {A : Type} (r : (A * gmap string Z) * list Event)
  (st : gmap string Z) :
  quiet r st -> silent r st.
Proof.
  intros (Hs & Hd & Hw). destruct (detection_only_projections _ Hd) as (_ & _ & Hn & _).
  done.
Qed.

(** Breaks a run into its calls. *)
Ltac silent_steps :=
  repeat match goal with
         | |- silent (ret _ _) _ => by repeat split
         | |- silent (printf _ _) _ => by repeat split
         | |- silent (emit _ _) _ => by repeat split
         | |- silent (bind _ _ _) _ => apply silent_bind; [|intros ?]
         | |- silent ((if ?b then _ else _) _) _ => destruct b
         | |- silent (match ?o with Some _ => _ | None => _ end _) _ => destruct o
         end.

Lemma scan_db_lines_off (lookup_hash : string) (lines : list string)
  (st : gmap string Z) :
  auto_detect_on st = false -> quiet (scan_db_lines lookup_hash lines st) st.
Proof.
  intros Hoff. induction lines as [|line rest IH]; cbn [scan_db_lines].
  - repeat split. constructor.
  - destruct (negb _); [done|]. destruct (sscanf_tags line) as [tags|].
    + apply quiet_bind; [repeat split; by repeat constructor|]. intros _.
      apply quiet_bind; [apply apply_tags_quiet|]. intros p.
      apply quiet_bind; [|intros _; repeat split; constructor].
      destruct (commit_db_settings_run p st) as (Hd & Hw & Hs).
      rewrite Hoff in Hw. by repeat split; [apply Hs|..].
    + apply quiet_bind; [repeat split; by repeat constructor|done].
Qed.

Lemma detect_rom_settings_in_dbs_off (env : Env) (lookup_hash : string)
  (st : gmap string Z) :
  auto_detect_on st = false ->
  quiet (detect_rom_settings_in_dbs env lookup_hash st) st.
Proof.
  intros Hoff. unfold detect_rom_settings_in_dbs.
  generalize DB_FILE_NAMES as names.
  induction names as [|name names IH]; cbn [detect_rom_settings_in_db_list].
  - repeat split. constructor.
  - apply quiet_bind.
    + unfold detect_rom_settings_in_db.
      apply quiet_bind; [repeat split; by repeat constructor|]. intros _.
      destruct (db_files env name) as [lines|]; [by apply scan_db_lines_off|].
      apply quiet_bind; [repeat split; by repeat constructor|].
      intros _. repeat split. constructor.
    + intros [|]; [repeat split; constructor|done].
Qed.

Section SilentIngestion.
Context {H : Hasher}.

Lemma loop_body_off (env : Env) (size : nat) (s : LoopState)
  (st : gmap string Z) :
  auto_detect_on st = false -> silent (loop_body env size s st) st.
Proof.
  intros Hoff. unfold loop_body. cbv zeta. silent_steps.
  unfold first_chunk_detection. destruct (MD5Final _) as [md5 c].
  silent_steps. by apply quiet_silent, detect_rom_settings_in_dbs_off.
Qed.

Lemma rom_tx_loop_off (fuel : nat) (env : Env) (size : nat)
  (s : LoopState) (st : gmap string Z) :
  auto_detect_on st = false -> silent (rom_tx_loop fuel env size s st) st.
Proof.
  intros Hoff. revert s. induction fuel as [|fuel IH]; intros s; cbn [rom_tx_loop].
  - by repeat split.
  - destruct (_ =? _)%nat; [by repeat split|].
    apply silent_bind; [by apply loop_body_off|].
    intros [s'|]; [apply IH|by repeat split].
Qed.

Lemma finish_rom_tx_off (env : Env) (name : string) (s : LoopState)
  (st : gmap string Z) :
  auto_detect_on st = false -> silent (finish_rom_tx env name s st) st.
Proof.
  intros Hoff. destruct (finish_rom_tx_run env name s st) as (_ & _ & _ & _ & _ & Hcase).
  cbn zeta in Hcase. unfold silent.
  rewrite <- (status_writes_detection_events (trace _)).
  set (fil := md5_to_hex (MD5Final (ctx s)).1) in *.
  destruct (detect_rom_settings_in_dbs_off env fil st Hoff) as (Hs & _ & Hw).
  rewrite (detect_from_first_chunk_off _ _ _ _ st Hoff) in Hcase.
  destruct (rom_found_in_db s);
    [|destruct (result (detect_rom_settings_in_dbs env fil st))];
    destruct Hcase as (-> & -> & ->); rewrite ?status_writes_app, ?Hw; done.
Qed.

(** X23. With auto-detect off an ingestion writes no status field and
    shows no notice, whatever the file, the databases and the header
    hold: records that are found are reported and not applied, and the
    heuristic stops at once. *)
Theorem auto_detect_off_writes_nothing (env : Env) (buf0 : list byte)
  (name : string) (index : Z) (st : gmap string Z) :
  auto_detect_on st = false ->
  let run := n64_rom_tx env buf0 name index st in
  status_writes (trace run) = []
  /\ final_status run = st
  /\ notices (trace run) = [].
Proof.
  intros Hoff run.
  assert (silent run st) as (? & ? & ?); [|done].
  subst run. unfold n64_rom_tx.
  destruct (rom_files env name) as [contents|]; [|by repeat split].
  cbv zeta. silent_steps; [by apply rom_tx_loop_off|by apply finish_rom_tx_off].
Qed.

(** X24. Every status write of an ingestion goes to one of the seven
    settings fields and carries a value the field can hold; the status
    register the ingestion leaves is the one it found with those writes
    applied in order, so every other field, the auto-detect flag first of
    all, keeps its value. *)
Theorem ingestion_writes_settings_fields_only (env : Env) (buf0 : list byte)
  (name : string) (index : Z) (st : gmap string Z) :
  let run := n64_rom_tx env buf0 name index st in
  Forall write_fits (status_writes (trace run))
  /\ final_status run = apply_writes (status_writes (trace run)) st
  /\ (forall field, field_width field = None ->
                    final_status run !! field = st !! field)
  /\ auto_detect_on (final_status run) = auto_detect_on st.
Proof.
  intros run. destruct (tracked_n64_rom_tx env buf0 name index st) as [Hs Hf].
  fold run in Hs, Hf. apply event_fits_writes in Hf.
  assert (forall field, field_width field = None ->
                        final_status run !! field = st !! field) as Hother.
  { intros field Hw. rewrite Hs. by apply apply_writes_other_field. }
  repeat split; try done.
  unfold auto_detect_on, status_read. by rewrite Hother.
Qed.

(** X25. The value [n64_rom_tx] returns: 0 when the file cannot be
    opened and when it has 1 to 4095 bytes, 1 in every other case, an
    empty file included; neither the contents of the file nor the outcome
    of the detection has a part in it. *)
Theorem n64_rom_tx_return_value (env : Env) (buf0 : list byte)
  (name : string) (index : Z) (st : gmap string Z) :
  result (n64_rom_tx env buf0 name index st)
  = match rom_files env name with
    | None => 0
    | Some contents =>
        if (0 <? length contents)%nat && (length contents <? BUF_SIZE)%nat
        then 0 else 1
    end.
Proof.
  destruct (rom_files env name) as [contents|] eqn:Hfile;
    [|unfold n64_rom_tx; by rewrite Hfile].
  destruct (Nat.ltb_spec 0 (length contents)) as [Hpos|Hzero];
    [destruct (Nat.ltb_spec (length contents) BUF_SIZE) as [Hlt|Hge]|];
    cbn [andb].
  - by rewrite (n64_rom_tx_short env buf0 name index contents st Hfile).
  - by destruct (n64_rom_tx_accepted env buf0 name index contents st Hfile Hge)
      as (? & ? & _ & _ & _ & _ & _ & _ & _ & ? & _).
  - rewrite (n64_rom_tx_unfold env buf0 name index contents st Hfile). cbn zeta.
    assert (length contents = 0%nat) as -> by lia. cbn [rom_tx_loop].
    cbn [ret result final_status fst snd].
    by destruct (finish_rom_tx_run env name (initial_state contents buf0) st)
      as (? & _).
Qed.

(** X26. An ingestion that reaches the heuristic with auto-detect on, a
    checksum of the CIC table and a cartridge identifier outside the
    identifier table publishes the system type and the CIC and nothing
    else: the five fields of the peripherals and the save type keep the
    values they had, and the notice shown is the one for an unknown
    cartridge identifier. *)
Theorem unknown_cart_id_writes_cic_only (env : Env) (buf0 : list byte)
  (name : string) (index : Z) (contents : list byte) (st : gmap string Z)
  (c : CIC.t) (sys : SystemType.t) :
  rom_files env name = Some contents ->
  (BUF_SIZE <= length contents)%nat ->
  auto_detect_on st = true ->
  let run := n64_rom_tx env buf0 name index st in
  let chunk0 := hd [] (tx_data (trace run)) in
  result (detect_rom_settings_in_dbs env (header_md5 (trace run)) st) = false ->
  result (detect_rom_settings_in_dbs env (file_md5 (trace run)) st) = false ->
  cic_switch (header_crc chunk0) (region_system_type (header_region_code chunk0))
  = Some (c, sys) ->
  switch_fnv cart_cases (fnv_hash (header_cart_id chunk0)) = None ->
  status_writes (trace run) = cic_writes sys c
  /\ notices (trace run) = [NoticeUnknownCartID]
  /\ result run = 1.
Proof.
  intros Hfile Hlen Hon run chunk0 Hmiss1 Hmiss2 Hcic Hid.
  destruct (n64_rom_tx_accepted env buf0 name index contents st Hfile Hlen)
    as (c0 & later & _ & _ & Htx & _ & _ & _ & _ & Hres & Hcase).
  fold run in Htx, Hcase, Hres. cbn zeta in Hcase.
  assert (chunk0 = c0) as <- by (unfold chunk0; by rewrite Htx).
  rewrite Hmiss1, Hmiss2 in Hcase.
  pose proof (detect_from_first_chunk_known_cic (header_cart_id chunk0)
                (header_region_code chunk0) (header_revision chunk0)
                (header_crc chunk0) st c sys Hon Hcic) as Hheur.
  cbn zeta in Hheur. rewrite Hid in Hheur. destruct Hheur as [Hr Hw].
  destruct Hcase as (Hd & _ & Hn). rewrite Hr in Hn.
  destruct (detect_rom_settings_in_dbs_run env (header_md5 (trace run)) st)
    as [_ Hq1].
  destruct (detect_rom_settings_in_dbs_run env (file_md5 (trace run)) st)
    as [_ Hq2].
  destruct (Hq1 Hmiss1) as (_ & _ & Hw1). destruct (Hq2 Hmiss2) as (_ & _ & Hw2).
  rewrite <- (status_writes_detection_events (trace run)), Hd.
  rewrite !status_writes_app, Hw1, Hw2, Hw.
  split; [reflexivity|]. split; [exact Hn|exact Hres].
Qed.

End SilentIngestion.
(* ===================================================================== *)
(** * The records of a database file *)
(* ===================================================================== *)

Lemma scan_db_lines_skip (lookup_hash line : string) (lines : list string)
  (st : gmap string Z) :
  passed_over lookup_hash line = true ->
  let r := scan_db_lines lookup_hash (line :: lines) st in
  let r' := scan_db_lines lookup_hash lines st in
  result r = result r' /\ final_status r = final_status r'
  /\ status_writes (trace r) = status_writes (trace r').
Proof.
  unfold passed_over. cbn zeta. cbn [scan_db_lines].
  destruct (strncmp_eq 32 lookup_hash line); cbn [negb orb]; [|done].
  destruct (sscanf_tags line); [done|]. intros _. by run_simpl.
Qed.

Lemma scan_db_lines_record (lookup_hash line tags : string) (lines : list string)
  (st : gmap string Z) :
  strncmp_eq 32 lookup_hash line = true -> sscanf_tags line = Some tags ->
  let r := scan_db_lines lookup_hash (line :: lines) st in
  result r = true
  /\ status_writes (trace r)
     = (if auto_detect_on st then settings_writes (record_settings tags) else []).
Proof.
  intros Hcmp Htags. cbn zeta. cbn [scan_db_lines]. rewrite Hcmp, Htags.
  cbn [negb]. run_simpl.
  destruct (apply_tags_quiet (strtok_all "|" tags) db_defaults st) as (Hs & _ & Hw).
  rewrite Hs, apply_tags_result. fold (record_settings tags).
  destruct (commit_db_settings_run (record_settings tags) st) as (_ & Hc & _).
  split; [done|]. cbn [status_writes]. by rewrite !status_writes_app, Hw, Hc, app_nil_r.
Qed.

(** X27. In a database file the first record for the hash decides. Lines
    whose first 32 characters differ from the hash, and lines for the
    hash that have no tag field, are passed over; the first line for the
    hash with a tag field ends the search, whatever follows it.  When
    that tag field fits [char tags[128]] with its terminator, that is
    when it has at most 127 characters, the lookup returns true; with
    auto-detect on the settings of the record are published in seven
    writes, with auto-detect off nothing is written. *)
Theorem first_record_decides (env : Env) (lookup_hash db_file_name : string)
  (skipped : list string) (line tags : string) (rest : list string)
  (st : gmap string Z) :
  db_files env db_file_name = Some (skipped ++ line :: rest) ->
  forallb (passed_over lookup_hash) skipped = true ->
  strncmp_eq 32 lookup_hash line = true ->
  sscanf_tags line = Some tags ->
  tags_fit tags = true ->
  let r := detect_rom_settings_in_db env lookup_hash db_file_name st in
  result r = true
  /\ status_writes (trace r)
     = (if auto_detect_on st then settings_writes (record_settings tags) else [])
  /\ final_status r = apply_writes (status_writes (trace r)) st.
Proof.
  intros Hdb Hskip Hcmp Htags _ r.
  destruct (tracked_detect_rom_settings_in_db env lookup_hash db_file_name st)
    as [Hs _]. fold r in Hs.
  assert (let r' := scan_db_lines lookup_hash (skipped ++ line :: rest) st in
          result r' = true
          /\ status_writes (trace r')
             = (if auto_detect_on st then settings_writes (record_settings tags)
                else [])) as [Hr Hw].
  { clear Hs Hdb. induction skipped as [|l skipped IH];
      [by apply (scan_db_lines_record lookup_hash line tags rest st)|].
    cbn [forallb] in Hskip. apply andb_prop in Hskip as [Hl Hskip].
    destruct (scan_db_lines_skip lookup_hash l (skipped ++ line :: rest) st Hl)
      as (Hr & _ & Hw).
    cbn zeta. cbn [app]. rewrite Hr, Hw. by apply IH. }
  split; [|split; [|done]]; subst r; unfold detect_rom_settings_in_db;
    rewrite Hdb; run_simpl; done.
Qed.

(** X28. The main database has priority over the user database: when
    N64-database.txt holds a record for the hash, the lookup is the
    lookup in that file alone and N64-database_user.txt is not opened;
    when it holds none, the status register is untouched and the lookup
    goes on in the user file, whose outcome is the outcome of the
    lookup. *)
Theorem main_database_has_priority (env : Env) (lookup_hash : string)
  (st : gmap string Z) :
  let main := detect_rom_settings_in_db env lookup_hash "N64-database.txt" st in
  let user := detect_rom_settings_in_db env lookup_hash "N64-database_user.txt" st in
  let r := detect_rom_settings_in_dbs env lookup_hash st in
  if result main then r = main
  else result r = result user
       /\ final_status r = final_status user
       /\ trace r = trace main ++ trace user
       /\ status_writes (trace main) = [].
Proof.
  cbn zeta. unfold detect_rom_settings_in_dbs, DB_FILE_NAMES.
  cbn [detect_rom_settings_in_db_list].
  destruct (detect_rom_settings_in_db_run env lookup_hash "N64-database.txt" st)
    as [_ Hq].
  set (main := detect_rom_settings_in_db env lookup_hash "N64-database.txt" st) in *.
  destruct (result main) eqn:Hmain.
  - transitivity ((result main, final_status main), trace main);
      [|symmetry; apply run_eta].
    rewrite (run_eta (bind _ _ _)). run_simpl. fold main. rewrite Hmain.
    run_simpl. by rewrite app_nil_r.
  - destruct (Hq eq_refl) as (Hs & _ & Hw). run_simpl. fold main.
    rewrite Hmain, Hs. run_simpl.
    destruct (result (detect_rom_settings_in_db env lookup_hash
                        "N64-database_user.txt" st));
      run_simpl; by rewrite ?app_nil_r.
Qed.
(* ===================================================================== *)
(** * The calls around the stream *)
(* ===================================================================== *)

Lemma control_events_app (t1 t2 : list Event) :
  control_events (t1 ++ t2) = control_events t1 ++ control_events t2.
Proof.
  induction t1 as [|e t1 IH]; [done|]. cbn.
  destruct (is_control_event e); cbn; by rewrite IH.
Qed.

Lemma progress_reports_app (t1 t2 : list Event) :
  progress_reports (t1 ++ t2) = progress_reports t1 ++ progress_reports t2.
Proof.
  induction t1 as [|e t1 IH]; [done|]. destruct e; cbn; by rewrite ?IH.
Qed.

Lemma detection_only_control (tr : list Event) :
  detection_only tr -> control_events tr = [] /\ progress_reports tr = [].
Proof.
  induction 1 as [|e tr He _ [I1 I2]]; [done|].
  destruct e as [| | | | | | | | | | | | |d]; try discriminate; done.
Qed.

Lemma stream_only_control (tr : list Event) :
  stream_only tr -> control_events tr = map EvFileTxData (tx_data tr).
Proof.
  induction 1 as [|e tr He _ IH]; [done|].
  destruct e; try discriminate; cbn; by rewrite ?IH.
Qed.

(** Splits the control events, the notices and the progress reports of a
    trace along [++] and evaluates them on the explicit parts. *)
Ltac ctl_simpl :=
  repeat (rewrite ?control_events_app, ?progress_reports_app, ?notices_app,
            ?tx_data_app, ?read_sizes_app;
          cbn [control_events progress_reports notices tx_data read_sizes
                 is_control_event app map]).

Section Bracket.
Context {H : Hasher}.

Lemma finish_rom_tx_control (env : Env) (name : string) (s : LoopState)
  (st : gmap string Z) :
  let r := finish_rom_tx env name s st in
  control_events (trace r) = epilogue name ++ map EvInfo (notices (trace r))
  /\ progress_reports (trace r) = [].
Proof.
  cbn zeta. unfold finish_rom_tx, epilogue.
  destruct (MD5Final (ctx s)) as [md5 c']. set (fil := md5_to_hex md5).
  destruct (rom_found_in_db s); cbn [negb].
  { run_simpl. by ctl_simpl. }
  destruct (detect_rom_settings_in_dbs_run env fil st) as [Hd Hq].
  destruct (detection_only_projections _ Hd) as (_ & _ & Fn & _).
  destruct (detection_only_control _ Hd) as [Fc Fp].
  run_simpl.
  destruct (result (detect_rom_settings_in_dbs env fil st)) eqn:Hres;
    cbn [negb]; run_simpl.
  { ctl_simpl. by rewrite Fn, Fc, Fp. }
  destruct (Hq eq_refl) as (Hst & _). rewrite Hst.
  pose proof (detect_from_first_chunk_detection_only
                (cart_id s) (region_code s) (revision s) (ipl3_crc s) st) as Hd'.
  destruct (detection_only_projections _ Hd') as (_ & _ & Fn' & _).
  destruct (detection_only_control _ Hd') as [Fc' Fp'].
  destruct (result (detect_rom_settings_from_first_chunk _ _ _ _ st) =? 1);
    run_simpl;
    [|destruct (result (detect_rom_settings_from_first_chunk _ _ _ _ st) =? 2);
      run_simpl];
    ctl_simpl; by rewrite Fn, Fc, Fp, Fn', Fc', Fp'.
Qed.

(** X29. The calls that drive a transfer come in one fixed order, for
    an empty source and for every source of at least 4096 bytes: the
    target index, the start of the transfer, the progress reset and the
    save-state processing; then the payloads, one call each; then the
    close of the file, the mount of the save file, the end of the
    transfer and the progress reset; and after those the notice, when
    one is shown.  The transfer is opened once and closed once, and no
    payload is sent outside of it. *)
Theorem transfer_is_bracketed (env : Env) (buf0 : list byte)
  (name : string) (index : Z) (contents : list byte) (st : gmap string Z) :
  rom_files env name = Some contents ->
  (length contents = 0 \/ BUF_SIZE <= length contents)%nat ->
  let run := n64_rom_tx env buf0 name index st in
  control_events (trace run)
  = [EvSetIndex index; EvSetDownload true; EvProgressClear; EvProcessSS name]
    ++ map EvFileTxData (tx_data (trace run))
    ++ epilogue name
    ++ map EvInfo (notices (trace run)).
Proof.
  intros Hfile Hlen run. pose proof BUF_SIZE_val as HB. subst run.
  rewrite (n64_rom_tx_unfold env buf0 name index contents st Hfile). cbn zeta.
  destruct (decide (length contents = 0%nat)) as [Hz|Hnz].
  - rewrite Hz. cbn [rom_tx_loop ret result final_status trace fst snd].
    destruct (finish_rom_tx_control env name (initial_state contents buf0) st)
      as [Fc _].
    destruct (finish_rom_tx_run env name (initial_state contents buf0) st)
      as (_ & _ & _ & Ftx & _).
    unfold prologue. ctl_simpl. by rewrite Fc, Ftx.
  - destruct (rom_tx_loop_first (length contents) env (length contents)
                (initial_state contents buf0) st)
      as (chunk0 & _ & _ & s' & later & Hr & _ & Hst & Htr & Hso & _);
      cbn [initial_state is_first_chunk bytes2send unread]; [done|lia|done|done|].
    rewrite Hr, Htr. cbn [trace snd].
    destruct (finish_rom_tx_control env name s'
                (final_status (rom_tx_loop (length contents) env
                                 (length contents) (initial_state contents buf0) st)))
      as [Fc _].
    destruct (finish_rom_tx_run env name s'
                (final_status (rom_tx_loop (length contents) env
                                 (length contents) (initial_state contents buf0) st)))
      as (_ & _ & _ & Ftx & _).
    destruct (detect_rom_settings_in_dbs_run env
                (header_key (ctx (initial_state contents buf0)) chunk0) st)
      as [Hd _].
    destruct (detection_only_projections _ Hd) as (Ht & _ & Hn & _).
    destruct (detection_only_control _ Hd) as [Hc _].
    destruct (stream_only_projections _ Hso) as (_ & _ & Sn & _).
    unfold prologue, first_events. ctl_simpl.
    rewrite Fc, Ftx, Ht, Hn, Hc, Sn, (stream_only_control _ Hso).
    destruct (result (detect_rom_settings_in_dbs env _ st)); ctl_simpl;
      by rewrite ?app_nil_r.
Qed.

End Bracket.
(* ===================================================================== *)
(** * The progress reports *)
(* ===================================================================== *)

Lemma running_offsets_full (start q : nat) (tail : list nat) :
  running_offsets start (repeat BUF_SIZE q ++ tail)
  = map (fun k => (start + k * BUF_SIZE)%nat) (seq 0 q)
    ++ running_offsets (start + q * BUF_SIZE) tail.
Proof.
  revert start. induction q as [|q IH]; intros start.
  - cbn. by rewrite Nat.add_0_r.
  - cbn [repeat app running_offsets seq map]. rewrite IH, <- seq_shift, map_map.
    f_equal; [f_equal; lia|]. f_equal; [|f_equal; lia].
    apply map_ext. intros k. lia.
Qed.

(** The offsets of the chunks of a source: the multiples of the buffer
    size, all of them below the size of the source. *)
Lemma running_offsets_chunk_lengths (size : nat) :
  running_offsets 0 (chunk_lengths size)
  = map (fun k => (k * BUF_SIZE)%nat) (seq 0 (length (chunk_lengths size)))
  /\ Forall (fun k => (k * BUF_SIZE < size)%nat)
       (seq 0 (length (chunk_lengths size))).
Proof.
  pose proof BUF_SIZE_val as HB. unfold chunk_lengths.
  rewrite running_offsets_full, length_app, repeat_length.
  pose proof (Nat.div_mod_eq size BUF_SIZE) as Hdm.
  assert (size mod BUF_SIZE < BUF_SIZE)%nat as Hmod
    by (apply Nat.mod_upper_bound; lia).
  set (q := (size / BUF_SIZE)%nat) in *. set (r := (size mod BUF_SIZE)%nat) in *.
  assert (forall k, (k <= q)%nat -> (k * BUF_SIZE <= q * BUF_SIZE)%nat) as Hmono
    by (intros; by apply Nat.mul_le_mono_r).
  destruct (Nat.eqb_spec r 0) as [Hr|Hr]; cbn [length running_offsets].
  - rewrite Nat.add_0_r, app_nil_r. split; [done|].
    apply List.Forall_forall. intros k Hk%in_seq.
    assert (S k * BUF_SIZE <= q * BUF_SIZE)%nat as Hle by (apply Hmono; lia).
    lia.
  - split; [by rewrite seq_app, map_app|].
    apply List.Forall_forall. intros k Hk%in_seq.
    assert (k * BUF_SIZE <= q * BUF_SIZE)%nat as Hle by (apply Hmono; lia).
    lia.
Qed.

Section Progress.
Context {H : Hasher}.

Lemma first_chunk_detection_stream (env : Env) (s : LoopState)
  (st : gmap string Z) :
  let r := first_chunk_detection env s st in
  read_sizes (trace r) = [] /\ progress_reports (trace r) = []
  /\ bytes2send (result r) = bytes2send s.
Proof.
  cbn zeta. unfold first_chunk_detection.
  destruct (MD5Final (ctx s)) as [md5 ctx_header].
  destruct (detect_rom_settings_in_dbs_run env (md5_to_hex md5) st) as [Hd _].
  destruct (detection_only_projections _ Hd) as (_ & Hr & _).
  destruct (detection_only_control _ Hd) as [_ Hp].
  run_simpl.
  destruct (result (detect_rom_settings_in_dbs env (md5_to_hex md5) st));
    cbn [negb]; run_simpl; ctl_simpl; by rewrite Hr, Hp.
Qed.

(** One iteration: one read; and when the iteration is completed, one
    report, of the bytes sent before it. *)
Lemma loop_body_progress (env : Env) (size : nat)
  (s : LoopState) (st : gmap string Z) :
  let r := loop_body env size s st in
  read_sizes (trace r) = [next_chunk (bytes2send s)]
  /\ match result r with
     | None => True
     | Some s' =>
         progress_reports (trace r) = [((size - bytes2send s)%nat, size)]
         /\ bytes2send s' = (bytes2send s - next_chunk (bytes2send s))%nat
     end.
Proof.
  cbn zeta. unfold loop_body. fold (next_chunk (bytes2send s)). cbv zeta.
  destruct (is_first_chunk s && _); [by run_simpl|].
  destruct (is_first_chunk s); run_simpl.
  - match goal with
    | |- context [first_chunk_detection env ?s1 st] =>
        destruct (first_chunk_detection_stream env s1 st) as (Hr & Hp & Hb)
    end.
    cbn [bytes2send] in Hb. ctl_simpl. by rewrite Hr, Hp, Hb.
  - by ctl_simpl.
Qed.

Lemma rom_tx_loop_progress (fuel : nat) (env : Env) (size : nat)
  (s : LoopState) (st : gmap string Z) :
  (bytes2send s <= fuel)%nat -> (bytes2send s <= size)%nat ->
  let r := rom_tx_loop fuel env size s st in
  result r <> None ->
  progress_reports (trace r)
  = map (fun sent => (sent, size))
      (running_offsets (size - bytes2send s) (read_sizes (trace r))).
Proof.
  revert s st. induction fuel as [|fuel IH]; intros s st Hfuel Hsize r Hres.
  - done.
  - subst r. destruct (decide (bytes2send s = 0%nat)) as [Hz|Hnz].
    { by rewrite rom_tx_loop_done. }
    revert Hres. rewrite rom_tx_loop_unfold by done. run_simpl.
    destruct (loop_body_progress env size s st) as [Hr Hp].
    destruct (next_chunk_bounds (bytes2send s)) as (_ & Hc2 & Hc3).
    specialize (Hc3 Hnz).
    destruct (result (loop_body env size s st)) as [s1|]; [|done].
    destruct Hp as [Hp Hb]. intros Hres. ctl_simpl.
    rewrite Hr, Hp. cbn [app running_offsets map]. f_equal.
    rewrite IH by (done || lia). do 2 f_equal. lia.
Qed.

(** X30. For every source of at least 4096 and at most [INT_MAX] bytes
    (the range in which [int size] holds the size of the file) there is
    one progress report per chunk, sent after the chunk was forwarded and
    carrying the number of bytes forwarded before it: 0, 4096, 8192 and
    so on.  Every report is below the size of the source: the display is
    never told that all bytes were sent. *)
Theorem progress_reports_stop_short (env : Env) (buf0 : list byte)
  (name : string) (index : Z) (contents : list byte) (st : gmap string Z) :
  rom_files env name = Some contents ->
  (BUF_SIZE <= length contents)%nat ->
  Z.of_nat (length contents) <= INT_MAX ->
  let run := n64_rom_tx env buf0 name index st in
  let size := length contents in
  progress_reports (trace run)
  = map (fun k => ((k * BUF_SIZE)%nat, size))
      (seq 0 (length (read_sizes (trace run))))
  /\ Forall (fun report => (report.1 < report.2)%nat)
       (progress_reports (trace run)).
Proof.
  intros Hfile Hlen _ run size. subst size.
  destruct (n64_rom_tx_accepted env buf0 name index contents st Hfile Hlen)
    as (_ & _ & _ & _ & _ & Hrs & _). fold run in Hrs.
  destruct (running_offsets_chunk_lengths (length contents)) as [Hoff Hbelow].
  assert (progress_reports (trace run)
          = map (fun sent => (sent, length contents))
              (running_offsets 0 (read_sizes (trace run)))) as Hp.
  { subst run. clear Hrs.
    rewrite (n64_rom_tx_unfold env buf0 name index contents st Hfile). cbn zeta.
    pose proof (rom_tx_loop_progress (length contents) env (length contents)
                  (initial_state contents buf0) st) as Hloop.
    cbn [initial_state bytes2send] in Hloop. cbn zeta in Hloop.
    fold (initial_state contents buf0) in Hloop.
    rewrite Nat.sub_diag in Hloop.
    destruct (result (rom_tx_loop _ _ _ _ _)) as [s'|] eqn:Hr.
    - destruct (finish_rom_tx_control env name s'
                  (final_status (rom_tx_loop (length contents) env
                                   (length contents)
                                   (initial_state contents buf0) st)))
        as [_ Fp].
      destruct (finish_rom_tx_run env name s'
                  (final_status (rom_tx_loop (length contents) env
                                   (length contents)
                                   (initial_state contents buf0) st)))
        as (_ & _ & _ & _ & Frs & _).
      cbn [trace snd]. unfold prologue. ctl_simpl.
      rewrite Fp, Frs, !app_nil_r. by apply Hloop.
    - destruct (rom_tx_loop_first (length contents) env (length contents)
                  (initial_state contents buf0) st)
        as (? & _ & _ & ? & ? & Hr' & _);
        cbn [initial_state is_first_chunk bytes2send unread]; try done.
      by rewrite Hr in Hr'. }
  rewrite Hp, Hrs, Hoff, map_map. split; [done|].
  apply Forall_map. cbn [fst snd]. apply Hbelow.
Qed.

End Progress.
(* ===================================================================== *)
(** * Two dumps of one image *)
(* ===================================================================== *)

Lemma concat_inj_lengths {A : Type} (l1 l2 : list (list A)) :
  map length l1 = map length l2 -> concat l1 = concat l2 -> l1 = l2.
Proof.
  revert l2. induction l1 as [|a l1 IH]; intros [|b l2] Hlen Hcat;
    try discriminate; [done|].
  cbn [map concat] in *. injection Hlen as Hab Hlen.
  destruct (app_inj_1 _ _ _ _ Hab Hcat) as [-> Hrest].
  f_equal. by apply IH.
Qed.

Section Formats.
Context {H : Hasher}.

(** X12. The detection does not depend on the byte order of the dump.
    Two accepted sources of whole groups that are the same image once
    normalised, such as a little-endian and a big-endian dump of one
    cartridge, are forwarded as the same payloads, are looked up under
    the same digests, and come out with the same detection events, the
    same status register and the same notice. *)
Theorem detection_is_format_independent (env : Env) (buf1 buf2 : list byte)
  (name1 name2 : string) (index1 index2 : Z) (dump1 dump2 : list byte)
  (st : gmap string Z) :
  rom_files env name1 = Some dump1 ->
  rom_files env name2 = Some dump2 ->
  (BUF_SIZE <= length dump1)%nat ->
  (length dump1 mod granularity (detectRomFormat dump1) = 0)%nat ->
  (length dump2 mod granularity (detectRomFormat dump2) = 0)%nat ->
  normalize_chunk (detectRomFormat dump1) dump1
  = normalize_chunk (detectRomFormat dump2) dump2 ->
  let run1 := n64_rom_tx env buf1 name1 index1 st in
  let run2 := n64_rom_tx env buf2 name2 index2 st in
  tx_data (trace run1) = tx_data (trace run2)
  /\ header_md5_printed (trace run1) = header_md5_printed (trace run2)
  /\ file_md5_printed (trace run1) = file_md5_printed (trace run2)
  /\ detection_events (trace run1) = detection_events (trace run2)
  /\ final_status run1 = final_status run2
  /\ notices (trace run1) = notices (trace run2).
Proof.
  intros Hf1 Hf2 Hlen1 Hg1 Hg2 Hsame run1 run2.
  destruct (normalize_chunk_whole_groups _ dump1 Hg1) as (o1 & Ho1 & Hl1).
  destruct (normalize_chunk_whole_groups _ dump2 Hg2) as (o2 & Ho2 & Hl2).
  assert (o1 = o2) as <- by congruence.
  assert (length dump2 = length dump1) as Hlen by congruence.
  assert (BUF_SIZE <= length dump2)%nat as Hlen2 by lia.
  destruct (n64_rom_tx_payload env buf1 name1 index1 dump1 st Hf1 Hlen1 Hg1)
    as (p1 & Hp1 & Hc1).
  destruct (n64_rom_tx_payload env buf2 name2 index2 dump2 st Hf2 Hlen2 Hg2)
    as (p2 & Hp2 & Hc2).
  fold run1 in Hc1. fold run2 in Hc2.
  destruct (n64_rom_tx_accepted env buf1 name1 index1 dump1 st Hf1 Hlen1)
    as (c1 & later1 & _ & _ & Htx1 & _ & Hml1 & Hh1 & Hfl1 & _ & Hcase1).
  destruct (n64_rom_tx_accepted env buf2 name2 index2 dump2 st Hf2 Hlen2)
    as (c2 & later2 & _ & _ & Htx2 & _ & Hml2 & Hh2 & Hfl2 & _ & Hcase2).
  fold run1 in Htx1, Hml1, Hh1, Hfl1, Hcase1.
  fold run2 in Htx2, Hml2, Hh2, Hfl2, Hcase2.
  assert (tx_data (trace run1) = tx_data (trace run2)) as Htx.
  { apply concat_inj_lengths; [by rewrite Hml1, Hml2, Hlen|congruence]. }
  assert (c1 = c2) as <- by congruence.
  assert (header_md5 (trace run1) = header_md5 (trace run2)) as Hhdr
    by (unfold header_md5; by rewrite Htx).
  assert (file_md5 (trace run1) = file_md5 (trace run2)) as Hfil
    by (unfold file_md5; by rewrite Htx).
  cbn zeta in Hcase1, Hcase2. rewrite Hhdr, Hfil in Hcase1.
  split; [done|]. split; [by rewrite Hh1, Hh2, Hhdr|].
  split; [by rewrite Hfl1, Hfl2, Hfil|].
  destruct (result (detect_rom_settings_in_dbs env (header_md5 (trace run2)) st));
    [|destruct (result (detect_rom_settings_in_dbs env (file_md5 (trace run2)) st))];
    destruct Hcase1 as (-> & -> & ->), Hcase2 as (-> & -> & ->);
    repeat split; reflexivity.
Qed.

End Formats.

(* ===================================================================== *)
(** * Concrete ingestions *)
(* ===================================================================== *)

(** The runs below hash with MD5. *)
#[local] Existing Instance md5_hasher.

(** [md5_hasher] on the first test strings of RFC 1321: the empty string,
    a, abc. *)
Example md5_hasher_test_suite :
  md5_to_hex (stream_digest []) = "d41d8cd98f00b204e9800998ecf8427e"
  /\ md5_to_hex (stream_digest [[x61]]) = "0cc175b9c0f1b6a831c399e269772661"
  /\ md5_to_hex (stream_digest [[x61]; [x62; x63]])
     = "900150983cd24fb0d6963f7d28e17f72".
Proof. vm_compute. repeat split. Qed.

Lemma resolution_in_priority_order_witness :
  let run := n64_rom_tx (H := md5_hasher) env_header_hit [] "rom" 0 ∅ in
  let by_header :=
    detect_rom_settings_in_dbs env_header_hit (header_md5 (trace run)) ∅ in
  result by_header = true
  /\ detection_events (trace run) = trace by_header
  /\ status_writes (trace run) = status_writes (trace by_header)
  /\ final_status run = final_status by_header.
Proof.
  cbv zeta.
  destruct (resolution_in_priority_order (H := md5_hasher) env_header_hit []
              "rom" 0 rom_be ∅) as (Hhit & _ & _);
    [reflexivity|vm_compute; lia|].
  split; [vm_compute; reflexivity|].
  apply Hhit. vm_compute; reflexivity.
Defined.

Lemma snapshot_leaves_stream_digest_witness :
  let run := n64_rom_tx (H := md5_hasher) env_header_hit [] "rom" 0 ∅ in
  let chunks := tx_data (trace run) in
  exists chunk0 later,
    chunks = chunk0 :: later
    /\ header_md5_printed (trace run)
       = [md5_to_hex (stream_digest (H := md5_hasher) [chunk0])]
    /\ file_md5_printed (trace run)
       = [md5_to_hex (stream_digest (H := md5_hasher) chunks)].
Proof.
  apply (snapshot_leaves_stream_digest (H := md5_hasher) env_header_hit []
           "rom" 0 rom_be ∅); [reflexivity|vm_compute; lia].
Defined.

(** C3 as stated fails here: with auto-detect off, both lookups
    miss and the checksum is outside the table, yet the heuristic returns
    0 and no notice is shown. *)
Lemma unknown_cic_silent_when_auto_detect_off :
  let st := status_auto_detect_off in
  let env := env_no_db rom_be in
  let run := n64_rom_tx (H := md5_hasher) env [] "rom" 0 st in
  let chunk0 := hd [] (tx_data (trace run)) in
  result (detect_rom_settings_in_dbs env (header_md5 (trace run)) st) = false
  /\ result (detect_rom_settings_in_dbs env (file_md5 (trace run)) st) = false
  /\ cic_switch (header_crc chunk0)
       (region_system_type (header_region_code chunk0)) = None
  /\ result (detect_rom_settings_from_first_chunk
               (header_cart_id chunk0) (header_region_code chunk0)
               (header_revision chunk0) (header_crc chunk0) st) = 0
  /\ notices (trace run) = [].
Proof. vm_compute. repeat split. Qed.

Lemma unknown_cic_when_auto_detect_on_witness :
  let env := env_no_db rom_be in
  let run := n64_rom_tx (H := md5_hasher) env [] "rom" 0 ∅ in
  let chunk0 := hd [] (tx_data (trace run)) in
  (forall id revision,
     detect_rom_settings_from_first_chunk
       id (header_region_code chunk0) revision (header_crc chunk0) ∅
     = ((1, ∅), [EvStatusGet "[64]"]))
  /\ status_writes (trace run) = []
  /\ final_status run = ∅
  /\ notices (trace run) = [NoticeUnknownCIC].
Proof.
  apply (unknown_cic_when_auto_detect_on (H := md5_hasher) (env_no_db rom_be) []
           "rom" 0 rom_be ∅);
    [reflexivity|vm_compute; lia|vm_compute; reflexivity..].
Defined.

(** C4 as stated fails here: the return value is not a function of
    the four arguments alone. *)
Lemma heuristic_reads_auto_detect_flag :
  ~ (forall (id : string) (region_code : ascii) (revision crc : Z)
       (st1 st2 : gmap string Z),
       result (detect_rom_settings_from_first_chunk id region_code revision crc st1)
       = result (detect_rom_settings_from_first_chunk id region_code revision crc st2)).
Proof.
  intros Hpure.
  specialize (Hpure "NZL" "E"%char 0 0 ∅ status_auto_detect_off).
  vm_compute in Hpure. discriminate Hpure.
Qed.

Lemma heuristic_determined_by_inputs_and_flag_witness :
  let st1 : gmap string Z := ∅ in
  let st2 : gmap string Z := <["[71]" := 1]> ∅ in
  let r1 := detect_rom_settings_from_first_chunk "NSM" "J" 3 0x000000a316adc55a st1 in
  let r2 := detect_rom_settings_from_first_chunk "NSM" "J" 3 0x000000a316adc55a st2 in
  auto_detect_on st1 = auto_detect_on st2
  /\ result r1 = result r2
  /\ trace r1 = trace r2
  /\ status_writes (trace r1) = status_writes (trace r2).
Proof.
  cbv zeta. split; [vm_compute; reflexivity|].
  apply (heuristic_determined_by_inputs_and_flag "NSM" "J" 3 0x000000a316adc55a
           ∅ (<["[71]" := 1]> ∅)).
  vm_compute; reflexivity.
Defined.

(** C5 as stated fails here: for region code E the resolver does
    not publish PAL and CIC 7105. *)
Lemma heuristic_NZL_region_E_is_not_PAL :
  status_writes
    (trace (detect_rom_settings_from_first_chunk "NZL" "E" 0 0x000000f8b860ed00 ∅))
  <> settings_writes
       (mkSettings MemoryType.SRAM_32k SystemType.PAL CIC.CIC_NUS_7105
          false true false false).
Proof. vm_compute. intros Heq. discriminate Heq. Qed.

Lemma heuristic_NZL_6105_7105_witness :
  let crc := 0x000000f8b860ed00 in
  let ntsc := detect_rom_settings_from_first_chunk "NZL" "E" 0 crc ∅ in
  let pal := detect_rom_settings_from_first_chunk "NZL" "P" 0 crc ∅ in
  auto_detect_on ∅ = true
  /\ result ntsc = 0
  /\ status_writes (trace ntsc)
     = settings_writes
         (mkSettings MemoryType.SRAM_32k SystemType.NTSC CIC.CIC_NUS_6105
            false true false false)
  /\ result pal = 0
  /\ status_writes (trace pal)
     = settings_writes
         (mkSettings MemoryType.SRAM_32k SystemType.PAL CIC.CIC_NUS_7105
            false true false false).
Proof.
  cbv zeta. split; [reflexivity|].
  apply (heuristic_NZL_6105_7105 0 ∅). reflexivity.
Defined.

(** C6: a record with the DDUS token, in the letter case of the source
    or in lower case, is found, and its token is reported as unknown: the
    CIC published is the default 6102. *)
Lemma cicDDUS_tag_is_rejected :
  let upper := detect_rom_settings_in_dbs env_ddus
                 "00000000000000000000000000000001" ∅ in
  let lower := detect_rom_settings_in_dbs env_ddus
                 "00000000000000000000000000000002" ∅ in
  result upper = true
  /\ status_writes (trace upper)
     = settings_writes
         (mkSettings MemoryType.NONE SystemType.NTSC CIC.CIC_NUS_6102
            false true false false)
  /\ In (EvPrintf (DiagUnknownTag "cicddus")) (trace upper)
  /\ result lower = true
  /\ status_writes (trace lower) = settings_writes db_defaults
  /\ In (EvPrintf (DiagUnknownTag "cicddus")) (trace lower).
Proof. vm_compute. tauto. Qed.

(** C7 as stated fails here: when a source of 2048 bytes is
    rejected, the target index was selected, the start of the transfer
    was signalled and the save state was processed. *)
Lemma short_source_has_side_effects :
  let run := n64_rom_tx (H := md5_hasher) (env_no_db rom_2048) [] "rom" 0 ∅ in
  result run = 0
  /\ In (EvSetIndex 0) (trace run)
  /\ In (EvSetDownload true) (trace run)
  /\ In (EvProcessSS "rom") (trace run).
Proof. vm_compute. tauto. Qed.

Lemma short_source_aborts_witness :
  let run := n64_rom_tx (H := md5_hasher) (env_no_db rom_2048) [] "rom" 0 ∅ in
  result run = 0
  /\ trace run
     = [ EvPrintf (DiagFile "rom" (length rom_2048) 0);
         EvSetIndex 0; EvSetDownload true; EvProgressClear;
         EvProcessSS "rom"; EvFileReadAdv (length rom_2048);
         EvPrintf DiagTooShort ]
  /\ status_writes (trace run) = []
  /\ tx_data (trace run) = []
  /\ final_status run = ∅.
Proof.
  apply (short_source_aborts (H := md5_hasher) (env_no_db rom_2048) []
           "rom" 0 rom_2048 ∅); [reflexivity|vm_compute; lia].
Defined.

(** C9 as stated fails here: a source of 4098 bytes is accepted
    and its final chunk has 2 bytes.  A chunk of 2 bytes cannot be
    normalised as little-endian without an access past its length; in the
    buffer, the group reaches into bytes 2 and 3, left over from the
    first chunk, and it is those that are forwarded. *)
Lemma final_chunk_of_two_bytes :
  let run := n64_rom_tx (H := md5_hasher) (env_no_db rom_le_4098) [] "rom" 0 ∅ in
  read_sizes (trace run) = [4096%nat; 2%nat]
  /\ normalize_chunk RomFormat.LITTLE_ENDIAN [xaa; xbb] = None
  /\ last (tx_data (trace run)) = Some [x40; x12].
Proof. vm_compute. repeat split. Qed.

Lemma chunks_of_aligned_source_witness :
  let run := n64_rom_tx (H := md5_hasher) env_header_hit [] "rom" 0 ∅ in
  read_sizes (trace run) = chunk_lengths (length rom_be)
  /\ map length (tx_data (trace run)) = read_sizes (trace run)
  /\ Forall (fun chunk => (chunk mod 4 = 0)%nat) (read_sizes (trace run))
  /\ forall (format : RomFormat.t) (data : list byte),
       In (length data) (read_sizes (trace run)) ->
       exists out, normalize_chunk format data = Some out
                   /\ length out = length data.
Proof.
  apply (chunks_of_aligned_source (H := md5_hasher) env_header_hit []
           "rom" 0 rom_be ∅);
    [reflexivity|vm_compute; lia|vm_compute; reflexivity].
Defined.

Lemma heuristic_forced_system_type_witness :
  auto_detect_on ∅ = true
  /\ take 2 (status_writes
               (trace (detect_rom_settings_from_first_chunk
                         "NSM" "E" 0 0x000000a405397b05 ∅)))
     = cic_writes SystemType.PAL CIC.CIC_NUS_7102
  /\ take 2 (status_writes
               (trace (detect_rom_settings_from_first_chunk
                         "NSM" "P" 0 0x000000a0f26f62fe ∅)))
     = cic_writes SystemType.NTSC CIC.CIC_NUS_6101.
Proof.
  destruct heuristic_forced_system_type as (_ & _ & Hforced).
  assert (auto_detect_on (∅ : gmap string Z) = true) as Hon by reflexivity.
  destruct (Hforced "NSM" "E"%char 0 ∅ Hon) as [Hpal _].
  destruct (Hforced "NSM" "P"%char 0 ∅ Hon) as [_ Hntsc].
  split; [exact Hon|]. split; [exact Hpal|exact Hntsc].
Defined.

(** C1: the empty source with no database and auto-detect on.  The run
    takes no header digest; its detection events are those of the lookup
    by the digest of the empty stream, followed by those of the
    heuristic. *)
Lemma empty_source_skips_header_lookup_witness :
  let env := env_no_db [] in
  let run := n64_rom_tx (H := md5_hasher) env [] "rom" 0 ∅ in
  let key := md5_to_hex (stream_digest (H := md5_hasher) []) in
  let by_file := detect_rom_settings_in_dbs env key ∅ in
  let heuristic := detect_rom_settings_from_first_chunk EmptyString zero 0 0 ∅ in
  key = "d41d8cd98f00b204e9800998ecf8427e"
  /\ result run = 1
  /\ read_sizes (trace run) = []
  /\ header_md5_printed (trace run) = []
  /\ file_md5_printed (trace run) = [key]
  /\ detection_events (trace run)
     = trace by_file ++ (if result by_file then [] else trace heuristic)
  /\ final_status run
     = (if result by_file then final_status by_file else final_status heuristic).
Proof.
  split; [vm_compute; reflexivity|].
  apply (empty_source_skips_header_lookup (H := md5_hasher) (env_no_db []) []
           "rom" 0 ∅).
  reflexivity.
Defined.

(** X6. An empty source never enters the loop: it is not rejected, no header
    digest is taken, the database is asked for the digest of the empty
    stream, and the heuristic runs on the initial header fields. *)
Lemma empty_source_is_not_rejected :
  let run := n64_rom_tx (H := md5_hasher) (env_no_db []) [] "rom" 0 ∅ in
  result run = 1
  /\ read_sizes (trace run) = []
  /\ header_md5_printed (trace run) = []
  /\ file_md5_printed (trace run) = ["d41d8cd98f00b204e9800998ecf8427e"]
  /\ notices (trace run) = [NoticeUnknownCIC].
Proof. vm_compute. repeat split. Qed.

(** X8. The scenario of a little-endian image found by its file digest: the
    bytes are forwarded in big-endian order and the record's tags are
    published. *)
Lemma little_endian_file_digest_hit :
  let env := mkEnv (fun _ => Some rom_le)
               (fun _ => Some ["bdae46989d2dd5b60e2c9b68421372ad sram32k|rpak"]) in
  let run := n64_rom_tx (H := md5_hasher) env [] "rom" 0 ∅ in
  map (take 4) (tx_data (trace run)) = [[x80; x37; x12; x40]; [x01; x02; x03; x04]]
  /\ header_md5_printed (trace run) = ["eaa4097154101cf622f1fed91f944736"]
  /\ file_md5_printed (trace run) = ["bdae46989d2dd5b60e2c9b68421372ad"]
  /\ status_writes (trace run)
     = settings_writes
         (mkSettings MemoryType.SRAM_32k SystemType.NTSC CIC.CIC_NUS_6102
            false true false false)
  /\ notices (trace run) = [].
Proof. vm_compute. repeat split. Qed.

(** X7. The labels of each switch have pairwise distinct hashes, as a C
    switch requires. *)
Lemma switch_labels_distinct :
  NoDup (map (fun c => fnv_hash c.1) tag_cases)
  /\ NoDup (map (fun c => fnv_hash c.1) cart_cases).
Proof. split; (apply (bool_decide_unpack _); vm_compute; exact I). Qed.

Lemma apply_tag_recognised_witness :
  In ("sram32k", SetSaveType MemoryType.SRAM_32k) tag_cases
  /\ normalizeString "sRaM32K" = "sram32k"
  /\ apply_tag db_defaults "sRaM32K" ∅
     = ((assign db_defaults (SetSaveType MemoryType.SRAM_32k), ∅),
        [EvPrintf (DiagTag "sRaM32K")]).
Proof.
  assert (In ("sram32k", SetSaveType MemoryType.SRAM_32k) tag_cases) as Hin
    by (cbn; tauto).
  assert (normalizeString "sRaM32K" = "sram32k") as Hnorm by reflexivity.
  split; [exact Hin|]. split; [exact Hnorm|].
  exact (apply_tag_recognised db_defaults "sRaM32K" "sram32k"
           (SetSaveType MemoryType.SRAM_32k) ∅ Hin
           ltac:(discriminate) Hnorm).
Defined.

Lemma apply_tag_ddus_unreachable_witness :
  normalizeString "CICddus" = "cicddus"
  /\ apply_tag db_defaults "CICddus" ∅
     = ((db_defaults, ∅),
        [EvPrintf (DiagTag "CICddus"); EvPrintf (DiagUnknownTag "cicddus")]).
Proof.
  assert (normalizeString "CICddus" = "cicddus") as Hnorm by reflexivity.
  split; [exact Hnorm|].
  exact (apply_tag_ddus_unreachable db_defaults "CICddus" ∅ Hnorm).
Defined.

Lemma normalizer_stays_inside_buffer_witness :
  exists out,
    normalizeData (repeat x00 4096) 4095 RomFormat.LITTLE_ENDIAN = Some out
    /\ length out = BUF_SIZE.
Proof.
  apply (normalizer_stays_inside_buffer (repeat x00 4096) 4095
           RomFormat.LITTLE_ENDIAN); [vm_compute; lia|vm_compute; reflexivity].
Defined.

Lemma accepted_source_is_read_to_the_end_witness :
  let run := n64_rom_tx (H := md5_hasher) env_header_hit [] "rom" 0 ∅ in
  result run = 1
  /\ list_sum (read_sizes (trace run)) = length rom_be
  /\ length (concat (tx_data (trace run))) = length rom_be.
Proof.
  apply (accepted_source_is_read_to_the_end (H := md5_hasher) env_header_hit []
           "rom" 0 rom_be ∅); [reflexivity|vm_compute; lia].
Defined.

Lemma forwarded_bytes_are_the_normalized_source_witness :
  let run := n64_rom_tx (H := md5_hasher) (env_no_db rom_le) [] "rom" 0 ∅ in
  detectRomFormat rom_le = RomFormat.LITTLE_ENDIAN
  /\ exists out,
       normalize_chunk (detectRomFormat rom_le) rom_le = Some out
       /\ concat (tx_data (trace run)) = out.
Proof.
  split; [vm_compute; reflexivity|].
  apply (forwarded_bytes_are_the_normalized_source (H := md5_hasher)
           (env_no_db rom_le) [] "rom" 0 rom_le ∅);
    [reflexivity|vm_compute; lia|vm_compute; reflexivity].
Defined.
(* ===================================================================== *)
(** * More concrete runs *)
(* ===================================================================== *)


(** Two little-endian groups, there and back. *)
Lemma normalizeData_involution_witness :
  let data := [x40; x12; x37; x80; x04; x03; x02; x01] in
  exists out,
    normalizeData data (length data) RomFormat.LITTLE_ENDIAN = Some out
    /\ length out = length data
    /\ normalizeData out (length out) RomFormat.LITTLE_ENDIAN = Some data.
Proof.
  apply (normalizeData_involution RomFormat.LITTLE_ENDIAN
           [x40; x12; x37; x80; x04; x03; x02; x01]).
  reflexivity.
Defined.

(** The head of a byte-swapped 64DD image. *)
Lemma normalized_image_is_big_endian_witness :
  detectRomFormat [x27; x80; x40; x07; x01; x02] = RomFormat.BYTE_SWAPPED
  /\ detectRomFormat [x80; x27; x07; x40; x02; x01] = RomFormat.BIG_ENDIAN.
Proof.
  split; [reflexivity|].
  apply (normalized_image_is_big_endian [x27; x80; x40; x07; x01; x02] 6
           [x80; x27; x07; x40; x02; x01]);
    [lia|discriminate|reflexivity].
Defined.

Lemma fnv_hash_continues_witness :
  fnv_hash_from ("cic" +:+ "6102") FNV_OFFSET_BASIS
  = fnv_hash_from "6102" (fnv_hash_from "cic" FNV_OFFSET_BASIS)
  /\ fnv_hash_from ("cic" +:+ String zero "6102") FNV_OFFSET_BASIS
     = fnv_hash_from "cic" FNV_OFFSET_BASIS
  /\ 0 <= fnv_hash ("cic" +:+ "6102") < 2 ^ 64.
Proof. apply (fnv_hash_continues "cic" "6102" FNV_OFFSET_BASIS). reflexivity. Defined.

Lemma normalizeString_idempotent_witness :
  normalizeString "sRaM32K" = "sram32k"
  /\ string_forall (fun c => negb (isupper c)) (normalizeString "sRaM32K") = true.
Proof.
  split; [reflexivity|].
  destruct (normalizeString_idempotent "sRaM32K") as (_ & _ & Hlower).
  apply Hlower. reflexivity.
Defined.

Lemma md5_to_hex_faithful_witness :
  md5_to_hex (repeat xab 16) = "abababababababababababababababab"
  /\ String.length (md5_to_hex (repeat xab 16)) = 32%nat
  /\ string_forall is_lower_hex (md5_to_hex (repeat xab 16)) = true
  /\ (md5_to_hex (repeat xab 16) = md5_to_hex (repeat xab 8 ++ repeat xab 8) ->
      repeat xab 16 = repeat xab 8 ++ repeat xab 8).
Proof.
  split; [reflexivity|].
  apply (md5_to_hex_faithful (repeat xab 16) (repeat xab 8 ++ repeat xab 8));
    reflexivity.
Defined.

Lemma cic_switch_agrees_with_system_type_witness :
  cic_switch 0x000000a405397b05 SystemType.NTSC
  = Some (CIC.CIC_NUS_7102, SystemType.PAL)
  /\ (cic_region CIC.CIC_NUS_7102 = None
      \/ cic_region CIC.CIC_NUS_7102 = Some SystemType.PAL)
  /\ (SystemType.PAL = SystemType.NTSC
      \/ 0x000000a405397b05 = 0x000000a405397b05
      \/ 0x000000a405397b05 = 0x000000a0f26f62fe).
Proof.
  split; [reflexivity|].
  apply (cic_switch_agrees_with_system_type 0x000000a405397b05 SystemType.NTSC
           SystemType.PAL CIC.CIC_NUS_7102).
  reflexivity.
Defined.

(** The right stick of the first controller, with P2 and P3 both on. *)
Lemma stick_swap_keeps_int_range_witness :
  stick_swap 3 1 0 = (2, 1)
  /\ let '(num', stick') := stick_swap 3 1 0 in
     INT_MIN <= num' <= INT_MAX
     /\ (stick' = 0 \/ stick' = 1)
     /\ 1 - 2 <= num' <= 1 + 2
     /\ (0 <= 1 -> 0 <= num').
Proof.
  split; [reflexivity|].
  apply (stick_swap_keeps_int_range 3 1 0). unfold INT_MIN, INT_MAX. lia.
Defined.

Lemma stick_swap_reads_two_bits_witness :
  stick_swap 4 1 0 = stick_swap 0 1 0
  /\ (Z.land 4 3 = 0 -> stick_swap 4 1 0 = (1, 1)).
Proof. apply (stick_swap_reads_two_bits 4 0 1 0). reflexivity. Defined.

Lemma stick_swap_p2_one_to_one_witness :
  stick_swap 1 0 0 = stick_swap 1 0 0
  /\ (0 = 0 /\ 0 = 0)
  /\ stick_swap 2 2 0 = stick_swap 2 4 1.
Proof.
  split; [reflexivity|].
  apply (stick_swap_p2_one_to_one 1 0 0 0 0); [reflexivity|by left..|reflexivity].
Defined.

(** The second record of the main database: found by its exact key. *)
Lemma lookup_hit_needs_exact_key_witness :
  exists db_file_name lines rest tags,
    In db_file_name DB_FILE_NAMES
    /\ db_files env_two_records db_file_name = Some lines
    /\ In ("00000000000000000000000000000001" +:+ rest) lines
    /\ sscanf_tags ("00000000000000000000000000000001" +:+ rest) = Some tags.
Proof.
  apply (lookup_hit_needs_exact_key env_two_records
           "00000000000000000000000000000001" ∅);
    [reflexivity|vm_compute; reflexivity].
Defined.

(** The main database of [env_two_records]: a record for another hash
    and a line without tags are passed over, the third line decides, and
    the fourth is not looked at. *)
Lemma first_record_decides_witness :
  let r := detect_rom_settings_in_db env_two_records
             "00000000000000000000000000000001" "N64-database.txt" ∅ in
  record_settings "sram32k|cpak|SRAM96K|pal"
  = mkSettings MemoryType.SRAM_96k SystemType.PAL CIC.CIC_NUS_6102
      true false false false
  /\ result r = true
  /\ status_writes (trace r)
     = (if auto_detect_on ∅
        then settings_writes (record_settings "sram32k|cpak|SRAM96K|pal")
        else [])
  /\ final_status r = apply_writes (status_writes (trace r)) ∅.
Proof.
  split; [vm_compute; reflexivity|].
  apply (first_record_decides env_two_records
           "00000000000000000000000000000001" "N64-database.txt"
           ["ffffffffffffffffffffffffffffffff eeprom2k";
            "00000000000000000000000000000001"]
           "00000000000000000000000000000001 sram32k|cpak|SRAM96K|pal"
           "sram32k|cpak|SRAM96K|pal"
           ["00000000000000000000000000000001 flash128k"] ∅);
    vm_compute; reflexivity.
Defined.

(** A record is found for the header of [rom_be], and auto-detect is
    off. *)
Lemma auto_detect_off_writes_nothing_witness :
  let run := n64_rom_tx (H := md5_hasher) env_header_hit [] "rom" 0
               status_auto_detect_off in
  auto_detect_on status_auto_detect_off = false
  /\ status_writes (trace run) = []
  /\ final_status run = status_auto_detect_off
  /\ notices (trace run) = [].
Proof.
  assert (auto_detect_on status_auto_detect_off = false) as Hoff
    by (vm_compute; reflexivity).
  split; [exact Hoff|].
  exact (auto_detect_off_writes_nothing (H := md5_hasher) env_header_hit []
           "rom" 0 status_auto_detect_off Hoff).
Defined.

(** [rom_unknown_id]: no database, a checksum of the table, an
    identifier outside the table. *)
Lemma unknown_cart_id_writes_cic_only_witness :
  let run := n64_rom_tx (H := md5_hasher) (env_no_db rom_unknown_id) [] "rom" 0 ∅ in
  status_writes (trace run) = cic_writes SystemType.NTSC CIC.CIC_NUS_6102
  /\ notices (trace run) = [NoticeUnknownCartID]
  /\ result run = 1.
Proof.
  apply (unknown_cart_id_writes_cic_only (H := md5_hasher)
           (env_no_db rom_unknown_id) [] "rom" 0 rom_unknown_id ∅
           CIC.CIC_NUS_6102 SystemType.NTSC);
    [reflexivity|vm_compute; lia|vm_compute; reflexivity..].
Defined.

Lemma transfer_is_bracketed_witness :
  let run := n64_rom_tx (H := md5_hasher) env_header_hit [] "rom" 7 ∅ in
  control_events (trace run)
  = [EvSetIndex 7; EvSetDownload true; EvProgressClear; EvProcessSS "rom"]
    ++ map EvFileTxData (tx_data (trace run))
    ++ epilogue "rom"
    ++ map EvInfo (notices (trace run)).
Proof.
  apply (transfer_is_bracketed (H := md5_hasher) env_header_hit [] "rom" 7
           rom_be ∅); [reflexivity|right; vm_compute; lia].
Defined.

(** [rom_be], of 4100 bytes: two reports, of 0 and of 4096 bytes. *)
Lemma progress_reports_stop_short_witness :
  let run := n64_rom_tx (H := md5_hasher) env_header_hit [] "rom" 0 ∅ in
  progress_reports (trace run) = [(0%nat, 4100%nat); (4096%nat, 4100%nat)]
  /\ progress_reports (trace run)
     = map (fun k => ((k * BUF_SIZE)%nat, length rom_be))
         (seq 0 (length (read_sizes (trace run))))
  /\ Forall (fun report => (report.1 < report.2)%nat)
       (progress_reports (trace run)).
Proof.
  split; [vm_compute; reflexivity|].
  apply (progress_reports_stop_short (H := md5_hasher) env_header_hit []
           "rom" 0 rom_be ∅);
    [reflexivity|vm_compute; lia|vm_compute; discriminate].
Defined.

(** [rom_le] and [rom_be]: two dumps of one image. *)
Lemma detection_is_format_independent_witness :
  let env := mkEnv (fun name => if String.eqb name "le" then Some rom_le
                                else Some rom_be)
               (fun _ => None) in
  let run1 := n64_rom_tx (H := md5_hasher) env [] "le" 0 ∅ in
  let run2 := n64_rom_tx (H := md5_hasher) env [] "be" 0 ∅ in
  detectRomFormat rom_le = RomFormat.LITTLE_ENDIAN
  /\ detectRomFormat rom_be = RomFormat.BIG_ENDIAN
  /\ tx_data (trace run1) = tx_data (trace run2)
  /\ header_md5_printed (trace run1) = header_md5_printed (trace run2)
  /\ file_md5_printed (trace run1) = file_md5_printed (trace run2)
  /\ detection_events (trace run1) = detection_events (trace run2)
  /\ final_status run1 = final_status run2
  /\ notices (trace run1) = notices (trace run2).
Proof.
  split; [vm_compute; reflexivity|]. split; [vm_compute; reflexivity|].
  apply (detection_is_format_independent (H := md5_hasher)
           (mkEnv (fun name => if String.eqb name "le" then Some rom_le
                                else Some rom_be)
              (fun _ => None))
           [] [] "le" "be" 0 0 rom_le rom_be ∅);
    [reflexivity|reflexivity|vm_compute; lia|vm_compute; reflexivity..].
Defined.
